(** * A shallow embedding of the batch ETL pipeline [etl.py]

    The pipeline cleans a table of raw events, joins it to a table of
    users, keeps the rows of one country and counts events per user and
    day.  It is written against pandas; the frames, the column
    operations it calls and the interpreter state it runs in (object
    store, files, standard output) are modelled here, and the three
    transforms and the driver are transcribed on top of them.

    Modelling choices:
    - a cell holds a scalar: missing, integer, string, instant or
      calendar day; column types and the failures that come with them
      (join keys of different types) are not modelled, and the writer
      does not fail;
    - a JSON array in a raw event is a list in its cell, which cannot be
      hashed; the Cleaner is the transform that reads raw events, and
      [Nested] transcribes it on frames with such cells, where the
      deduplication can raise; on frames without them the two
      transcriptions agree ([nested_clean_events_scalars]);
    - [pd.to_datetime] is a parameter of the pipeline, a function from
      series to series, with the three properties stated below; the
      examples run on a small ISO-8601 parser;
    - the index labels of the frames the pipeline handles are unique, so
      assigning a series computed from a column of the same frame goes
      by position;
    - [merge] keeps the order of the left rows and lets missing keys
      match each other, as pandas does; a name clash among suffixed
      columns is not an error here;
    - a frame is an object in a store only where it crosses a function
      boundary; a frame built and updated inside one function is a
      value. *)

From Stdlib Require Import Ascii.
From stdpp Require Import base strings list gmap pretty sorting.

Local Open Scope string_scope.
Local Open Scope list_scope.

(** ** Cell values *)

(** What a cell of a frame holds.  [VNull] stands for every missing
    value of pandas ([NaN], [None], [NaT]): [isna] does not tell them
    apart.  Numbers are integers; a [VTime] is an instant in nanoseconds
    since the Unix epoch (a [Timestamp]), a [VDate] a calendar day
    counted in days since the epoch (a [datetime.date]). *)
Inductive value : Type :=
  | VNull
  | VInt (n : Z)
  | VStr (s : string)
  | VTime (ns : Z)
  | VDate (day : Z).

#[global] Instance value_eq_dec : EqDecision value.
Proof. solve_decision. Defined.

Definition isna (v : value) : bool :=
  match v with VNull => true | _ => false end.

Definition notna (v : value) : bool := negb (isna v).

Definition is_datetimelike (v : value) : bool :=
  match v with VNull | VTime _ => true | _ => false end.

(** ** Frames *)

(** A row carries its index label and one cell per column, by
    position. *)
Record Row : Type := mkRow { label : nat; cells : list value }.

#[global] Instance Row_eq_dec : EqDecision Row.
Proof. solve_decision. Defined.

Record DataFrame : Type := mkDF { columns : list string; rows : list Row }.

Definition len (df : DataFrame) : nat := length (rows df).

(** A frame is rectangular when every row has a cell for every
    column. *)
Definition rectangular (df : DataFrame) : Prop :=
  Forall (λ r, length (cells r) = length (columns df)) (rows df).

(** Position of the first column called [c]. *)
Fixpoint col_pos (c : string) (cols : list string) : option nat :=
  match cols with
  | [] => None
  | c' :: cs => if decide (c = c') then Some 0 else S <$> col_pos c cs
  end.

(** A cell that is not there reads as missing. *)
Definition cell (p : nat) (r : Row) : value := default VNull (cells r !! p).

Definition set_cell (p : nat) (r : Row) (v : value) : Row :=
  {| label := label r; cells := <[p := v]> (cells r) |}.

Definition add_cell (r : Row) (v : value) : Row :=
  {| label := label r; cells := cells r ++ [v] |}.

(** ** Exceptions *)

Inductive exn : Type :=
  | KeyError (key : string)
  | AttributeError (msg : string)
  | FileNotFoundError (path : string)
  | ReferenceError (ref : nat)
  | TypeError (msg : string).

Inductive result (A : Type) : Type :=
  | Ok (a : A)
  | Raise (e : exn).
Arguments Ok {A} a.
Arguments Raise {A} e.

(** ** The pandas operations the pipeline calls *)

Definition loc (cols : list string) (c : string) : result nat :=
  match col_pos c cols with
  | Some p => Ok p
  | None => Raise (KeyError c)
  end.

Fixpoint locs (cols : list string) (subset : list string) : result (list nat) :=
  match subset with
  | [] => Ok []
  | c :: cs =>
      match loc cols c with
      | Raise e => Raise e
      | Ok p =>
          match locs cols cs with
          | Raise e => Raise e
          | Ok ps => Ok (p :: ps)
          end
      end
  end.

(** [df[c]]: the column as a series of values. *)
Definition getitem (df : DataFrame) (c : string) : result (list value) :=
  match loc (columns df) c with
  | Raise e => Raise e
  | Ok p => Ok (cell p <$> rows df)
  end.

(** [df[c] = series]: overwrite column [c], or append it when the frame
    has no such column.  The series the pipeline assigns is computed
    from a column of the same frame, so it lines up with the rows. *)
Definition setitem (df : DataFrame) (c : string) (series : list value) : DataFrame :=
  match col_pos c (columns df) with
  | Some p =>
      {| columns := columns df;
         rows := zip_with (set_cell p) (rows df) series |}
  | None =>
      {| columns := columns df ++ [c];
         rows := zip_with add_cell (rows df) series |}
  end.

(** Keep the elements whose mask entry is true. *)
Fixpoint compress {A} (mask : list bool) (l : list A) : list A :=
  match mask, l with
  | b :: mask', x :: l' =>
      if b then x :: compress mask' l' else compress mask' l'
  | _, _ => []
  end.

(** [df[mask]]: boolean indexing; labels are kept. *)
Definition getitem_mask (df : DataFrame) (mask : list bool) : DataFrame :=
  {| columns := columns df; rows := compress mask (rows df) |}.

(** [series.sum()] of a boolean series. *)
Definition sum (mask : list bool) : nat := length (filter Is_true mask).

(** [df.dropna(subset=...)]: a new frame without the rows that miss a
    value in one of the listed columns. *)
Definition dropna (df : DataFrame) (subset : list string) : result DataFrame :=
  match locs (columns df) subset with
  | Raise e => Raise e
  | Ok ps =>
      Ok (getitem_mask df
            ((λ r, forallb (λ p, notna (cell p r)) ps) <$> rows df))
  end.

(** [duplicated(keep="first")]: an entry is true when an earlier row
    carries the same key.  Missing values are equal to each other
    here. *)
Fixpoint duplicated_from (seen : list (list value)) (keys : list (list value))
  : list bool :=
  match keys with
  | [] => []
  | k :: ks => bool_decide (k ∈ seen) :: duplicated_from (k :: seen) ks
  end.

Definition duplicated (keys : list (list value)) : list bool :=
  duplicated_from [] keys.

Definition key_at (ps : list nat) (r : Row) : list value :=
  (λ p, cell p r) <$> ps.

(** [df.drop_duplicates(subset=...)]. *)
Definition drop_duplicates (df : DataFrame) (subset : list string) : result DataFrame :=
  match locs (columns df) subset with
  | Raise e => Raise e
  | Ok ps =>
      Ok (getitem_mask df (negb <$> duplicated (key_at ps <$> rows df)))
  end.

(** A column name that also occurs on the other side gets a suffix. *)
Definition suffixed (sfx : string) (others : list string) (c : string) : string :=
  if bool_decide (c ∈ others) then c +:+ sfx else c.

(** [left.merge(right, on=on, how="inner")]: for each left row, in
    order, one output row per right row with an equal key (missing keys
    match each other); the key column is taken from the left; the result
    gets a fresh range index. *)
Definition merge (left right : DataFrame) (on : string) : result DataFrame :=
  match loc (columns left) on with
  | Raise e => Raise e
  | Ok pl =>
      match loc (columns right) on with
      | Raise e => Raise e
      | Ok pr =>
          let lcols := columns left in
          let rcols := delete pr (columns right) in
          Ok {| columns :=
                  (suffixed "_x" rcols <$> lcols) ++ (suffixed "_y" lcols <$> rcols);
                rows :=
                  imap mkRow
                    (l ← rows left;
                     (λ r, cells l ++ delete pr (cells r))
                       <$> filter (λ r, cell pr r = cell pl l) (rows right)) |}
      end
  end.

Definition ns_per_day : Z := 86400 * 10 ^ 9.

Definition date_of (v : value) : value :=
  match v with
  | VTime ns => VDate (ns `div` ns_per_day)
  | _ => VNull
  end.

(** [series.dt.date]: only for a series of date-times. *)
Definition dt_date (series : list value) : result (list value) :=
  if forallb is_datetimelike series then Ok (date_of <$> series)
  else Raise (AttributeError "Can only use .dt accessor with datetimelike values").

(** Order of group keys: numbers before strings, each kind by its own
    order, keys compared position by position. *)
Definition rank (v : value) : nat :=
  match v with
  | VNull => 0 | VInt _ => 1 | VStr _ => 2 | VTime _ => 3 | VDate _ => 4
  end.

Definition value_leb (a b : value) : bool :=
  match a, b with
  | VInt x, VInt y => (x <=? y)%Z
  | VStr x, VStr y => String.leb x y
  | VTime x, VTime y => (x <=? y)%Z
  | VDate x, VDate y => (x <=? y)%Z
  | _, _ => (rank a <=? rank b)%nat
  end.

Fixpoint key_leb (k1 k2 : list value) : bool :=
  match k1, k2 with
  | [], _ => true
  | _ :: _, [] => false
  | a :: k1', b :: k2' =>
      if bool_decide (a = b) then key_leb k1' k2' else value_leb a b
  end.

Definition group_le (g1 g2 : list value * nat) : Prop := key_leb g1.1 g2.1.

(** One more occurrence of key [k]. *)
Fixpoint bump (k : list value) (groups : list (list value * nat))
  : list (list value * nat) :=
  match groups with
  | [] => [(k, 1)]
  | (k', n) :: gs =>
      if decide (k = k') then (k', S n) :: gs else (k', n) :: bump k gs
  end.

Definition group_sizes (keys : list (list value)) : list (list value * nat) :=
  foldl (λ groups k, bump k groups) [] keys.

(** [df.groupby(by).size().reset_index(name=name)]: rows with a missing
    key are left out, groups come sorted by key. *)
Definition groupby_size (df : DataFrame) (by_ : list string) (name : string)
  : result DataFrame :=
  match locs (columns df) by_ with
  | Raise e => Raise e
  | Ok ps =>
      let keys := filter (λ k, forallb notna k) (key_at ps <$> rows df) in
      Ok {| columns := by_ ++ [name];
            rows :=
              imap (λ i g, mkRow i (g.1 ++ [VInt (Z.of_nat g.2)]))
                (merge_sort group_le (group_sizes keys)) |}
  end.

(** ** Interpreter state *)

(** Frames are objects: a variable holds a reference into the store.
    Files hold the table the loader reads from them or the writer put
    there. *)
Record world : Type := World {
  heap : list DataFrame;
  files : gmap string DataFrame;
  stdout : list string
}.

Definition Py (A : Type) : Type := world → result A * world.

Definition ret {A} (a : A) : Py A := λ w, (Ok a, w).

Definition bind {A B} (m : Py A) (k : A → Py B) : Py B :=
  λ w, match m w with
       | (Ok a, w') => k a w'
       | (Raise e, w') => (Raise e, w')
       end.

Notation "'let*' x ':=' m 'in' k" := (bind m (λ x, k))
  (at level 10, x name, m at level 100, k at level 200).
Notation "m ';;' k" := (bind m (λ _, k))
  (at level 100, k at level 200, right associativity).

Definition lift {A} (r : result A) : Py A := λ w, (r, w).

Definition print (line : string) : Py unit :=
  λ w, (Ok (), World (heap w) (files w) (stdout w ++ [line])).

(** A new object. *)
Definition new (df : DataFrame) : Py nat :=
  λ w, (Ok (length (heap w)), World (heap w ++ [df]) (files w) (stdout w)).

Definition deref (r : nat) : Py DataFrame :=
  λ w, match heap w !! r with
       | Some df => (Ok df, w)
       | None => (Raise (ReferenceError r), w)
       end.

(** In-place update of the object behind [r]. *)
Definition assign (r : nat) (df : DataFrame) : Py unit :=
  λ w, (Ok (), World (<[r := df]> (heap w)) (files w) (stdout w)).

Definition read_table (path : string) : Py DataFrame :=
  λ w, match files w !! path with
       | Some df => (Ok df, w)
       | None => (Raise (FileNotFoundError path), w)
       end.

Definition write_table (path : string) (df : DataFrame) : Py unit :=
  λ w, (Ok (), World (heap w) (<[path := df]> (files w)) (stdout w)).

(** A computation that leaves the files as they are. *)
Definition keeps_files {A} (m : Py A) : Prop := ∀ w, files (m w).2 = files w.

(** ** One date-time parser *)

(** [pd.to_datetime] belongs to pandas; the pipeline below takes it as a
    parameter.  The parser defined here is one instance, reading the
    stamps [YYYY-MM-DD], [YYYY-MM-DDThh:mm:ss] and [YYYY-MM-DDThh:mm:ssZ]
    as UTC; it is what the worked examples run on. *)

Definition digit (a : ascii) : option Z :=
  let n := Z.of_N (N_of_ascii a) in
  if ((48 <=? n) && (n <=? 57))%Z then Some (n - 48)%Z else None.

Fixpoint digits (n : nat) (acc : Z) (s : string) : option (Z * string) :=
  match n with
  | 0 => Some (acc, s)
  | S n' =>
      match s with
      | String a s' => d ← digit a; digits n' (acc * 10 + d)%Z s'
      | EmptyString => None
      end
  end.

Definition expect (c : ascii) (s : string) : option string :=
  match s with
  | String a s' => if decide (a = c) then Some s' else None
  | EmptyString => None
  end.

(** Days from the epoch to a day of the proleptic Gregorian calendar. *)
Definition days_from_civil (y m d : Z) : Z :=
  let y' := if (m <=? 2)%Z then (y - 1)%Z else y in
  let era := (y' `div` 400)%Z in
  let yoe := (y' - era * 400)%Z in
  let mp := if (m <=? 2)%Z then (m + 9)%Z else (m - 3)%Z in
  let doy := ((153 * mp + 2) `div` 5 + d - 1)%Z in
  let doe := (yoe * 365 + yoe `div` 4 - yoe `div` 100 + doy)%Z in
  (era * 146097 + doe - 719468)%Z.

Definition clock (s : string) : option Z :=
  '(hh, s) ← digits 2 0 s;
  s ← expect ":" s;
  '(mm, s) ← digits 2 0 s;
  s ← expect ":" s;
  '(ss, s) ← digits 2 0 s;
  if bool_decide (s = "" ∨ s = "Z") && (hh <? 24)%Z && (mm <? 60)%Z && (ss <? 60)%Z
  then Some ((hh * 3600 + mm * 60 + ss) * 10 ^ 9)%Z
  else None.

Definition iso8601 (s : string) : option Z :=
  '(y, s) ← digits 4 0 s;
  s ← expect "-" s;
  '(m, s) ← digits 2 0 s;
  s ← expect "-" s;
  '(d, s) ← digits 2 0 s;
  if (1 <=? m)%Z && (m <=? 12)%Z && (1 <=? d)%Z && (d <=? 31)%Z then
    match s with
    | EmptyString => Some (days_from_civil y m d * ns_per_day)%Z
    | String a s' =>
        if decide (a = "T"%char) then
          t ← clock s'; Some (days_from_civil y m d * ns_per_day + t)%Z
        else None
    end
  else None.

Definition iso_cell (v : value) : value :=
  match v with
  | VStr s => match iso8601 s with Some ns => VTime ns | None => VNull end
  | VTime ns => VTime ns
  | _ => VNull
  end.

Definition iso_to_datetime (series : list value) : list value :=
  iso_cell <$> series.

(** ** Configuration *)

Definition RAW_EVENTS_PATH : string := "./data/raw_events.json".
Definition USERS_PATH : string := "./data/users.csv".
Definition OUTPUT_DIR : string := "./output".
Definition CLEAN_EVENTS_PATH : string := OUTPUT_DIR +:+ "/clean_events.parquet".
Definition DAILY_SUMMARY_PATH : string := OUTPUT_DIR +:+ "/daily_summary.parquet".

Definition startswith (s pre : string) : bool := String.prefix pre s.

(** ** Frames with array cells *)

(** [pd.json_normalize] flattens nested objects into dotted columns and
    leaves a JSON array where it stands: the cell holds a Python list.
    Such a cell is not missing, and it cannot be hashed.  The frames
    above are the frames without such cells.  The Cleaner is the one
    transform that meets the raw events, so it is transcribed once more
    here, on frames that may hold lists.

    The frame is passed and returned as a value: [clean_events] rebinds
    [df] to the copy that [dropna] returns before it assigns a column, so
    it never writes to the caller's object. *)
Module Nested.

Inductive pyvalue : Type :=
  | Scalar (v : value)
  | PyList (items : list value).

#[global] Instance pyvalue_eq_dec : EqDecision pyvalue.
Proof. solve_decision. Defined.

Definition isna (c : pyvalue) : bool :=
  match c with Scalar v => isna v | PyList _ => false end.

Definition notna (c : pyvalue) : bool := negb (isna c).

Definition hashable (c : pyvalue) : bool :=
  match c with Scalar _ => true | PyList _ => false end.

Record Row : Type := mkRow { label : nat; cells : list pyvalue }.

Record DataFrame : Type := mkDF { columns : list string; rows : list Row }.

Definition len (df : DataFrame) : nat := length (rows df).

Definition cell (p : nat) (r : Row) : pyvalue :=
  default (Scalar VNull) (cells r !! p).

Definition set_cell (p : nat) (r : Row) (c : pyvalue) : Row :=
  {| label := label r; cells := <[p := c]> (cells r) |}.

Definition add_cell (r : Row) (c : pyvalue) : Row :=
  {| label := label r; cells := cells r ++ [c] |}.

Definition field (df : DataFrame) (c : string) (r : Row) : pyvalue :=
  match col_pos c (columns df) with
  | Some p => cell p r
  | None => Scalar VNull
  end.

Definition getitem (df : DataFrame) (c : string) : result (list pyvalue) :=
  match loc (columns df) c with
  | Raise e => Raise e
  | Ok p => Ok (cell p <$> rows df)
  end.

Definition setitem (df : DataFrame) (c : string) (series : list pyvalue) : DataFrame :=
  match col_pos c (columns df) with
  | Some p =>
      {| columns := columns df;
         rows := zip_with (set_cell p) (rows df) series |}
  | None =>
      {| columns := columns df ++ [c];
         rows := zip_with add_cell (rows df) series |}
  end.

Definition getitem_mask (df : DataFrame) (mask : list bool) : DataFrame :=
  {| columns := columns df; rows := compress mask (rows df) |}.

Definition dropna (df : DataFrame) (subset : list string) : result DataFrame :=
  match locs (columns df) subset with
  | Raise e => Raise e
  | Ok ps =>
      Ok (getitem_mask df
            ((λ r, forallb (λ p, notna (cell p r)) ps) <$> rows df))
  end.

Fixpoint duplicated_from (seen : list (list pyvalue)) (keys : list (list pyvalue))
  : list bool :=
  match keys with
  | [] => []
  | k :: ks => bool_decide (k ∈ seen) :: duplicated_from (k :: seen) ks
  end.

Definition duplicated (keys : list (list pyvalue)) : list bool :=
  duplicated_from [] keys.

Definition key_at (ps : list nat) (r : Row) : list pyvalue :=
  (λ p, cell p r) <$> ps.

(** [df.drop_duplicates(subset=...)]: the values of each compared column
    go through a hash table, so a list in one of them is a [TypeError];
    in a frame without rows there is nothing to hash. *)
Definition drop_duplicates (df : DataFrame) (subset : list string) : result DataFrame :=
  match locs (columns df) subset with
  | Raise e => Raise e
  | Ok ps =>
      let keys := key_at ps <$> rows df in
      if forallb (forallb hashable) keys
      then Ok (getitem_mask df (negb <$> duplicated keys))
      else Raise (TypeError "unhashable type: 'list'")
  end.

(** The ISO parser on a series that may hold lists: with
    [errors="coerce"] a list becomes [NaT]. *)
Definition iso_to_datetime (series : list pyvalue) : list value :=
  (λ c, match c with Scalar v => iso_cell v | PyList _ => VNull end) <$> series.

Section Cleaner.

(** [pd.to_datetime(series, errors="coerce")] on a series that may hold
    lists. *)
Variable to_datetime : list pyvalue → list value.

Definition clean_events (d : DataFrame) : Py DataFrame :=
  let initial_count := len d in
  let* user_id := lift (getitem d "user_id") in
  let missing_user_id_count := sum (isna <$> user_id) in
  let* d := lift (dropna d ["user_id"]) in
  let* timestamp := lift (getitem d "timestamp") in
  let d := setitem d "timestamp" (Scalar <$> to_datetime timestamp) in
  let* timestamp := lift (getitem d "timestamp") in
  let invalid_timestamps_count := sum (isna <$> timestamp) in
  let* d := lift (dropna d ["timestamp"]) in
  let metadata_cols := filter (λ c, startswith c "metadata.") (columns d) in
  let dedupe_cols := filter (λ c, c ∉ metadata_cols) (columns d) in
  let before_dedupe := len d in
  let* d := lift (drop_duplicates d dedupe_cols) in
  let deduped_count := before_dedupe - len d in
  print ("Initial row count: " +:+ pretty initial_count) ;;
  print ("Rows dropped due to bad users: " +:+ pretty missing_user_id_count) ;;
  print ("Rows dropped due to invalid timestamps: "
         +:+ pretty invalid_timestamps_count) ;;
  print ("Rows dropped due to duplicates: " +:+ pretty deduped_count) ;;
  print ("Remaining rows after cleaning: " +:+ pretty (len d)) ;;
  ret d.

(** The rows that reach the deduplication step. *)
Definition valid_rows (pu pt : nat) (d : DataFrame) : list Row :=
  let rs := filter (λ r, notna (cell pu r)) (rows d) in
  filter (λ r, notna (cell pt r))
    (zip_with (set_cell pt) rs (Scalar <$> to_datetime (cell pt <$> rs))).

End Cleaner.

End Nested.

(** A frame of scalars as a frame that may hold lists. *)
Definition nested_row (r : Row) : Nested.Row :=
  Nested.mkRow (label r) (Nested.Scalar <$> cells r).

Definition nested (d : DataFrame) : Nested.DataFrame :=
  Nested.mkDF (columns d) (nested_row <$> rows d).

(** ** The worked example *)

Definition example_events : DataFrame :=
  mkDF ["user_id"; "timestamp"]
    [mkRow 0 [VInt 1; VStr "2024-01-01T10:00:00Z"];
     mkRow 1 [VInt 1; VStr "2024-01-01T10:00:00Z"];
     mkRow 2 [VNull; VStr "2024-01-02T00:00:00Z"];
     mkRow 3 [VInt 2; VStr "not-a-date"]].

Definition example_users : DataFrame :=
  mkDF ["user_id"; "country"; "signup_date"]
    [mkRow 0 [VInt 1; VStr "US"; VStr "2023-01-01"];
     mkRow 1 [VInt 2; VStr "CA"; VStr "2023-02-01"]].

Definition example_world : world :=
  World [example_events; example_users] ∅ [].

(** Events that differ in a metadata column only. *)
Definition metadata_events : DataFrame :=
  mkDF ["user_id"; "timestamp"; "metadata.source"]
    [mkRow 0 [VInt 1; VStr "2024-01-01T10:00:00Z"; VStr "web"];
     mkRow 1 [VInt 1; VStr "2024-01-01T10:00:00Z"; VStr "app"];
     mkRow 2 [VInt 2; VStr "2024-01-01T10:00:00Z"; VStr "web"]].

(** Cleaned events of four users, and users of whom one is in the
    segment (with a signup date that does not parse), one is not, one
    has no country, and none matches the fourth event. *)
Definition cleaned_events : DataFrame :=
  mkDF ["user_id"; "timestamp"]
    [mkRow 0 [VInt 1; VTime 1704103200000000000];
     mkRow 1 [VInt 2; VTime 1704103200000000000];
     mkRow 3 [VInt 3; VTime 1704106800000000000];
     mkRow 5 [VInt 4; VTime 1704110400000000000]].

Definition segment_users : DataFrame :=
  mkDF ["user_id"; "country"; "signup_date"]
    [mkRow 0 [VInt 1; VStr "US"; VStr "not-a-date"];
     mkRow 1 [VInt 2; VStr "CA"; VStr "2023-02-01"];
     mkRow 2 [VInt 3; VNull; VStr "2023-03-01"]].

Definition join_world : world := World [cleaned_events; segment_users] ∅ [].

(** An enriched table: user 1 twice on one day and once on the next,
    user 2 once. *)
Definition enriched_events : DataFrame :=
  mkDF ["user_id"; "timestamp"; "country"; "signup_date"]
    [mkRow 0 [VInt 1; VTime 1704103200000000000; VStr "US"; VNull];
     mkRow 1 [VInt 1; VTime 1704106800000000000; VStr "US"; VNull];
     mkRow 2 [VInt 2; VTime 1704103200000000000; VStr "US"; VNull];
     mkRow 3 [VInt 1; VTime 1704189600000000000; VStr "US"; VNull]].

(** The example tables as the files the driver reads. *)
Definition example_disk : world :=
  World []
    (<[RAW_EVENTS_PATH := example_events]> (<[USERS_PATH := example_users]> ∅))
    [].


Definition users_with_timestamp : DataFrame :=
  mkDF ["user_id"; "country"; "signup_date"; "timestamp"]
    [mkRow 0 [VInt 1; VStr "US"; VStr "2023-01-01"; VStr "2023-01-01"]].

Definition enriched_with_gaps : DataFrame :=
  mkDF ["user_id"; "timestamp"; "country"; "signup_date"]
    [mkRow 0 [VInt 1; VTime 1704103200000000000; VStr "US"; VNull];
     mkRow 1 [VInt 1; VNull; VStr "US"; VNull];
     mkRow 2 [VNull; VTime 1704103200000000000; VStr "US"; VNull];
     mkRow 3 [VInt 1; VTime 1704106800000000000; VStr "US"; VNull]].

Definition anonymous_events : DataFrame :=
  mkDF ["user_id"; "timestamp"]
    [mkRow 0 [VNull; VStr "2024-01-01T10:00:00Z"];
     mkRow 1 [VNull; VStr "2024-01-02T00:00:00Z"]].

Definition no_users_disk : world :=
  World []
    (<[RAW_EVENTS_PATH := anonymous_events]> (<[USERS_PATH := example_users]> ∅))
    [].

(** Events as [json_normalize] returns them when a record carries an
    array: the tags of the first event are a list. *)
Definition tagged_events : Nested.DataFrame :=
  Nested.mkDF ["user_id"; "timestamp"; "tags"]
    [Nested.mkRow 0 [Nested.Scalar (VInt 1);
                     Nested.Scalar (VStr "2024-01-01T10:00:00Z");
                     Nested.PyList [VStr "new"; VStr "mobile"]];
     Nested.mkRow 1 [Nested.Scalar (VInt 2);
                     Nested.Scalar (VStr "2024-01-01T11:00:00Z");
                     Nested.Scalar VNull]].

(** Users without a signup date; an enriched table that has lost its
    user_id column. *)
Definition users_without_signup : DataFrame :=
  mkDF ["user_id"; "country"]
    [mkRow 0 [VInt 1; VStr "US"];
     mkRow 1 [VInt 2; VStr "CA"]].

Definition events_without_user : DataFrame :=
  mkDF ["timestamp"; "country"]
    [mkRow 0 [VTime 1704103200000000000; VStr "US"]].

(** The same array under the metadata object: the column is outside the
    deduplication. *)
Definition metadata_tagged_events : Nested.DataFrame :=
  Nested.mkDF ["user_id"; "timestamp"; "metadata.tags"]
    [Nested.mkRow 0 [Nested.Scalar (VInt 1);
                     Nested.Scalar (VStr "2024-01-01T10:00:00Z");
                     Nested.PyList [VStr "new"; VStr "mobile"]];
     Nested.mkRow 1 [Nested.Scalar (VInt 1);
                     Nested.Scalar (VStr "2024-01-01T10:00:00Z");
                     Nested.Scalar VNull]].

(** Files whose users table has a timestamp column. *)
Definition clash_disk : world :=
  World []
    (<[RAW_EVENTS_PATH := example_events]>
       (<[USERS_PATH := users_with_timestamp]> ∅))
    [].

(** A premise about concrete tables is settled by evaluating it. *)
Ltac by_evaluation := first [vm_compute; reflexivity | compute_done].

(** ** The pipeline *)

Section Pipeline.

(** [pd.to_datetime(series, errors="coerce")]: a series in, a series
    out. *)
Variable to_datetime : list value → list value.

(** *** Extract *)

Definition load_json_df (path : string) : Py nat :=
  let* df := read_table path in
  new df.

Definition load_csv_df (path : string) : Py nat :=
  let* df := read_table path in
  new df.

(** *** Transform *)

Definition clean_events (df : nat) : Py nat :=
  let* d := deref df in
  let initial_count := len d in
  let* user_id := lift (getitem d "user_id") in
  let missing_user_id_count := sum (isna <$> user_id) in
  let* d := lift (dropna d ["user_id"]) in
  let* timestamp := lift (getitem d "timestamp") in
  let d := setitem d "timestamp" (to_datetime timestamp) in
  let* timestamp := lift (getitem d "timestamp") in
  let invalid_timestamps_count := sum (isna <$> timestamp) in
  let* d := lift (dropna d ["timestamp"]) in
  let metadata_cols := filter (λ c, startswith c "metadata.") (columns d) in
  let dedupe_cols := filter (λ c, c ∉ metadata_cols) (columns d) in
  let before_dedupe := len d in
  let* d := lift (drop_duplicates d dedupe_cols) in
  let deduped_count := before_dedupe - len d in
  print ("Initial row count: " +:+ pretty initial_count) ;;
  print ("Rows dropped due to bad users: " +:+ pretty missing_user_id_count) ;;
  print ("Rows dropped due to invalid timestamps: "
         +:+ pretty invalid_timestamps_count) ;;
  print ("Rows dropped due to duplicates: " +:+ pretty deduped_count) ;;
  print ("Remaining rows after cleaning: " +:+ pretty (len d)) ;;
  new d.

Definition join_and_filter (events users : nat) : Py nat :=
  let* e := deref events in
  let* u := deref users in
  let* joined := lift (merge e u "user_id") in
  let before_filter := len joined in
  let* country := lift (getitem joined "country") in
  let joined :=
    getitem_mask joined ((λ v, bool_decide (v = VStr "US")) <$> country) in
  let filtered := before_filter - len joined in
  print ("Rows dropped due to non-US filter: " +:+ pretty filtered) ;;
  print ("Row count after join + filter: " +:+ pretty (len joined)) ;;
  let* signup_date := lift (getitem joined "signup_date") in
  let joined := setitem joined "signup_date" (to_datetime signup_date) in
  new joined.

(** The first statement writes into the caller's frame. *)
Definition create_daily_summary (df : nat) : Py nat :=
  let* d := deref df in
  let* timestamp := lift (getitem d "timestamp") in
  let* event_date := lift (dt_date timestamp) in
  assign df (setitem d "event_date" event_date) ;;
  let* d := deref df in
  let* daily_summary :=
    lift (groupby_size d ["event_date"; "user_id"] "event_count") in
  new daily_summary.

(** *** Load *)

Definition write_parquet (df : nat) (path : string) : Py unit :=
  let* d := deref df in
  write_table path d ;;
  print ("Wrote " +:+ pretty (len d) +:+ " rows to " +:+ path).

(** *** Main *)

Definition main : Py unit :=
  print "ETL pipeline starting..." ;;
  let* events := load_json_df RAW_EVENTS_PATH in
  let* users := load_csv_df USERS_PATH in
  let* clean := clean_events events in
  let* enriched := join_and_filter clean users in
  let* daily_summary := create_daily_summary enriched in
  write_parquet enriched CLEAN_EVENTS_PATH ;;
  write_parquet daily_summary DAILY_SUMMARY_PATH ;;
  print "ETL pipeline completed successfully".



(** ** Auxiliary definitions for the statements *)

(** The cell of row [r] in the column called [c]. *)
Definition field (df : DataFrame) (c : string) (r : Row) : value :=
  match col_pos c (columns df) with
  | Some p => cell p r
  | None => VNull
  end.

(** Identity columns are the ones outside the [metadata.] name space. *)
Definition identity_col (c : string) : Prop := ¬ startswith c "metadata.".

Definition same_identity (df : DataFrame) (r1 r2 : Row) : Prop :=
  ∀ c, c ∈ columns df → identity_col c → field df c r1 = field df c r2.

(** The columns the deduplication compares. *)
Definition identity_cols (cols : list string) : list string :=
  filter (λ c, c ∉ filter (λ c, startswith c "metadata.") cols) cols.

(** The rows that reach the deduplication step: user present, timestamp
    parsed. *)
Definition valid_rows (pu pt : nat) (d : DataFrame) : list Row :=
  let rs := filter (λ r, notna (cell pu r)) (rows d) in
  filter (λ r, notna (cell pt r))
    (zip_with (set_cell pt) rs (to_datetime (cell pt <$> rs))).

(** [ends_with sfx s]: [s] ends in [sfx]. *)
Fixpoint ends_with (sfx s : string) : bool :=
  if decide (s = sfx) then true
  else match s with
       | String _ s' => ends_with sfx s'
       | EmptyString => false
       end.

(** Position of a column once the column at [pr] is gone. *)
Definition shifted (pr p : nat) : nat := if decide (p < pr) then p else pred p.

(** The frame [merge] builds, given where the key sits on each side. *)
Definition joined_columns (pr : nat) (e u : DataFrame) : list string :=
  (suffixed "_x" (delete pr (columns u)) <$> columns e)
  ++ (suffixed "_y" (columns e) <$> delete pr (columns u)).

Definition joined_rows (pl pr : nat) (e u : DataFrame) : list Row :=
  imap mkRow
    (l ← rows e;
     (λ r, cells l ++ delete pr (cells r))
       <$> filter (λ r, cell pr r = cell pl l) (rows u)).

(** The inner join as the design describes it: the pairs of an event and
    a user that agree on the key, events in their order, users in theirs
    within one event. *)
Definition inner_join (e u : DataFrame) (on : string) : list (Row * Row) :=
  filter (λ m, field e on m.1 = field u on m.2)
    (l ← rows e; r ← rows u; [(l, r)]).

(** The segment filter on those pairs. *)
Definition in_segment (u : DataFrame) (m : Row * Row) : Prop :=
  field u "country" m.2 = VStr "US".

#[global] Instance in_segment_dec u m : Decision (in_segment u m).
Proof. unfold in_segment. apply _. Defined.

(** An enriched row: the event's cells, then the user's cells without
    the key, the signup date replaced by [v]. *)
Definition enriched_cells (pr ps : nat) (m : Row * Row) (v : value) : list value :=
  cells m.1 ++ delete pr (<[ps := v]> (cells m.2)).

Definition clean_log (initial missing invalid deduped remaining : nat) : list string :=
  ["Initial row count: " +:+ pretty initial;
   "Rows dropped due to bad users: " +:+ pretty missing;
   "Rows dropped due to invalid timestamps: " +:+ pretty invalid;
   "Rows dropped due to duplicates: " +:+ pretty deduped;
   "Remaining rows after cleaning: " +:+ pretty remaining].

(** Row [o] of the merged frame is event and user of the pair [m], the
    event having [n] cells. *)
Definition joins (pr n : nat) (o : Row) (m : Row * Row) : Prop :=
  cells o = cells m.1 ++ delete pr (cells m.2) ∧ length (cells m.1) = n.

(** Same event, same user up to the signup date. *)
Definition same_pair (ps : nat) (m2 m : Row * Row) : Prop :=
  m2.1 = m.1 ∧ ∃ val, m2.2 = set_cell ps m.2 val.

(** The group of an enriched row: its calendar day and its user. *)
Definition group_of (pt pu : nat) (r : Row) : list value :=
  [date_of (cell pt r); cell pu r].

(** The count a summary row reports. *)
Definition event_count (s : DataFrame) (g : Row) : nat :=
  match field s "event_count" g with
  | VInt n => Z.to_nat n
  | _ => 0
  end.

(** The frame the Aggregator builds from the sizes of the groups. *)
Definition summary_of (groups : list (list value * nat)) : DataFrame :=
  mkDF ["event_date"; "user_id"; "event_count"]
    (imap (λ i g, mkRow i (g.1 ++ [VInt (Z.of_nat g.2)]))
       (merge_sort group_le groups)).

Definition join_log (dropped remaining : nat) : list string :=
  ["Rows dropped due to non-US filter: " +:+ pretty dropped;
   "Row count after join + filter: " +:+ pretty remaining].

(** The frames the transforms build, given where the columns sit. *)
Definition cleaned_frame (pu pt : nat) (ids : list nat) (d : DataFrame) : DataFrame :=
  let valid := valid_rows pu pt d in
  mkDF (columns d) (compress (negb <$> duplicated (key_at ids <$> valid)) valid).

Definition enriched_frame (pl pr qc qs : nat) (e u : DataFrame) : DataFrame :=
  let selected := filter (λ r, cell qc r = VStr "US") (joined_rows pl pr e u) in
  mkDF (joined_columns pr e u)
    (zip_with (set_cell qs) selected (to_datetime (cell qs <$> selected))).

Definition dated_frame (pt : nat) (d : DataFrame) : DataFrame :=
  setitem d "event_date" (date_of <$> (cell pt <$> rows d)).

Definition summary_frame (ps : list nat) (d : DataFrame) : DataFrame :=
  summary_of
    (group_sizes (filter (λ k, forallb notna k) (key_at ps <$> rows d))).

(** What the pipeline relies on from [pd.to_datetime(_, errors="coerce")]:
    one output per input; every output is a date-time or missing; a
    series that already holds date-times comes back as it is. *)
Hypothesis to_datetime_length :
  ∀ series, length (to_datetime series) = length series.
Hypothesis to_datetime_datetimelike :
  ∀ series, Forall (λ v, is_datetimelike v) (to_datetime series).
Hypothesis to_datetime_parsed :
  ∀ series, Forall (λ v, ∃ ns, v = VTime ns) series → to_datetime series = series.

(** ** Lists, masks and columns *)

Lemma compress_fmap {A} (f : A → bool) (l : list A) :
  compress (f <$> l) l = filter (λ x, f x) l.
Proof.
  induction l as [|x l IH]; [done|].
  cbn [fmap list_fmap compress]. rewrite filter_cons, IH.
  destruct (f x); done.
Qed.

Lemma sum_fmap {A} (f : A → bool) (l : list A) :
  sum (f <$> l) = length (filter (λ x, f x) l).
Proof.
  unfold sum. induction l as [|x l IH]; [done|].
  rewrite fmap_cons, !filter_cons. destruct (f x); simpl; lia.
Qed.

Lemma filter_all {A} (P : A → Prop) `{!∀ x, Decision (P x)} (l : list A) :
  (∀ x, x ∈ l → P x) → filter P l = l.
Proof.
  induction l as [|x l IH]; intros Hall; [done|].
  rewrite filter_cons_True by (apply Hall; left).
  f_equal. apply IH. intros y Hy. apply Hall. by right.
Qed.

Lemma filter_negb_length {A} (f : A → bool) (l : list A) :
  length (filter (λ x, f x) l) + length (filter (λ x, negb (f x)) l) = length l.
Proof.
  induction l as [|x l IH]; [done|].
  rewrite !filter_cons. destruct (f x); simpl; lia.
Qed.

Lemma filter_none {A} (P : A → Prop) `{!∀ x, Decision (P x)} (l : list A) :
  (∀ x, x ∈ l → ¬ P x) → filter P l = [].
Proof.
  induction l as [|x l IH]; intros Hnone; [done|].
  rewrite filter_cons_False by (apply Hnone; left).
  apply IH. intros y Hy. apply Hnone. by right.
Qed.

Lemma compress_sublist {A} (mask : list bool) (l : list A) :
  compress mask l `sublist_of` l.
Proof.
  revert mask. induction l as [|x l IH]; intros [|[] mask]; simpl;
    try apply sublist_nil_l.
  - by apply sublist_skip.
  - by apply sublist_cons.
Qed.

Lemma col_pos_lookup c cols p : col_pos c cols = Some p → cols !! p = Some c.
Proof.
  revert p. induction cols as [|c' cs IH]; intros p; simpl; [done|].
  case_decide; [by intros [= <-]; subst|].
  destruct (col_pos c cs); simpl; [|done]. intros [= <-]. by apply IH.
Qed.

Lemma col_pos_elem_of c cols : c ∈ cols ↔ is_Some (col_pos c cols).
Proof.
  induction cols as [|c' cs IH]; simpl.
  - split; [by intros ?%elem_of_nil|by intros [? ?]].
  - rewrite elem_of_cons. case_decide as Hc.
    + split; [by eexists|by left].
    + rewrite fmap_is_Some, <- IH. split; [by intros [?|?]|by right].
Qed.

Lemma col_pos_None c cols : c ∉ cols ↔ col_pos c cols = None.
Proof. rewrite col_pos_elem_of, eq_None_not_Some. done. Qed.

Lemma col_pos_inj c1 c2 cols p :
  col_pos c1 cols = Some p → col_pos c2 cols = Some p → c1 = c2.
Proof. intros H1%col_pos_lookup H2%col_pos_lookup. congruence. Qed.

Lemma col_pos_lt c cols p : col_pos c cols = Some p → p < length cols.
Proof. intros H%col_pos_lookup. by eapply lookup_lt_Some. Qed.

Lemma col_pos_app_l c l1 l2 p :
  col_pos c l1 = Some p → col_pos c (l1 ++ l2) = Some p.
Proof.
  revert p. induction l1 as [|c' cs IH]; intros p; simpl; [done|].
  case_decide; [done|].
  destruct (col_pos c cs) eqn:E; simpl; [|done].
  intros [= <-]. by rewrite (IH n).
Qed.

Lemma col_pos_app_r c l1 l2 :
  c ∉ l1 → col_pos c (l1 ++ l2) = (λ p, length l1 + p) <$> col_pos c l2.
Proof.
  induction l1 as [|c' cs IH]; simpl.
  - intros _. by destruct (col_pos c l2).
  - rewrite not_elem_of_cons. intros [? ?]. case_decide; [done|].
    rewrite IH by done. by destruct (col_pos c l2).
Qed.

Lemma loc_elem_of cols c : c ∈ cols → ∃ p, loc cols c = Ok p ∧ col_pos c cols = Some p.
Proof.
  intros [p Hp]%col_pos_elem_of. exists p. unfold loc. by rewrite Hp.
Qed.

Lemma locs_sub cols subset :
  subset ⊆ cols → ∃ ps, locs cols subset = Ok ps.
Proof.
  induction subset as [|c cs IH]; intros Hsub; simpl; [by eexists|].
  destruct (loc_elem_of cols c) as (p & -> & _); [apply Hsub; left|].
  destruct IH as [ps ->]; [intros x Hx; apply Hsub; by right|]. by eexists.
Qed.

Lemma locs_key_at cols subset ps r1 r2 :
  locs cols subset = Ok ps →
  key_at ps r1 = key_at ps r2 ↔
  ∀ c p, c ∈ subset → col_pos c cols = Some p → cell p r1 = cell p r2.
Proof.
  revert ps. induction subset as [|c cs IH]; intros ps; simpl.
  - intros [= <-]. split; [by intros _ ? ? ?%elem_of_nil|done].
  - unfold loc. destruct (col_pos c cols) as [p|] eqn:Hp; [|done].
    destruct (locs cols cs) as [ps'|]; [|done]. intros [= <-].
    specialize (IH ps' eq_refl). unfold key_at in *. rewrite !fmap_cons.
    split.
    + intros [= Hc Hcs] c0 p0 [->|Hin]%elem_of_cons Hp0.
      * congruence.
      * by eapply IH.
    + intros H. f_equal.
      * apply (H c p); [left|done].
      * apply IH. intros c0 p0 Hin Hp0. apply (H c0 p0); [by right|done].
Qed.

(** ** First occurrences *)

Lemma duplicated_from_length seen keys :
  length (duplicated_from seen keys) = length keys.
Proof. revert seen. induction keys; intros; simpl; auto. Qed.

(** An entry of the mask is set exactly when the key was seen before:
    among the keys given at the start or at an earlier position. *)
Lemma duplicated_from_lookup seen keys i k :
  keys !! i = Some k →
  ∃ b, duplicated_from seen keys !! i = Some b ∧
       (b = true ↔ k ∈ seen ∨ ∃ j, j < i ∧ keys !! j = Some k).
Proof.
  revert seen i. induction keys as [|k0 ks IH]; intros seen [|i]; simpl; try done.
  - intros [= ->]. eexists; split; [done|]. rewrite bool_decide_eq_true.
    split; [by left|]. intros [?|(j & ? & _)]; [done|lia].
  - intros Hk. destruct (IH (k0 :: seen) _ Hk) as (b & -> & Hb).
    exists b; split; [done|]. rewrite Hb, elem_of_cons. split.
    + intros [[->|?]|(j & ? & ?)].
      * right. exists 0. split; [lia|done].
      * by left.
      * right. exists (S j). split; [lia|done].
    + intros [?|(j & Hj & Hkj)]; [by left; right|].
      destruct j as [|j]; simpl in Hkj.
      * left; left. congruence.
      * right. exists j. split; [lia|done].
Qed.

Lemma duplicated_lookup keys i k :
  keys !! i = Some k →
  ∃ b, duplicated keys !! i = Some b ∧
       (b = true ↔ ∃ j, j < i ∧ keys !! j = Some k).
Proof.
  intros Hk. unfold duplicated.
  destruct (duplicated_from_lookup [] _ _ _ Hk) as (b & -> & Hb).
  exists b; split; [done|]. rewrite Hb. split; [|by right].
  intros [?%elem_of_nil|?]; done.
Qed.

Lemma first_occurrences_NoDup {A} (key : A → list value) seen (l : list A) :
  let kept := compress (negb <$> duplicated_from seen (key <$> l)) l in
  NoDup (key <$> kept) ∧ ∀ x, x ∈ kept → key x ∉ seen.
Proof.
  revert seen. induction l as [|x l IH]; intros seen; simpl.
  - split; [constructor|by intros ? ?%elem_of_nil].
  - destruct (IH (key x :: seen)) as [IH1 IH2]. case_bool_decide as Hx; simpl.
    + split; [done|]. intros y Hy. specialize (IH2 y Hy).
      by apply not_elem_of_cons in IH2 as [_ ?].
    + split.
      * constructor; [|done].
        intros (y & Hy & Hin)%list_elem_of_fmap. specialize (IH2 y Hin).
        apply IH2. rewrite <- Hy. left.
      * intros y [->|Hy]%elem_of_cons; [done|]. specialize (IH2 y Hy).
        by apply not_elem_of_cons in IH2 as [_ ?].
Qed.

Lemma first_occurrences_id {A} (key : A → list value) seen (l : list A) :
  NoDup (key <$> l) → (∀ x, x ∈ l → key x ∉ seen) →
  compress (negb <$> duplicated_from seen (key <$> l)) l = l.
Proof.
  revert seen. induction l as [|x l IH]; intros seen; simpl; [done|].
  rewrite NoDup_cons. intros [Hx Hnd] Hseen.
  rewrite bool_decide_eq_false_2 by (apply Hseen; left). simpl. f_equal.
  apply IH; [done|]. intros y Hy. apply not_elem_of_cons. split.
  - intros Heq. apply Hx. rewrite <- Heq. apply list_elem_of_fmap. eauto.
  - apply Hseen. by right.
Qed.

(** ** Frame operations at a known position *)

Lemma getitem_at df c p :
  col_pos c (columns df) = Some p → getitem df c = Ok (cell p <$> rows df).
Proof. intros H. unfold getitem, loc. by rewrite H. Qed.

Lemma getitem_missing df c : c ∉ columns df → getitem df c = Raise (KeyError c).
Proof. intros H%col_pos_None. unfold getitem, loc. by rewrite H. Qed.

Lemma setitem_at df c p series :
  col_pos c (columns df) = Some p →
  setitem df c series = mkDF (columns df) (zip_with (set_cell p) (rows df) series).
Proof. intros H. unfold setitem. by rewrite H. Qed.

Lemma dropna_at df c p :
  col_pos c (columns df) = Some p →
  dropna df [c] = Ok (mkDF (columns df) (filter (λ r, notna (cell p r)) (rows df))).
Proof.
  intros H. unfold dropna, getitem_mask. simpl. unfold loc. rewrite H.
  rewrite compress_fmap. do 2 f_equal. apply list_filter_iff. intros r. simpl.
  by rewrite andb_true_r.
Qed.

Lemma identity_cols_spec cols c :
  c ∈ identity_cols cols ↔ c ∈ cols ∧ identity_col c.
Proof.
  unfold identity_cols, identity_col. rewrite !list_elem_of_filter.
  tauto.
Qed.

Lemma identity_cols_locs cols : ∃ ps, locs cols (identity_cols cols) = Ok ps.
Proof. apply locs_sub. intros c [? _]%identity_cols_spec. done. Qed.

(** Two rows have the same deduplication key exactly when they agree on
    every identity column. *)
Lemma key_at_same_identity d ps r1 r2 :
  locs (columns d) (identity_cols (columns d)) = Ok ps →
  key_at ps r1 = key_at ps r2 ↔ same_identity d r1 r2.
Proof.
  intros Hps. rewrite (locs_key_at _ _ _ _ _ Hps). unfold same_identity, field.
  split.
  - intros H c Hc Hid. destruct (col_pos c (columns d)) as [p|] eqn:Hp; [|done].
    apply (H c p); [|done]. by apply identity_cols_spec.
  - intros H c p [Hc Hid]%identity_cols_spec Hp.
    specialize (H c Hc Hid). by rewrite Hp in H.
Qed.

(** ** Running the Cleaner *)

Lemma clean_events_run w df d pu pt ps :
  heap w !! df = Some d →
  col_pos "user_id" (columns d) = Some pu →
  col_pos "timestamp" (columns d) = Some pt →
  locs (columns d) (identity_cols (columns d)) = Ok ps →
  let with_user := filter (λ r, notna (cell pu r)) (rows d) in
  let parsed :=
    zip_with (set_cell pt) with_user (to_datetime (cell pt <$> with_user)) in
  let valid := valid_rows pu pt d in
  let kept := compress (negb <$> duplicated (key_at ps <$> valid)) valid in
  clean_events df w =
    (Ok (length (heap w)),
     World (heap w ++ [mkDF (columns d) kept]) (files w)
       (stdout w ++
          clean_log (len d)
            (length (filter (λ r, isna (cell pu r)) (rows d)))
            (length (filter (λ r, isna (cell pt r)) parsed))
            (length valid - length kept)
            (length kept))).
Proof.
  intros Hd Hu Ht Hps. simpl.
  unfold clean_events, bind, deref, lift. rewrite Hd.
  rewrite (getitem_at _ _ _ Hu), (dropna_at _ _ _ Hu). cbn [columns rows].
  rewrite (getitem_at _ "timestamp" pt) by done. cbn [columns rows].
  rewrite (setitem_at _ "timestamp" pt) by done. cbn [columns rows].
  rewrite (getitem_at _ "timestamp" pt) by done.
  rewrite (dropna_at _ "timestamp" pt) by done. cbn [columns rows].
  unfold drop_duplicates. cbn [columns rows].
  fold (identity_cols (columns d)). rewrite Hps.
  unfold getitem_mask, print, new, len, clean_log, valid_rows.
  cbn [columns rows heap files stdout].
  rewrite <- !list_fmap_compose, !sum_fmap.
  rewrite <- !(assoc_L (++)). reflexivity.
Qed.

(** ** Cells *)

Lemma cell_set_cell_ne p q r v : p ≠ q → cell q (set_cell p r v) = cell q r.
Proof. intros. unfold cell, set_cell. simpl. by rewrite list_lookup_insert_ne. Qed.

Lemma cell_set_cell_notna p r v :
  notna (cell p (set_cell p r v)) → cell p (set_cell p r v) = v.
Proof.
  unfold cell, set_cell. simpl.
  destruct (decide (p < length (cells r))) as [Hlt|Hge].
  - by rewrite list_lookup_insert_eq.
  - rewrite lookup_ge_None_2; [done|]. rewrite length_insert. lia.
Qed.

Lemma set_cell_id p r : notna (cell p r) → set_cell p r (cell p r) = r.
Proof.
  unfold cell, set_cell. destruct r as [l cs]. simpl.
  destruct (cs !! p) eqn:E; simpl; [|done]. intros _. f_equal.
  by apply list_insert_id.
Qed.

Lemma datetimelike_notna v :
  is_datetimelike v → notna v → ∃ ns, v = VTime ns.
Proof. destruct v; simpl; try done. eauto. Qed.

Lemma heap_new_lookup (h : list DataFrame) d : (h ++ [d]) !! length h = Some d.
Proof. by apply list_lookup_middle. Qed.

(** ** What the Cleaner keeps *)

Lemma valid_rows_spec pu pt d r :
  pu ≠ pt → r ∈ valid_rows pu pt d →
  notna (cell pu r) ∧ ∃ ns, cell pt r = VTime ns.
Proof.
  intros Hne. unfold valid_rows. rewrite list_elem_of_filter.
  intros [Hnotna (i & r0 & v & -> & Hr0 & Hv)%elem_of_lookup_zip_with].
  split.
  - rewrite cell_set_cell_ne by done.
    apply list_elem_of_lookup_2, list_elem_of_filter in Hr0. tauto.
  - pose proof (cell_set_cell_notna _ _ _ Hnotna) as Heq.
    rewrite Heq in Hnotna |- *. apply datetimelike_notna; [|done].
    exact (proj1 (Forall_lookup _ _) (to_datetime_datetimelike _) i v Hv).
Qed.

Lemma valid_rows_fixed pu pt cols rs :
  (∀ r, r ∈ rs → notna (cell pu r) ∧ ∃ ns, cell pt r = VTime ns) →
  valid_rows pu pt (mkDF cols rs) = rs.
Proof.
  intros H. unfold valid_rows. cbn [rows].
  rewrite (filter_all (λ r, notna (cell pu r)) rs) by (intros r Hr; by apply H).
  rewrite to_datetime_parsed.
  - rewrite zip_with_fmap_r, zip_with_diag.
    rewrite (filter_all _ ((λ r, set_cell pt r (cell pt r)) <$> rs)).
    + rewrite <- (list_fmap_id rs) at 2. apply list_fmap_ext.
      intros i r Hr. simpl. apply set_cell_id.
      destruct (H r) as [_ [ns Hns]]; [by eapply list_elem_of_lookup_2|].
      by rewrite Hns.
    + intros r' (r & -> & Hr)%list_elem_of_fmap.
      destruct (H r Hr) as [_ [ns Hns]].
      rewrite set_cell_id; by rewrite Hns.
  - apply Forall_fmap, Forall_forall. intros r Hr. simpl. by apply H.
Qed.

Lemma user_id_not_timestamp cols pu pt :
  col_pos "user_id" cols = Some pu → col_pos "timestamp" cols = Some pt → pu ≠ pt.
Proof. intros Hu Ht ->. by pose proof (col_pos_inj _ _ _ _ Hu Ht). Qed.

(** C1: for every raw event table with a user_id and a timestamp column
    the Cleaner returns a table in which no row has a missing user_id,
    every timestamp is a parsed date-time, and no two rows (at different
    positions) agree on all identity columns. *)
Theorem clean_events_postconditions w df d :
  heap w !! df = Some d →
  "user_id" ∈ columns d → "timestamp" ∈ columns d →
  ∃ out w' d',
    clean_events df w = (Ok out, w') ∧ heap w' !! out = Some d' ∧
    (∀ r, r ∈ rows d' → field d' "user_id" r ≠ VNull) ∧
    (∀ r, r ∈ rows d' → ∃ ns, field d' "timestamp" r = VTime ns) ∧
    (∀ i j r1 r2, rows d' !! i = Some r1 → rows d' !! j = Some r2 →
       same_identity d' r1 r2 → i = j).
Proof.
  intros Hd [pu Hu]%col_pos_elem_of [pt Ht]%col_pos_elem_of.
  destruct (identity_cols_locs (columns d)) as [ps Hps].
  pose proof (user_id_not_timestamp _ _ _ Hu Ht) as Hne.
  eexists _, _, _. split; [apply (clean_events_run _ _ _ _ _ _ Hd Hu Ht Hps)|].
  cbn [heap]. split; [apply heap_new_lookup|].
  set (valid := valid_rows pu pt d).
  set (kept := compress _ valid).
  assert (∀ r, r ∈ kept → r ∈ valid) as Hsub.
  { intros r Hr. eapply elem_of_sublist; [done|apply compress_sublist]. }
  unfold field. cbn [columns rows]. rewrite Hu, Ht. split_and!.
  - intros r Hr Heq.
    destruct (valid_rows_spec _ _ _ _ Hne (Hsub _ Hr)) as [Hn _].
    by rewrite Heq in Hn.
  - intros r Hr. by destruct (valid_rows_spec _ _ _ _ Hne (Hsub _ Hr)).
  - intros i j r1 r2 H1 H2 Hsame.
    destruct (first_occurrences_NoDup (key_at ps) [] valid) as [Hnd _].
    apply (proj1 (NoDup_alt _) Hnd i j (key_at ps r1)).
    + fold (duplicated (key_at ps <$> valid)). fold kept.
      by rewrite list_lookup_fmap, H1.
    + fold (duplicated (key_at ps <$> valid)). fold kept.
      rewrite list_lookup_fmap, H2. simpl. f_equal. symmetry.
      by apply (key_at_same_identity (mkDF (columns d) kept)).
Qed.

(** C5: the Cleaner is idempotent: run on its own output it returns a
    table equal to that output. *)
Theorem clean_events_idempotent w df d :
  heap w !! df = Some d →
  "user_id" ∈ columns d → "timestamp" ∈ columns d →
  ∃ out w' d',
    clean_events df w = (Ok out, w') ∧ heap w' !! out = Some d' ∧
    ∃ out2 w'',
      clean_events out w' = (Ok out2, w'') ∧ heap w'' !! out2 = Some d'.
Proof.
  intros Hd [pu Hu]%col_pos_elem_of [pt Ht]%col_pos_elem_of.
  destruct (identity_cols_locs (columns d)) as [ps Hps].
  pose proof (user_id_not_timestamp _ _ _ Hu Ht) as Hne.
  eexists _, _, _. split; [apply (clean_events_run _ _ _ _ _ _ Hd Hu Ht Hps)|].
  cbn [heap]. split; [apply heap_new_lookup|].
  set (valid := valid_rows pu pt d).
  set (kept := compress _ valid).
  set (w' := World _ _ _).
  assert (heap w' !! length (heap w) = Some (mkDF (columns d) kept)) as Hd'
    by apply heap_new_lookup.
  eexists _, _. split; [apply (clean_events_run _ _ _ pu pt ps Hd'); done|].
  cbn [heap]. rewrite heap_new_lookup. do 2 f_equal.
  assert (valid_rows pu pt (mkDF (columns d) kept) = kept) as ->.
  { apply valid_rows_fixed. intros r Hr.
    apply (valid_rows_spec pu pt d); [done|].
    eapply elem_of_sublist; [done|apply compress_sublist]. }
  apply first_occurrences_id.
  - apply (first_occurrences_NoDup (key_at ps) [] valid).
  - intros x _. apply not_elem_of_nil.
Qed.

(** C6: in the deduplication step of the Cleaner a row is kept exactly
    when no earlier row agrees with it on all identity columns, so of
    each group of such rows the first one, in input order, survives and
    the later ones go, whatever their metadata columns hold. *)
Theorem clean_events_keeps_first_occurrence w df d pu pt :
  heap w !! df = Some d →
  col_pos "user_id" (columns d) = Some pu →
  col_pos "timestamp" (columns d) = Some pt →
  let valid := valid_rows pu pt d in
  ∃ out w' mask,
    clean_events df w = (Ok out, w') ∧
    heap w' !! out = Some (mkDF (columns d) (compress mask valid)) ∧
    length mask = length valid ∧
    ∀ i r, valid !! i = Some r →
      ∃ kept, mask !! i = Some kept ∧
        (kept = true ↔
         ∀ j r', j < i → valid !! j = Some r' → ¬ same_identity d r' r).
Proof.
  intros Hd Hu Ht valid.
  destruct (identity_cols_locs (columns d)) as [ps Hps].
  eexists _, _, (negb <$> duplicated (key_at ps <$> valid)).
  split; [apply (clean_events_run _ _ _ _ _ _ Hd Hu Ht Hps)|].
  cbn [heap]. split; [apply heap_new_lookup|]. split.
  { unfold duplicated. by rewrite length_fmap, duplicated_from_length, length_fmap. }
  intros i r Hr.
  destruct (duplicated_lookup (key_at ps <$> valid) i (key_at ps r))
    as (b & Hb & Hdup); [by rewrite list_lookup_fmap, Hr|].
  exists (negb b). split; [by rewrite list_lookup_fmap, Hb|].
  rewrite negb_true_iff, <- not_true_iff_false, Hdup. split.
  - intros Hno j r' Hj Hr' Hsame. apply Hno. exists j. split; [done|].
    rewrite list_lookup_fmap, Hr'. simpl. f_equal.
    by apply (key_at_same_identity d).
  - intros Hno (j & Hj & Hk). rewrite list_lookup_fmap in Hk.
    destruct (valid !! j) as [r'|] eqn:Hr'; [|done]. simpl in Hk.
    apply (Hno j r' Hj Hr'). apply (key_at_same_identity d ps); congruence.
Qed.


(** ** Column names across a merge *)

Lemma ends_with_refl s : ends_with s s = true.
Proof. destruct s; cbn [ends_with]; by rewrite decide_True. Qed.

Lemma ends_with_app sfx c : ends_with sfx (c +:+ sfx) = true.
Proof.
  induction c as [|a c IH].
  - apply ends_with_refl.
  - change (String a c +:+ sfx) with (String a (c +:+ sfx)).
    cbn [ends_with]. case_decide; done.
Qed.

Lemma suffixed_ne sfx others c c' :
  ends_with sfx c = false → c ≠ c' → suffixed sfx others c' ≠ c.
Proof.
  intros He Hne. unfold suffixed. case_bool_decide; [|done].
  intros <-. by rewrite ends_with_app in He.
Qed.

Lemma col_pos_suffixed sfx others c cols p :
  ends_with sfx c = false → c ∉ others →
  col_pos c cols = Some p → col_pos c (suffixed sfx others <$> cols) = Some p.
Proof.
  intros He Hn. revert p. induction cols as [|c' cs IH]; intros p; [done|].
  rewrite fmap_cons. cbn [col_pos]. case_decide as Hc.
  - intros [= <-]. subst c'. unfold suffixed.
    rewrite bool_decide_eq_false_2 by done. by rewrite decide_True.
  - rewrite decide_False by (intros Heq; by eapply suffixed_ne).
    destruct (col_pos c cs) as [n|]; simpl; [|done]. intros [= <-].
    by rewrite (IH n).
Qed.

Lemma not_elem_of_suffixed sfx others c (cols : list string) :
  ends_with sfx c = false → c ∉ cols → c ∉ suffixed sfx others <$> cols.
Proof.
  intros He Hn (c' & Hc & Hin)%list_elem_of_fmap.
  destruct (decide (c = c')) as [->|Hne]; [done|].
  by eapply suffixed_ne.
Qed.

Lemma col_pos_delete on c cols pr pc :
  col_pos on cols = Some pr → col_pos c cols = Some pc → c ≠ on →
  col_pos c (delete pr cols) = Some (shifted pr pc).
Proof.
  intros Hon Hc Hne. unfold shifted.
  revert pr pc Hon Hc. induction cols as [|c' cs IH]; intros pr pc; simpl; [done|].
  destruct (decide (on = c')) as [->|Hon'].
  - intros [= <-]. destruct (decide (c = c')) as [|_]; [congruence|].
    destruct (col_pos c cs) as [pc'|] eqn:Hpc; simpl; [|done]. intros [= <-].
    simpl. rewrite Hpc. destruct (decide (S pc' < 0)); [lia|done].
  - destruct (col_pos on cs) as [pr'|] eqn:Hpr; simpl; [|done]. intros [= <-].
    simpl. destruct (decide (c = c')) as [Hcc|Hcc].
    + intros [= <-]. destruct (decide (0 < S pr')); [done|lia].
    + destruct (col_pos c cs) as [pc'|] eqn:Hpc; simpl; [|done]. intros [= <-].
      rewrite (IH pr' pc') by done. simpl.
      assert (pc' ≠ pr') by (intros ->; by pose proof (col_pos_inj _ _ _ _ Hpr Hpc)).
      destruct (decide (pc' < pr')), (decide (S pc' < S pr')); f_equal; lia.
Qed.

Lemma lookup_delete_shifted {A} (l : list A) pr p :
  p ≠ pr → delete pr l !! shifted pr p = l !! p.
Proof.
  intros Hne. unfold shifted. case_decide.
  - by apply list_lookup_delete_lt.
  - rewrite list_lookup_delete_ge by lia. f_equal. lia.
Qed.

Lemma delete_insert_shifted {A} (l : list A) pr p v :
  p ≠ pr → delete pr (<[p := v]> l) = <[shifted pr p := v]> (delete pr l).
Proof.
  unfold shifted. revert pr p. induction l as [|x l IH]; intros [|pr] [|p] Hne;
    simpl; try done.
  rewrite IH by lia. repeat case_decide; try lia; try done.
  destruct p; [lia|done].
Qed.

Lemma joined_pos_left pr e u c p :
  ends_with "_x" c = false → c ∉ delete pr (columns u) →
  col_pos c (columns e) = Some p →
  col_pos c (joined_columns pr e u) = Some p.
Proof.
  intros He Hn Hp. unfold joined_columns.
  by apply col_pos_app_l, col_pos_suffixed.
Qed.

Lemma joined_pos_right pr e u c pc :
  ends_with "_x" c = false → ends_with "_y" c = false →
  c ∉ columns e → c ≠ "user_id" →
  col_pos "user_id" (columns u) = Some pr →
  col_pos c (columns u) = Some pc →
  col_pos c (joined_columns pr e u) = Some (length (columns e) + shifted pr pc).
Proof.
  intros Hx Hy Hn Hne Hpr Hpc. unfold joined_columns.
  rewrite col_pos_app_r by by apply not_elem_of_suffixed.
  rewrite (col_pos_suffixed _ _ _ _ (shifted pr pc)); try done.
  - simpl. by rewrite length_fmap.
  - by eapply col_pos_delete.
Qed.

(** ** Running the Enricher *)

Lemma merge_at e u on pl pr :
  col_pos on (columns e) = Some pl → col_pos on (columns u) = Some pr →
  merge e u on = Ok (mkDF (joined_columns pr e u) (joined_rows pl pr e u)).
Proof. intros Hl Hr. unfold merge, loc. by rewrite Hl, Hr. Qed.

Lemma join_and_filter_run w events users e u pl pr qc qs :
  heap w !! events = Some e → heap w !! users = Some u →
  col_pos "user_id" (columns e) = Some pl →
  col_pos "user_id" (columns u) = Some pr →
  col_pos "country" (joined_columns pr e u) = Some qc →
  col_pos "signup_date" (joined_columns pr e u) = Some qs →
  let joined := joined_rows pl pr e u in
  let selected := filter (λ r, cell qc r = VStr "US") joined in
  join_and_filter events users w =
    (Ok (length (heap w)),
     World
       (heap w ++
          [mkDF (joined_columns pr e u)
             (zip_with (set_cell qs) selected (to_datetime (cell qs <$> selected)))])
       (files w)
       (stdout w ++ join_log (length joined - length selected) (length selected))).
Proof.
  intros He Hu Hpl Hpr Hqc Hqs. simpl.
  unfold join_and_filter, bind, deref, lift. rewrite He, Hu.
  rewrite (merge_at _ _ _ _ _ Hpl Hpr).
  rewrite (getitem_at _ "country" qc) by done. cbn [columns rows].
  unfold getitem_mask. cbn [columns rows].
  rewrite <- list_fmap_compose, compress_fmap.
  rewrite (list_filter_iff _ (λ r, cell qc r = VStr "US"))
    by (intros r; simpl; apply bool_decide_spec).
  unfold print, new, len, join_log. cbn [columns rows heap files stdout].
  rewrite (getitem_at _ "signup_date" qs) by done.
  rewrite (setitem_at _ "signup_date" qs) by done.
  cbn [columns rows heap files stdout].
  rewrite <- !(assoc_L (++)). reflexivity.
Qed.

(** ** The merge is the inner join *)

Lemma filter_bind {A B} (P : B → Prop) `{!∀ y, Decision (P y)}
    (f : A → list B) (l : list A) :
  filter P (l ≫= f) = l ≫= (λ x, filter P (f x)).
Proof.
  induction l as [|x l IH]; [done|].
  by rewrite !bind_cons, filter_app, IH.
Qed.

Lemma fmap_bind {A B C} (g : B → C) (f : A → list B) (l : list A) :
  g <$> (l ≫= f) = l ≫= (λ x, g <$> f x).
Proof.
  induction l as [|x l IH]; [done|].
  by rewrite !bind_cons, fmap_app, IH.
Qed.

Lemma filter_pair_with {A B} (P : A * B → Prop) `{!∀ m, Decision (P m)}
    (x : A) (l : list B) :
  filter P (y ← l; [(x, y)]) = (λ y, (x, y)) <$> filter (λ y, P (x, y)) l.
Proof.
  induction l as [|y l IH]; [done|].
  rewrite bind_cons. simpl. rewrite !filter_cons, IH.
  destruct (decide (P (x, y))); done.
Qed.

Lemma inner_join_at e u on pl pr :
  col_pos on (columns e) = Some pl → col_pos on (columns u) = Some pr →
  inner_join e u on =
    l ← rows e; (λ r, (l, r)) <$> filter (λ r, cell pr r = cell pl l) (rows u).
Proof.
  intros Hl Hr. unfold inner_join, field. rewrite Hl, Hr.
  rewrite filter_bind. apply list_bind_ext; [|done]. intros l.
  rewrite (filter_pair_with (λ m, cell pl m.1 = cell pr m.2)). f_equal.
  apply list_filter_iff. intros r. simpl. split; congruence.
Qed.

Lemma joined_rows_inner_join e u pl pr :
  col_pos "user_id" (columns e) = Some pl →
  col_pos "user_id" (columns u) = Some pr →
  joined_rows pl pr e u =
    imap mkRow ((λ m, cells m.1 ++ delete pr (cells m.2))
                  <$> inner_join e u "user_id").
Proof.
  intros Hl Hr. unfold joined_rows. rewrite (inner_join_at _ _ _ _ _ Hl Hr).
  f_equal. rewrite fmap_bind. apply list_bind_ext; [|done]. intros l.
  by rewrite <- list_fmap_compose.
Qed.

Lemma inner_join_left e u on m : m ∈ inner_join e u on → m.1 ∈ rows e.
Proof.
  unfold inner_join. intros [_ Hm]%list_elem_of_filter.
  apply list_elem_of_bind in Hm as (l & Hm & Hl).
  apply list_elem_of_bind in Hm as (r & Hm & Hr).
  apply list_elem_of_singleton in Hm as ->. done.
Qed.

Lemma Forall2_imap_mkRow {A} (f : A → list value) (l : list A) :
  Forall2 (λ o x, cells o = f x ∧ x ∈ l) (imap mkRow (f <$> l)) l.
Proof.
  apply Forall2_same_length_lookup. split.
  - by rewrite length_imap, length_fmap.
  - intros i o x Ho Hx. rewrite list_lookup_imap, list_lookup_fmap, Hx in Ho.
    simpl in Ho. injection Ho as <-. split; [done|].
    by eapply list_elem_of_lookup_2.
Qed.

Lemma Forall2_zip_with_l {A B} (f : A → B → A) (Q : B → Prop) (l : list A) vs :
  length vs = length l → Forall Q vs →
  Forall2 (λ o' o, ∃ v, Q v ∧ o' = f o v) (zip_with f l vs) l.
Proof.
  revert vs. induction l as [|x l IH]; intros [|v vs]; simpl; try done.
  intros [= Hlen] [Hv Hvs]%Forall_cons. constructor; [by eexists|by apply IH].
Qed.

Lemma lookup_joined_right {A} n pr p (l rc : list A) :
  length l = n → p ≠ pr → (l ++ delete pr rc) !! (n + shifted pr p) = rc !! p.
Proof.
  intros <- Hne. rewrite lookup_app_r by lia.
  replace (length l + shifted pr p - length l) with (shifted pr p) by lia.
  by apply lookup_delete_shifted.
Qed.

Lemma Forall2_fmap_eq {A B C} (R : A → B → Prop) (f : A → C) (g : B → C) l k :
  (∀ x y, R x y → f x = g y) → Forall2 R l k → f <$> l = g <$> k.
Proof.
  intros Hfg. induction 1 as [|x y l k HR _ IH]; [done|].
  rewrite !fmap_cons. f_equal; [by apply Hfg|done].
Qed.

Lemma joined_rows_joins e u pl pr :
  rectangular e →
  col_pos "user_id" (columns e) = Some pl →
  col_pos "user_id" (columns u) = Some pr →
  Forall2 (joins pr (length (columns e)))
    (joined_rows pl pr e u) (inner_join e u "user_id").
Proof.
  intros Hrect Hl Hr. rewrite (joined_rows_inner_join _ _ _ _ Hl Hr).
  eapply Forall2_impl; [apply Forall2_imap_mkRow|].
  intros o m [Ho Hm]. split; [done|].
  apply inner_join_left in Hm.
  by apply (proj1 (Forall_forall _ _) Hrect).
Qed.

Lemma joins_cell_right pr n o m p :
  joins pr n o m → p ≠ pr → cell (n + shifted pr p) o = cell p m.2.
Proof.
  intros [Ho Hn] Hne. unfold cell. rewrite Ho.
  by rewrite (lookup_joined_right n).
Qed.

Lemma joins_set_cell pr ps n o m v :
  joins pr n o m → ps ≠ pr →
  cells (set_cell (n + shifted pr ps) o v) = enriched_cells pr ps m v.
Proof.
  intros [Ho <-] Hne. unfold set_cell, enriched_cells. cbn [cells].
  by rewrite Ho, insert_app_r, delete_insert_shifted.
Qed.

Lemma zip_with_set_cell_joins pr ps n sel S vs :
  ps ≠ pr → Forall2 (joins pr n) sel S →
  cells <$> zip_with (set_cell (n + shifted pr ps)) sel vs
  = zip_with (enriched_cells pr ps) S vs.
Proof.
  intros Hne H. revert vs. induction H as [|o m sel S Hom _ IH]; intros [|v vs];
    try done.
  cbn [zip_with]. rewrite fmap_cons, IH. f_equal.
  by eapply joins_set_cell.
Qed.

(** What the Enricher computes, in terms of the inner join. *)
Lemma join_and_filter_denotation w events users e u pl pr pc ps :
  heap w !! events = Some e → heap w !! users = Some u →
  rectangular e →
  col_pos "user_id" (columns e) = Some pl →
  "country" ∉ columns e → "signup_date" ∉ columns e →
  col_pos "user_id" (columns u) = Some pr →
  col_pos "country" (columns u) = Some pc →
  col_pos "signup_date" (columns u) = Some ps →
  let pairs := inner_join e u "user_id" in
  let selected := filter (in_segment u) pairs in
  ∃ d',
    join_and_filter events users w =
      (Ok (length (heap w)),
       World (heap w ++ [d']) (files w)
         (stdout w ++ join_log (length pairs - length selected) (length selected))) ∧
    columns d' = joined_columns pr e u ∧
    col_pos "country" (columns d') = Some (length (columns e) + shifted pr pc) ∧
    cells <$> rows d' =
      zip_with (enriched_cells pr ps) selected
        (to_datetime ((λ m, cell ps m.2) <$> selected)).
Proof.
  intros He Hu Hrect Hpl Hnc Hns Hpr Hpc Hps pairs selected.
  set (n := length (columns e)).
  assert (col_pos "country" (joined_columns pr e u) = Some (n + shifted pr pc))
    as Hqc by (by apply joined_pos_right).
  assert (col_pos "signup_date" (joined_columns pr e u) = Some (n + shifted pr ps))
    as Hqs by (by apply joined_pos_right).
  assert (pc ≠ pr) as Hcr
    by (intros ->; by pose proof (col_pos_inj _ _ _ _ Hpc Hpr)).
  assert (ps ≠ pr) as Hsr
    by (intros ->; by pose proof (col_pos_inj _ _ _ _ Hps Hpr)).
  pose proof (joined_rows_joins e u pl pr Hrect Hpl Hpr) as HJ. fold n pairs in HJ.
  assert (Forall2 (joins pr n)
            (filter (λ r, cell (n + shifted pr pc) r = VStr "US")
               (joined_rows pl pr e u)) selected) as Hsel.
  { apply Forall2_filter; [|done]. intros o m Hom. unfold in_segment, field.
    by rewrite Hpc, (joins_cell_right _ _ _ _ _ Hom Hcr). }
  eexists. split; [|split_and!].
  - rewrite (join_and_filter_run _ _ _ _ _ _ _ _ _ He Hu Hpl Hpr Hqc Hqs).
    by rewrite (Forall2_length _ _ _ HJ), (Forall2_length _ _ _ Hsel).
  - done.
  - done.
  - cbn [rows]. rewrite (zip_with_set_cell_joins pr ps n _ selected) by done.
    f_equal. f_equal. apply (Forall2_fmap_eq (joins pr n)); [|done].
    intros o m Hom. by apply joins_cell_right.
Qed.

Lemma cells_zip_with_Forall2 {B} (f : B → value → list value)
    (rs : list Row) (S : list B) (vs : list value) :
  cells <$> rs = zip_with f S vs → length vs = length S →
  Forall2 (λ o m, ∃ v, v ∈ vs ∧ m ∈ S ∧ cells o = f m v) rs S.
Proof.
  intros Heq Hlen. apply Forall2_same_length_lookup. split.
  - rewrite <- (length_fmap cells), Heq. by rewrite length_zip_with_l_eq.
  - intros i o m Ho Hm.
    assert ((cells <$> rs) !! i = Some (cells o)) as Hc
      by (by rewrite list_lookup_fmap, Ho).
    rewrite Heq in Hc. apply lookup_zip_with_Some in Hc as (m' & v & Hc & Hm' & Hv).
    assert (m' = m) as -> by congruence.
    exists v. split_and!; [by eapply list_elem_of_lookup_2..|done].
Qed.

Lemma enriched_cells_country e u pr pc ps m v :
  rectangular e →
  col_pos "user_id" (columns u) = Some pr →
  col_pos "country" (columns u) = Some pc →
  col_pos "signup_date" (columns u) = Some ps →
  m ∈ inner_join e u "user_id" →
  default VNull (enriched_cells pr ps m v !! (length (columns e) + shifted pr pc))
  = field u "country" m.2.
Proof.
  intros Hrect Hpr Hpc Hps Hm. unfold enriched_cells, field. rewrite Hpc.
  assert (pc ≠ pr) by (intros ->; by pose proof (col_pos_inj _ _ _ _ Hpc Hpr)).
  assert (ps ≠ pc) by (intros ->; by pose proof (col_pos_inj _ _ _ _ Hpc Hps)).
  rewrite (lookup_joined_right (length (columns e))); [|  |done].
  - by rewrite list_lookup_insert_ne.
  - apply inner_join_left in Hm. by apply (proj1 (Forall_forall _ _) Hrect).
Qed.

(** C2: on a cleaned event table and a user table the Enricher returns
    the inner join on user_id restricted to the rows whose country is
    "US": its rows are, in order, the pairs of an event and a user with
    the same user_id whose country is "US" (an event without a matching
    user is in no pair), each row holding the event's cells and the
    user's; and every output row has country "US". *)
Theorem join_and_filter_inner_join_us w events users e u pr ps :
  heap w !! events = Some e → heap w !! users = Some u →
  rectangular e →
  "user_id" ∈ columns e → "country" ∉ columns e → "signup_date" ∉ columns e →
  col_pos "user_id" (columns u) = Some pr →
  "country" ∈ columns u →
  col_pos "signup_date" (columns u) = Some ps →
  ∃ out w' d',
    join_and_filter events users w = (Ok out, w') ∧ heap w' !! out = Some d' ∧
    Forall2 (λ o m, ∃ v, is_datetimelike v ∧ cells o = enriched_cells pr ps m v)
      (rows d') (filter (in_segment u) (inner_join e u "user_id")) ∧
    ∀ o, o ∈ rows d' → field d' "country" o = VStr "US".
Proof.
  intros He Hu Hrect [pl Hpl]%col_pos_elem_of Hnc Hns Hpr [pc Hpc]%col_pos_elem_of Hps.
  destruct (join_and_filter_denotation w events users e u pl pr pc ps)
    as (d' & Hrun & Hcols & Hqc & Hcells); try done.
  eexists (length (heap w)), _, d'. split; [exact Hrun|]. cbn [heap].
  split; [apply heap_new_lookup|].
  apply cells_zip_with_Forall2 in Hcells;
    [|by rewrite to_datetime_length, length_fmap].
  split.
  - eapply Forall2_impl; [exact Hcells|]. intros o m (v & Hv & _ & Ho).
    exists v. split; [|done].
    exact (proj1 (Forall_forall _ _) (to_datetime_datetimelike _) v Hv).
  - intros o [i Ho]%list_elem_of_lookup.
    destruct (Forall2_lookup_l _ _ _ _ _ Hcells Ho) as (m & _ & v & _ & Hm & Hc).
    apply list_elem_of_filter in Hm as [Hseg Hm].
    unfold field. rewrite Hqc. unfold cell. rewrite Hc.
    by rewrite (enriched_cells_country e u pr pc ps).
Qed.

Lemma country_partition u (pairs : list (Row * Row)) :
  length (filter (in_segment u) pairs)
  + length (filter (λ m, field u "country" m.2 = VNull) pairs)
  + length (filter (λ m, field u "country" m.2 ≠ VNull ∧ ¬ in_segment u m) pairs)
  = length pairs.
Proof.
  unfold in_segment. induction pairs as [|m pairs IH]; [done|].
  rewrite !filter_cons.
  destruct (decide (field u "country" m.2 = VStr "US")) as [Hus|Hus];
    destruct (decide (field u "country" m.2 = VNull)) as [Hnull|Hnull];
    destruct (decide (field u "country" m.2 ≠ VNull
                      ∧ field u "country" m.2 ≠ VStr "US")) as [Hoth|Hoth];
    simpl; try lia; try (rewrite Hus in Hnull; done); tauto.
Qed.

(** C10: a joined row whose country is missing is removed by the segment
    filter like any row that is not "US"; the one count the Enricher
    prints covers both kinds; a missing country raises nothing and no
    output row has a missing country. *)
Theorem join_and_filter_null_country w events users e u :
  heap w !! events = Some e → heap w !! users = Some u →
  rectangular e →
  "user_id" ∈ columns e → "country" ∉ columns e → "signup_date" ∉ columns e →
  "user_id" ∈ columns u → "country" ∈ columns u → "signup_date" ∈ columns u →
  let pairs := inner_join e u "user_id" in
  let null_country := filter (λ m, field u "country" m.2 = VNull) pairs in
  let other_country :=
    filter (λ m, field u "country" m.2 ≠ VNull ∧ ¬ in_segment u m) pairs in
  ∃ out w' d',
    join_and_filter events users w = (Ok out, w') ∧ heap w' !! out = Some d' ∧
    stdout w' =
      stdout w ++ join_log (length null_country + length other_country) (len d') ∧
    len d' + length null_country + length other_country = length pairs ∧
    ∀ o, o ∈ rows d' → field d' "country" o ≠ VNull.
Proof.
  intros He Hu Hrect [pl Hpl]%col_pos_elem_of Hnc Hns [pr Hpr]%col_pos_elem_of
    [pc Hpc]%col_pos_elem_of [ps Hps]%col_pos_elem_of pairs null_country other_country.
  destruct (join_and_filter_denotation w events users e u pl pr pc ps)
    as (d' & Hrun & Hcols & Hqc & Hcells); try done.
  fold pairs in Hrun, Hcells.
  pose proof (country_partition u pairs) as Hpart.
  fold null_country other_country in Hpart.
  apply cells_zip_with_Forall2 in Hcells;
    [|by rewrite to_datetime_length, length_fmap].
  assert (len d' = length (filter (in_segment u) pairs)) as Hlen
    by apply (Forall2_length _ _ _ Hcells).
  eexists (length (heap w)), _, d'. split; [exact Hrun|]. cbn [heap stdout].
  split; [apply heap_new_lookup|]. split_and!.
  - do 2 f_equal; lia.
  - lia.
  - intros o [i Ho]%list_elem_of_lookup.
    destruct (Forall2_lookup_l _ _ _ _ _ Hcells Ho) as (m & _ & v & _ & Hm & Hc).
    apply list_elem_of_filter in Hm as [Hseg Hm].
    unfold field. rewrite Hqc. unfold cell. rewrite Hc.
    rewrite (enriched_cells_country e u pr pc ps) by done.
    unfold in_segment in Hseg. by rewrite Hseg.
Qed.

(** ** The signup date does not decide which rows come out *)

Lemma enriched_cells_set_cell pr ps l r val v :
  enriched_cells pr ps (l, set_cell ps r val) v = enriched_cells pr ps (l, r) v.
Proof.
  unfold enriched_cells, set_cell. cbn [fst snd cells].
  by rewrite list_insert_insert_eq.
Qed.

Lemma Forall2_diag {A} (R : A → A → Prop) (l : list A) :
  (∀ x, x ∈ l → R x x) → Forall2 R l l.
Proof.
  induction l as [|x l IH]; intros H; constructor.
  - apply H. left.
  - apply IH. intros y Hy. apply H. by right.
Qed.

Lemma inner_join_setitem e u pl pr pc ps vals :
  col_pos "user_id" (columns e) = Some pl →
  col_pos "user_id" (columns u) = Some pr →
  col_pos "country" (columns u) = Some pc →
  col_pos "signup_date" (columns u) = Some ps →
  length vals = len u →
  let u2 := setitem u "signup_date" vals in
  Forall2 (same_pair ps)
    (filter (in_segment u2) (inner_join e u2 "user_id"))
    (filter (in_segment u) (inner_join e u "user_id")).
Proof.
  intros Hpl Hpr Hpc Hps Hlen u2.
  assert (ps ≠ pr) by (intros ->; by pose proof (col_pos_inj _ _ _ _ Hps Hpr)).
  assert (ps ≠ pc) by (intros ->; by pose proof (col_pos_inj _ _ _ _ Hps Hpc)).
  assert (u2 = mkDF (columns u) (zip_with (set_cell ps) (rows u) vals)) as Hu2
    by (by apply setitem_at).
  assert (Forall2 (λ r2 r, ∃ val, True ∧ r2 = set_cell ps r val) (rows u2) (rows u))
    as Hrows.
  { rewrite Hu2. cbn [rows]. apply Forall2_zip_with_l; [done|].
    by apply Forall_forall. }
  apply Forall2_filter.
  { intros [l2 r2] [l r] [Hl [val Hr]]. cbn [fst snd] in Hl, Hr. subst l2 r2.
    unfold in_segment, field. rewrite Hu2. cbn [columns snd]. rewrite Hpc.
    by rewrite cell_set_cell_ne. }
  rewrite (inner_join_at e u2 "user_id" pl pr), (inner_join_at e u "user_id" pl pr);
    [|done|done|done|by rewrite Hu2].
  apply Forall2_bind, Forall2_diag. intros l _.
  apply Forall2_fmap_2, Forall2_filter.
  - intros r2 r [_ [val Hr]]. cbn [snd] in Hr. subst r2.
    by rewrite cell_set_cell_ne.
  - eapply Forall2_impl; [exact Hrows|]. intros r2 r (val & _ & ->).
    split; [done|]. by exists val.
Qed.

(** C7: re-parsing signup_date removes no row.  The Enricher returns one
    row per pair that passes the join and the country filter; the signup
    date of a row is what the parser answers for it, a date-time or a
    missing value, and the row is there either way.  With other values in
    the signup_date column of the users the same rows come out, apart
    from that cell. *)
Theorem join_and_filter_signup_date_drops_nothing w events users e u pr ps :
  heap w !! events = Some e → heap w !! users = Some u →
  rectangular e →
  "user_id" ∈ columns e → "country" ∉ columns e → "signup_date" ∉ columns e →
  col_pos "user_id" (columns u) = Some pr →
  "country" ∈ columns u →
  col_pos "signup_date" (columns u) = Some ps →
  let selected := filter (in_segment u) (inner_join e u "user_id") in
  let parsed := to_datetime ((λ m, cell ps m.2) <$> selected) in
  ∃ out w' d',
    join_and_filter events users w = (Ok out, w') ∧ heap w' !! out = Some d' ∧
    len d' = length selected ∧
    cells <$> rows d' = zip_with (enriched_cells pr ps) selected parsed ∧
    Forall (λ v, is_datetimelike v) parsed ∧
    ∀ w2 users2 vals,
      heap w2 !! events = Some e →
      heap w2 !! users2 = Some (setitem u "signup_date" vals) →
      length vals = len u →
      ∃ out2 w2' d2,
        join_and_filter events users2 w2 = (Ok out2, w2') ∧
        heap w2' !! out2 = Some d2 ∧
        Forall2
          (λ o2 o, ∃ m v2 v,
             cells o2 = enriched_cells pr ps m v2 ∧
             cells o = enriched_cells pr ps m v)
          (rows d2) (rows d').
Proof.
  intros He Hu Hrect [pl Hpl]%col_pos_elem_of Hnc Hns Hpr [pc Hpc]%col_pos_elem_of
    Hps selected parsed.
  destruct (join_and_filter_denotation w events users e u pl pr pc ps)
    as (d' & Hrun & Hcols & Hqc & Hcells); try done.
  fold selected in Hrun, Hcells. fold parsed in Hcells.
  assert (length parsed = length selected) as Hlen
    by (unfold parsed; by rewrite to_datetime_length, length_fmap).
  pose proof (cells_zip_with_Forall2 _ _ _ _ Hcells Hlen) as HF.
  eexists (length (heap w)), _, d'. split; [exact Hrun|]. cbn [heap].
  split; [apply heap_new_lookup|]. split_and!.
  - apply (Forall2_length _ _ _ HF).
  - done.
  - apply to_datetime_datetimelike.
  - intros w2 users2 vals He2 Hu2 Hvals.
    set (u2 := setitem u "signup_date" vals) in *.
    assert (columns u2 = columns u) as Hc2
      by (unfold u2; by rewrite (setitem_at _ _ _ _ Hps)).
    destruct (join_and_filter_denotation w2 events users2 e u2 pl pr pc ps)
      as (d2 & Hrun2 & _ & _ & Hcells2); try done; try (by rewrite Hc2).
    apply cells_zip_with_Forall2 in Hcells2;
      [|by rewrite to_datetime_length, length_fmap].
    eexists (length (heap w2)), _, d2. split; [exact Hrun2|]. cbn [heap].
    split; [apply heap_new_lookup|].
    pose proof (inner_join_setitem e u pl pr pc ps vals Hpl Hpr Hpc Hps Hvals)
      as Hsame.
    cbn zeta in Hsame. fold u2 selected in Hsame.
    assert (Forall2 (λ o2 m, ∃ v2, cells o2 = enriched_cells pr ps m v2)
              (rows d2) selected) as H2.
    { eapply Forall2_trans; [|exact Hcells2|exact Hsame].
      intros o2 [l2 r2] [l r] (v2 & _ & _ & Ho2) [Hl [val Hr]].
      cbn [fst snd] in Hl, Hr. subst l2 r2. exists v2.
      by rewrite Ho2, enriched_cells_set_cell. }
    eapply Forall2_trans; [|exact H2|apply Forall2_flip; exact HF].
    intros o2 m o [v2 Ho2] (v & _ & _ & Ho). by exists m, v2, v.
Qed.

(** ** Group sizes *)

Lemma bump_keys k k' groups :
  k' ∈ (bump k groups).*1 ↔ k' = k ∨ k' ∈ groups.*1.
Proof.
  induction groups as [|[k0 n] gs IH]; simpl.
  - rewrite list_elem_of_singleton, elem_of_nil. tauto.
  - case_decide as Hk; simpl; rewrite !elem_of_cons.
    + subst. tauto.
    + rewrite IH. tauto.
Qed.

Lemma bump_NoDup k groups : NoDup groups.*1 → NoDup (bump k groups).*1.
Proof.
  induction groups as [|[k0 n] gs IH]; simpl.
  - intros _. apply NoDup_singleton.
  - rewrite NoDup_cons. intros [Hk0 Hnd]. case_decide as Hk; simpl.
    + by apply NoDup_cons.
    + apply NoDup_cons. split; [|by apply IH].
      rewrite bump_keys. intros [?|?]; [congruence|done].
Qed.

Lemma bump_sum k groups :
  sum_list_with snd (bump k groups) = S (sum_list_with snd groups).
Proof.
  induction groups as [|[k0 n] gs IH]; simpl; [done|].
  case_decide; simpl; [done|]. rewrite IH. lia.
Qed.

(** The size recorded for key [k']. *)
Lemma bump_size k k' groups :
  sum_list_with snd (filter (λ g, g.1 = k') (bump k groups))
  = sum_list_with snd (filter (λ g, g.1 = k') groups)
    + (if decide (k = k') then 1 else 0).
Proof.
  induction groups as [|[k0 n] gs IH]; simpl.
  - rewrite filter_cons, filter_nil. simpl. by destruct (decide (k = k')).
  - destruct (decide (k = k0)) as [->|Hk]; rewrite !filter_cons; cbn [fst].
    + destruct (decide (k0 = k')); simpl; lia.
    + remember (sum_list_with snd (filter (λ g, g.1 = k') (bump k gs))) as X.
      destruct (decide (k0 = k')), (decide (k = k')); simpl in *; lia.
Qed.

Lemma foldl_bump_keys keys k' groups :
  k' ∈ (foldl (λ gs k, bump k gs) groups keys).*1 ↔ k' ∈ keys ∨ k' ∈ groups.*1.
Proof.
  revert groups. induction keys as [|k ks IH]; intros groups; simpl.
  - rewrite elem_of_nil. tauto.
  - rewrite IH, bump_keys, elem_of_cons. tauto.
Qed.

Lemma foldl_bump_NoDup keys groups :
  NoDup groups.*1 → NoDup (foldl (λ gs k, bump k gs) groups keys).*1.
Proof.
  revert groups. induction keys as [|k ks IH]; intros groups; simpl; [done|].
  intros H. by apply IH, bump_NoDup.
Qed.

Lemma foldl_bump_sum keys groups :
  sum_list_with snd (foldl (λ gs k, bump k gs) groups keys)
  = sum_list_with snd groups + length keys.
Proof.
  revert groups. induction keys as [|k ks IH]; intros groups; simpl; [lia|].
  rewrite IH, bump_sum. lia.
Qed.

Lemma foldl_bump_size keys k' groups :
  sum_list_with snd (filter (λ g, g.1 = k') (foldl (λ gs k, bump k gs) groups keys))
  = sum_list_with snd (filter (λ g, g.1 = k') groups)
    + length (filter (λ k, k = k') keys).
Proof.
  revert groups. induction keys as [|k ks IH]; intros groups; simpl; [lia|].
  rewrite IH, bump_size, filter_cons. destruct (decide (k = k')); simpl; lia.
Qed.

Lemma NoDup_fst_size (groups : list (list value * nat)) k n :
  NoDup groups.*1 → (k, n) ∈ groups →
  sum_list_with snd (filter (λ g, g.1 = k) groups) = n.
Proof.
  induction groups as [|[k0 n0] gs IH]; simpl.
  - by intros _ ?%elem_of_nil.
  - rewrite NoDup_cons, elem_of_cons, filter_cons. simpl.
    intros [Hk0 Hnd] [[= -> ->]|Hin].
    + rewrite decide_True by done. simpl.
      rewrite (filter_none _ gs); [simpl; lia|].
      intros [k1 n1] Hg Heq. simpl in Heq. subst k1. apply Hk0.
      apply list_elem_of_fmap. by exists (k0, n1).
    + rewrite decide_False; [by apply IH|]. simpl. intros ->. apply Hk0.
      apply list_elem_of_fmap. by exists (k, n).
Qed.

(** [group_sizes]: one entry per distinct key, holding the number of its
    occurrences. *)
Lemma group_sizes_spec keys :
  NoDup (group_sizes keys).*1 ∧
  (∀ k, k ∈ (group_sizes keys).*1 ↔ k ∈ keys) ∧
  (∀ k n, (k, n) ∈ group_sizes keys → n = length (filter (λ k', k' = k) keys)) ∧
  sum_list_with snd (group_sizes keys) = length keys.
Proof.
  unfold group_sizes. split_and!.
  - apply foldl_bump_NoDup. constructor.
  - intros k. rewrite foldl_bump_keys. simpl. rewrite elem_of_nil. tauto.
  - intros k n Hin.
    rewrite <- (NoDup_fst_size _ k n (foldl_bump_NoDup keys [] (NoDup_nil_2)) Hin).
    by rewrite foldl_bump_size.
  - by rewrite foldl_bump_sum.
Qed.

(** ** Running the Aggregator *)

Lemma create_daily_summary_run w df d pt ps :
  heap w !! df = Some d →
  col_pos "timestamp" (columns d) = Some pt →
  Forall (λ r, is_datetimelike (cell pt r)) (rows d) →
  let d1 := setitem d "event_date" (date_of <$> (cell pt <$> rows d)) in
  locs (columns d1) ["event_date"; "user_id"] = Ok ps →
  create_daily_summary df w =
    (Ok (length (heap w)),
     World
       (<[df := d1]> (heap w) ++
          [summary_of
             (group_sizes
                (filter (λ k, forallb notna k) (key_at ps <$> rows d1)))])
       (files w) (stdout w)).
Proof.
  intros Hd Ht Hall d1 Hps.
  unfold create_daily_summary, bind, deref, lift, assign. rewrite Hd.
  rewrite (getitem_at _ _ _ Ht). unfold dt_date.
  assert (forallb is_datetimelike (cell pt <$> rows d) = true) as ->.
  { apply Is_true_true, forallb_True, Forall_fmap. exact Hall. }
  cbn [heap files stdout]. fold d1.
  rewrite list_lookup_insert_eq by (by eapply lookup_lt_Some).
  unfold groupby_size. rewrite Hps. unfold new, summary_of.
  cbn [heap files stdout]. by rewrite length_insert.
Qed.

(** Assigning a column: where it lands and what stays. *)
Lemma setitem_spec d c vs :
  rectangular d →
  ∃ p f,
    col_pos c (columns (setitem d c vs)) = Some p ∧
    rows (setitem d c vs) = zip_with f (rows d) vs ∧
    (∀ r v, r ∈ rows d → cell p (f r v) = v) ∧
    (∀ c' q, c' ≠ c → col_pos c' (columns d) = Some q →
       col_pos c' (columns (setitem d c vs)) = Some q ∧
       ∀ r v, r ∈ rows d → cell q (f r v) = cell q r).
Proof.
  intros Hrect. unfold setitem.
  destruct (col_pos c (columns d)) as [p|] eqn:Hp.
  - exists p, (set_cell p). cbn [columns rows]. split_and!; [done..| |].
    + intros r v Hr. unfold cell, set_cell. cbn [cells].
      rewrite list_lookup_insert_eq; [done|].
      rewrite (proj1 (Forall_forall _ _) Hrect r Hr). by eapply col_pos_lt.
    + intros c' q Hne Hq. split; [done|]. intros r v _.
      apply cell_set_cell_ne. intros ->. by pose proof (col_pos_inj _ _ _ _ Hp Hq).
  - exists (length (columns d)), add_cell. cbn [columns rows].
    apply col_pos_None in Hp. split_and!.
    + rewrite col_pos_app_r by done. simpl. rewrite decide_True by done.
      simpl. f_equal. lia.
    + done.
    + intros r v Hr. unfold cell, add_cell. cbn [cells].
      rewrite <- (proj1 (Forall_forall _ _) Hrect r Hr).
      by rewrite list_lookup_middle.
    + intros c' q Hne Hq. split; [by apply col_pos_app_l|]. intros r v Hr.
      unfold cell, add_cell. cbn [cells]. rewrite lookup_app_l; [done|].
      rewrite (proj1 (Forall_forall _ _) Hrect r Hr). by eapply col_pos_lt.
Qed.

Lemma zip_with_fmap_same {A B C} (f : A → B → C) (g : A → B) (l : list A) :
  zip_with f l (g <$> l) = (λ x, f x (g x)) <$> l.
Proof. by rewrite zip_with_fmap_r, zip_with_diag. Qed.

Lemma length_filter_fmap {A B} (P : B → Prop) `{!∀ y, Decision (P y)}
    (f : A → B) (l : list A) :
  length (filter P (f <$> l)) = length (filter (λ x, P (f x)) l).
Proof.
  induction l as [|x l IH]; [done|].
  rewrite fmap_cons, !filter_cons. destruct (decide (P (f x))); simpl; lia.
Qed.

Lemma fmap_imap_ext {A B C} (F : nat → A → B) (h : B → C) (g : A → C) (l : list A) :
  (∀ i x, x ∈ l → h (F i x) = g x) → h <$> imap F l = g <$> l.
Proof.
  revert F. induction l as [|x l IH]; intros F HF; [done|].
  rewrite imap_cons, !fmap_cons. f_equal.
  - apply HF. left.
  - apply IH. intros i y Hy. apply HF. by right.
Qed.

Lemma sum_list_with_imap {A B} (F : nat → A → B) (h : B → nat) (g : A → nat)
    (l : list A) :
  (∀ i x, x ∈ l → h (F i x) = g x) →
  sum_list_with h (imap F l) = sum_list_with g l.
Proof.
  revert F. induction l as [|x l IH]; intros F HF; [done|].
  rewrite imap_cons. simpl. f_equal.
  - apply HF. left.
  - apply IH. intros i y Hy. apply HF. by right.
Qed.

(** The summary frame read back field by field. *)
Lemma summary_of_spec (groups : list (list value * nat)) :
  (∀ g, g ∈ groups → length g.1 = 2) →
  let s := summary_of groups in
  (λ r, [field s "event_date" r; field s "user_id" r]) <$> rows s
    ≡ₚ groups.*1 ∧
  sum_list_with (event_count s) (rows s) = sum_list_with snd groups ∧
  ∀ r, r ∈ rows s →
    ([field s "event_date" r; field s "user_id" r], event_count s r) ∈ groups.
Proof.
  intros Hlen s.
  pose proof (merge_sort_Permutation group_le groups) as Hperm.
  assert (∀ i g, g ∈ merge_sort group_le groups →
            let r := mkRow i (g.1 ++ [VInt (Z.of_nat g.2)]) in
            [field s "event_date" r; field s "user_id" r] = g.1 ∧
            event_count s r = g.2) as Hrow.
  { intros i [k n] Hg. rewrite Hperm in Hg. specialize (Hlen _ Hg).
    destruct k as [|a [|b [|? ?]]]; try done. simpl. split; [done|].
    unfold event_count. simpl. by rewrite Nat2Z.id. }
  split_and!.
  - rewrite <- Hperm. unfold s, summary_of. cbn [rows].
    rewrite (fmap_imap_ext _ _ fst); [done|]. intros i g Hg. by apply Hrow.
  - rewrite <- Hperm. unfold s at 2, summary_of. cbn [rows].
    apply sum_list_with_imap. intros i g Hg. by apply Hrow.
  - intros r. unfold s at 1, summary_of. cbn [rows].
    intros (i & g & -> & Hg)%elem_of_lookup_imap.
    apply list_elem_of_lookup_2 in Hg.
    destruct (Hrow i g Hg) as [-> ->]. rewrite Hperm in Hg. by destruct g.
Qed.

(** C3: on an enriched table (timestamps parsed, users present) the
    Aggregator returns one row per distinct pair of calendar day and
    user; the event_count of a row is the number of enriched rows of that
    day and user; the counts add up to the number of enriched rows. *)
Theorem create_daily_summary_counts w df d pt pu :
  heap w !! df = Some d → rectangular d →
  col_pos "timestamp" (columns d) = Some pt →
  col_pos "user_id" (columns d) = Some pu →
  (∀ r, r ∈ rows d → (∃ ns, cell pt r = VTime ns) ∧ cell pu r ≠ VNull) →
  ∃ out w' s,
    create_daily_summary df w = (Ok out, w') ∧ heap w' !! out = Some s ∧
    columns s = ["event_date"; "user_id"; "event_count"] ∧
    let pair_of g := [field s "event_date" g; field s "user_id" g] in
    NoDup (pair_of <$> rows s) ∧
    (∀ k, k ∈ pair_of <$> rows s ↔ k ∈ group_of pt pu <$> rows d) ∧
    (∀ g, g ∈ rows s →
       event_count s g
       = length (filter (λ r, group_of pt pu r = pair_of g) (rows d))) ∧
    sum_list_with (event_count s) (rows s) = len d.
Proof.
  intros Hd Hrect Ht Hu Hrows.
  set (dates := date_of <$> (cell pt <$> rows d)).
  destruct (setitem_spec d "event_date" dates Hrect)
    as (p & f & Hp & Hrows1 & Hfp & Hother).
  destruct (Hother "user_id" pu) as [Hu1 Hfu]; [done..|].
  set (d1 := setitem d "event_date" dates) in *.
  assert (locs (columns d1) ["event_date"; "user_id"] = Ok [p; pu]) as Hps.
  { simpl. unfold loc. by rewrite Hp, Hu1. }
  assert (Forall (λ r, is_datetimelike (cell pt r)) (rows d)) as Hall.
  { apply Forall_forall. intros r Hr. destruct (Hrows r Hr) as [[ns ->] _]. done. }
  assert (key_at [p; pu] <$> rows d1 = group_of pt pu <$> rows d) as Hkeys.
  { rewrite Hrows1. unfold dates. rewrite <- list_fmap_compose, zip_with_fmap_same.
    rewrite <- list_fmap_compose. apply list_fmap_ext. intros i r Hr.
    apply list_elem_of_lookup_2 in Hr. unfold key_at, group_of. simpl.
    by rewrite Hfp, Hfu. }
  set (keys := group_of pt pu <$> rows d) in *.
  assert (filter (λ k, forallb notna k) keys = keys) as Hnotna.
  { apply filter_all. intros k (r & -> & Hr)%list_elem_of_fmap.
    destruct (Hrows r Hr) as [[ns Hns] Hnn]. unfold group_of. rewrite Hns. simpl.
    destruct (cell pu r); done. }
  pose proof (create_daily_summary_run w df d pt [p; pu] Hd Ht Hall Hps) as Hrun.
  fold dates d1 in Hrun. rewrite Hkeys, Hnotna in Hrun.
  destruct (group_sizes_spec keys) as (Hnd & Hin & Hcount & Hsum).
  destruct (summary_of_spec (group_sizes keys)) as (Hpairs & Htotal & Hmem).
  { intros [k n] Hg. simpl. assert (k ∈ keys) as Hk.
    { apply Hin, list_elem_of_fmap. by exists (k, n). }
    apply list_elem_of_fmap in Hk as (r & -> & _). done. }
  eexists _, _, _. split; [exact Hrun|]. cbn [heap].
  split; [rewrite <- (length_insert (heap w) df d1); apply heap_new_lookup|].
  split; [done|]. cbn zeta. split_and!.
  - by rewrite Hpairs.
  - intros k. by rewrite Hpairs, Hin.
  - intros g Hg. rewrite (Hcount _ _ (Hmem g Hg)). unfold keys.
    by rewrite length_filter_fmap.
  - rewrite Htotal, Hsum. unfold keys, len. by rewrite length_fmap.
Qed.

(** ** The driver *)

Lemma setitem_columns d c vs :
  columns (setitem d c vs)
  = if decide (c ∈ columns d) then columns d else columns d ++ [c].
Proof.
  unfold setitem. destruct (col_pos c (columns d)) as [p|] eqn:Hp; cbn [columns].
  - rewrite decide_True; [done|]. apply col_pos_elem_of. by eexists.
  - rewrite decide_False; [done|]. by apply col_pos_None.
Qed.

Lemma setitem_columns_elem_of d c vs : c ∈ columns (setitem d c vs).
Proof.
  rewrite setitem_columns. case_decide; [done|].
  apply elem_of_app. right. left.
Qed.

Lemma setitem_columns_subseteq d c vs : columns d ⊆ columns (setitem d c vs).
Proof.
  rewrite setitem_columns. case_decide; [done|].
  intros x Hx. apply elem_of_app. by left.
Qed.

Lemma joined_rows_left pl pr e u o :
  o ∈ joined_rows pl pr e u →
  ∃ l r, l ∈ rows e ∧ r ∈ rows u ∧ cells o = cells l ++ delete pr (cells r).
Proof.
  unfold joined_rows. intros (i & c & -> & Hc)%elem_of_lookup_imap.
  apply list_elem_of_lookup_2, list_elem_of_bind in Hc as (l & Hc & Hl).
  apply list_elem_of_fmap in Hc as (r & -> & Hr).
  apply list_elem_of_filter in Hr as [_ Hr]. by exists l, r.
Qed.

Lemma NoDup_delete_col_pos c cols p :
  NoDup cols → col_pos c cols = Some p → c ∉ delete p cols.
Proof.
  intros Hnd Hp Hin. apply list_elem_of_lookup in Hin as [j Hj].
  pose proof (col_pos_lookup _ _ _ Hp) as Hcp.
  destruct (decide (j < p)).
  - rewrite list_lookup_delete_lt in Hj by done.
    pose proof (proj1 (NoDup_alt _) Hnd _ _ _ Hj Hcp). lia.
  - rewrite list_lookup_delete_ge in Hj by lia.
    pose proof (proj1 (NoDup_alt _) Hnd _ _ _ Hj Hcp). lia.
Qed.

(** In the frame the Enricher returns for a cleaned table, the timestamp
    column still holds the parsed date-times and the users are there. *)
Lemma enriched_rows_spec pl pr pt qc qs dc u vs o :
  (∀ l, l ∈ rows dc → notna (cell pl l) ∧ ∃ ns, cell pt l = VTime ns) →
  qs ≠ pt → qs ≠ pl →
  o ∈ zip_with (set_cell qs)
        (filter (λ r, cell qc r = VStr "US") (joined_rows pl pr dc u)) vs →
  notna (cell pl o) ∧ ∃ ns, cell pt o = VTime ns.
Proof.
  intros Hdc Hqt Hql (o0 & v & -> & Ho0 & _)%elem_of_zip_with.
  apply list_elem_of_filter in Ho0 as [_ Ho0].
  apply joined_rows_left in Ho0 as (l & r & Hl & _ & Hcells).
  destruct (Hdc l Hl) as [Hn [ns Hns]].
  rewrite !cell_set_cell_ne by done. unfold cell in *. rewrite Hcells.
  destruct (cells l !! pl) as [vl|] eqn:Hvl; [|done].
  destruct (cells l !! pt) as [vt|] eqn:Hvt; [|done].
  rewrite (lookup_app_l_Some _ _ _ _ Hvl), (lookup_app_l_Some _ _ _ _ Hvt).
  simpl in *. eauto.
Qed.

Lemma aggregator_in_place w df d pt :
  heap w !! df = Some d →
  col_pos "timestamp" (columns d) = Some pt →
  Forall (λ r, is_datetimelike (cell pt r)) (rows d) →
  "user_id" ∈ columns d →
  let d1 := setitem d "event_date" (date_of <$> (cell pt <$> rows d)) in
  ∃ summary,
    create_daily_summary df w =
      (Ok (length (heap w)),
       World (<[df := d1]> (heap w) ++ [summary]) (files w) (stdout w)).
Proof.
  intros Hd Ht Hall Hu d1.
  destruct (locs_sub (columns d1) ["event_date"; "user_id"]) as [ps Hps].
  { intros c [->|[->|?%elem_of_nil]%elem_of_cons]%elem_of_cons; [| |done].
    - apply setitem_columns_elem_of.
    - by apply setitem_columns_subseteq. }
  eexists. by apply (create_daily_summary_run w df d pt ps).
Qed.

Lemma load_json_df_run w path d :
  files w !! path = Some d →
  load_json_df path w =
    (Ok (length (heap w)), World (heap w ++ [d]) (files w) (stdout w)).
Proof. intros H. unfold load_json_df, bind, read_table, new. by rewrite H. Qed.

Lemma load_csv_df_run w path d :
  files w !! path = Some d →
  load_csv_df path w =
    (Ok (length (heap w)), World (heap w ++ [d]) (files w) (stdout w)).
Proof. intros H. unfold load_csv_df, bind, read_table, new. by rewrite H. Qed.

Lemma write_parquet_run w df path d :
  heap w !! df = Some d →
  write_parquet df path w =
    (Ok (),
     World (heap w) (<[path := d]> (files w))
       (stdout w ++ ["Wrote " +:+ pretty (len d) +:+ " rows to " +:+ path])).
Proof. intros H. unfold write_parquet, bind, deref, write_table, print. by rewrite H. Qed.

Lemma heap_insert_new (h : list DataFrame) i d x :
  (<[i := d]> h ++ [x]) !! length h = Some x.
Proof. rewrite <- (length_insert h i d). apply heap_new_lookup. Qed.

Lemma heap_insert_old (h : list DataFrame) i d x :
  i < length h → (<[i := d]> h ++ [x]) !! i = Some d.
Proof.
  intros Hlt. rewrite lookup_app_l by (by rewrite length_insert).
  by apply list_lookup_insert_eq.
Qed.

(** C9: the Aggregator writes the event_date column into the frame it is
    given, and the driver writes the enriched frame to disk only after
    the Aggregator has run, so the file of enriched events holds the
    joined columns and event_date. *)
Theorem main_persists_event_date w e u pr :
  files w !! RAW_EVENTS_PATH = Some e → files w !! USERS_PATH = Some u →
  "user_id" ∈ columns e → "timestamp" ∈ columns e →
  "country" ∉ columns e → "signup_date" ∉ columns e →
  NoDup (columns u) → col_pos "user_id" (columns u) = Some pr →
  "country" ∈ columns u → "signup_date" ∈ columns u → "timestamp" ∉ columns u →
  (∀ w0 df d pt,
     heap w0 !! df = Some d →
     col_pos "timestamp" (columns d) = Some pt →
     Forall (λ r, is_datetimelike (cell pt r)) (rows d) →
     "user_id" ∈ columns d →
     ∃ out w1 d1,
       create_daily_summary df w0 = (Ok out, w1) ∧ out ≠ df ∧
       heap w1 !! df = Some d1 ∧
       d1 = setitem d "event_date" (date_of <$> (cell pt <$> rows d)) ∧
       "event_date" ∈ columns d1) ∧
  ∃ w' persisted,
    main w = (Ok (), w') ∧
    files w' !! CLEAN_EVENTS_PATH = Some persisted ∧
    "event_date" ∈ columns persisted ∧
    joined_columns pr e u ⊆ columns persisted ∧
    ("event_date" ∉ joined_columns pr e u →
     columns persisted = joined_columns pr e u ++ ["event_date"]).
Proof.
  intros Hfe Hfu [pl Hpl]%col_pos_elem_of [pt Hpt]%col_pos_elem_of Hnc Hns
    Hnd Hpr [pc Hpc]%col_pos_elem_of [ps Hps]%col_pos_elem_of Hnt.
  split.
  { intros w0 df d pt' Hd Ht Hall Hu.
    destruct (aggregator_in_place w0 df d pt' Hd Ht Hall Hu) as [summary Hrun].
    pose proof (lookup_lt_Some _ _ _ Hd) as Hlt.
    eexists _, _, _. split; [exact Hrun|]. cbn [heap]. split_and!.
    - lia.
    - rewrite lookup_app_l by (by rewrite length_insert).
      by apply list_lookup_insert_eq.
    - done.
    - apply setitem_columns_elem_of. }
  pose proof (user_id_not_timestamp _ _ _ Hpl Hpt) as Hne.
  destruct (identity_cols_locs (columns e)) as [ids Hids].
  unfold main, bind, print at 1.
  erewrite load_json_df_run by (cbn [files]; exact Hfe).
  erewrite load_csv_df_run by (cbn [files]; exact Hfu).
  cbn [heap files stdout].
  erewrite (clean_events_run _ _ e pl pt ids);
    [|cbn [heap]; rewrite lookup_app_l by (rewrite !length_app; simpl; lia);
      apply heap_new_lookup|done..].
  cbn [heap files stdout].
  set (dc := mkDF (columns e) _).
  assert (∀ l, l ∈ rows dc → notna (cell pl l) ∧ ∃ ns, cell pt l = VTime ns) as Hdc.
  { intros l Hl. apply (valid_rows_spec pl pt e); [done|].
    eapply elem_of_sublist; [exact Hl|apply compress_sublist]. }
  assert ("user_id" ∉ delete pr (columns u)) as Hud
    by (by apply NoDup_delete_col_pos).
  assert ("timestamp" ∉ delete pr (columns u)) as Htd.
  { intros Hin. apply Hnt. eapply elem_of_sublist; [exact Hin|apply sublist_delete]. }
  assert (col_pos "country" (joined_columns pr dc u)
          = Some (length (columns e) + shifted pr pc)) as Hqc
    by (by apply (joined_pos_right pr dc u)).
  assert (col_pos "signup_date" (joined_columns pr dc u)
          = Some (length (columns e) + shifted pr ps)) as Hqs
    by (by apply (joined_pos_right pr dc u)).
  set (qc := length (columns e) + shifted pr pc) in *.
  set (qs := length (columns e) + shifted pr ps) in *.
  assert (col_pos "user_id" (joined_columns pr dc u) = Some pl) as Hju
    by (by apply (joined_pos_left pr dc u)).
  assert (col_pos "timestamp" (joined_columns pr dc u) = Some pt) as Hjt
    by (by apply (joined_pos_left pr dc u)).
  erewrite (join_and_filter_run _ _ _ dc u pl pr);
    [|cbn [heap]; apply heap_new_lookup
     |cbn [heap]; rewrite lookup_app_l by (rewrite !length_app; simpl; lia);
      apply heap_new_lookup
     |done..].
  cbn [heap files stdout].
  set (de := mkDF (joined_columns pr dc u) _).
  assert (Forall (λ r, is_datetimelike (cell pt r)) (rows de)) as Hall.
  { assert (qs ≠ pt) as Hq1.
    { intros Heq. rewrite <- Heq in Hjt. by pose proof (col_pos_inj _ _ _ _ Hqs Hjt). }
    assert (qs ≠ pl) as Hq2.
    { intros Heq. rewrite <- Heq in Hju. by pose proof (col_pos_inj _ _ _ _ Hqs Hju). }
    apply Forall_forall. intros o Ho.
    by destruct (enriched_rows_spec pl pr pt qc qs dc u _ o Hdc Hq1 Hq2 Ho)
      as [_ [ns ->]]. }
  match goal with
  | |- context [create_daily_summary ?r ?w0] =>
      destruct (aggregator_in_place w0 r de pt) as [summary Hrun];
        [cbn [heap]; apply heap_new_lookup|done|done
        |apply col_pos_elem_of; by eexists|]
  end.
  rewrite Hrun. cbn [heap files stdout].
  set (de1 := setitem de "event_date" _) in *.
  erewrite write_parquet_run;
    [|cbn [heap]; apply heap_insert_old; rewrite !length_app; simpl; lia].
  cbn [heap files stdout].
  erewrite write_parquet_run; [|cbn [heap]; apply heap_insert_new].
  cbn [heap files stdout].
  eexists _, de1. split; [reflexivity|]. cbn [files].
  rewrite lookup_insert_ne by done. rewrite lookup_insert_eq.
  split_and!.
  - done.
  - apply setitem_columns_elem_of.
  - apply (setitem_columns_subseteq de).
  - intros Hn. unfold de1. rewrite setitem_columns. by rewrite decide_False.
Qed.

(** ** Cleaner, then Enricher: what the Aggregator is given *)

Lemma valid_rows_rectangular pu pt d :
  rectangular d →
  Forall (λ r, length (cells r) = length (columns d)) (valid_rows pu pt d).
Proof.
  intros Hrect. apply Forall_forall. intros r. unfold valid_rows.
  intros [_ (r0 & v & -> & Hr0 & _)%elem_of_zip_with]%list_elem_of_filter.
  apply list_elem_of_filter in Hr0 as [_ Hr0]. unfold set_cell. cbn [cells].
  rewrite length_insert. by apply (proj1 (Forall_forall _ _) Hrect).
Qed.

Lemma joined_columns_length pr e u :
  pr < length (columns u) →
  length (joined_columns pr e u) = length (columns e) + (length (columns u) - 1).
Proof.
  intros Hlt. unfold joined_columns. rewrite length_app, !length_fmap.
  rewrite length_delete; [done|]. by apply lookup_lt_is_Some_2.
Qed.

(** The frame the Enricher returns for the Cleaner's output is
    rectangular, keeps timestamp and user_id where the events had them,
    and every row of it has a parsed timestamp and a user. *)
Lemma enriched_frame_premises w events users e u :
  heap w !! events = Some e → heap w !! users = Some u →
  rectangular e → rectangular u →
  "user_id" ∈ columns e → "timestamp" ∈ columns e →
  "country" ∉ columns e → "signup_date" ∉ columns e →
  NoDup (columns u) → "user_id" ∈ columns u →
  "country" ∈ columns u → "signup_date" ∈ columns u → "timestamp" ∉ columns u →
  ∃ clean w1 enriched w2 d pt pu,
    clean_events events w = (Ok clean, w1) ∧
    join_and_filter clean users w1 = (Ok enriched, w2) ∧
    heap w2 !! enriched = Some d ∧
    rectangular d ∧
    col_pos "timestamp" (columns d) = Some pt ∧
    col_pos "user_id" (columns d) = Some pu ∧
    ∀ r, r ∈ rows d → (∃ ns, cell pt r = VTime ns) ∧ cell pu r ≠ VNull.
Proof.
  intros He Hu Hre Hru [pl Hpl]%col_pos_elem_of [pt Hpt]%col_pos_elem_of Hnc Hns
    Hnd [pr Hpr]%col_pos_elem_of [pc Hpc]%col_pos_elem_of [ps Hps]%col_pos_elem_of
    Hnt.
  pose proof (user_id_not_timestamp _ _ _ Hpl Hpt) as Hne.
  destruct (identity_cols_locs (columns e)) as [ids Hids].
  pose proof (clean_events_run w events e pl pt ids He Hpl Hpt Hids) as Hclean.
  cbn zeta in Hclean.
  set (kept := compress _ (valid_rows pl pt e)) in Hclean.
  set (dc := mkDF (columns e) kept) in Hclean.
  set (w1 := World _ _ _) in Hclean.
  assert (∀ l, l ∈ rows dc → l ∈ valid_rows pl pt e) as Hsub.
  { intros l Hl. eapply elem_of_sublist; [exact Hl|apply compress_sublist]. }
  assert (∀ l, l ∈ rows dc → notna (cell pl l) ∧ ∃ ns, cell pt l = VTime ns) as Hdc.
  { intros l Hl. by apply (valid_rows_spec pl pt e), Hsub. }
  assert ("user_id" ∉ delete pr (columns u)) as Hud
    by (by apply NoDup_delete_col_pos).
  assert ("timestamp" ∉ delete pr (columns u)) as Htd.
  { intros Hin. apply Hnt. eapply elem_of_sublist; [exact Hin|apply sublist_delete]. }
  set (qc := length (columns e) + shifted pr pc).
  set (qs := length (columns e) + shifted pr ps).
  assert (col_pos "country" (joined_columns pr dc u) = Some qc) as Hqc
    by (by apply (joined_pos_right pr dc u)).
  assert (col_pos "signup_date" (joined_columns pr dc u) = Some qs) as Hqs
    by (by apply (joined_pos_right pr dc u)).
  assert (col_pos "user_id" (joined_columns pr dc u) = Some pl) as Hju
    by (by apply (joined_pos_left pr dc u)).
  assert (col_pos "timestamp" (joined_columns pr dc u) = Some pt) as Hjt
    by (by apply (joined_pos_left pr dc u)).
  assert (qs ≠ pt) as Hq1.
  { intros Heq. rewrite <- Heq in Hjt. by pose proof (col_pos_inj _ _ _ _ Hqs Hjt). }
  assert (qs ≠ pl) as Hq2.
  { intros Heq. rewrite <- Heq in Hju. by pose proof (col_pos_inj _ _ _ _ Hqs Hju). }
  assert (heap w1 !! length (heap w) = Some dc) as Hdc1 by apply heap_new_lookup.
  assert (heap w1 !! users = Some u) as Hu1.
  { unfold w1. cbn [heap]. rewrite lookup_app_l; [done|]. by eapply lookup_lt_Some. }
  pose proof (join_and_filter_run w1 _ users dc u pl pr qc qs Hdc1 Hu1 Hpl Hpr Hqc Hqs)
    as Hjoin.
  cbn zeta in Hjoin.
  eexists _, _, _, _, _, pt, pl.
  split; [exact Hclean|]. split; [exact Hjoin|]. cbn [heap].
  split; [apply heap_new_lookup|]. cbn [columns rows]. split_and!; [|done|done|].
  - apply Forall_forall. intros o. cbn [rows columns].
    intros (o0 & v & -> & Ho0 & _)%elem_of_zip_with.
    apply list_elem_of_filter in Ho0 as [_ Ho0].
    apply joined_rows_left in Ho0 as (l & r & Hl & Hr & Hcells).
    unfold set_cell. cbn [cells]. rewrite length_insert, Hcells, length_app.
    rewrite (joined_columns_length pr dc u) by (by eapply col_pos_lt).
    rewrite length_delete.
    + rewrite (proj1 (Forall_forall _ _) (valid_rows_rectangular pl pt e Hre) l)
        by (by apply Hsub).
      by rewrite (proj1 (Forall_forall _ _) Hru r Hr).
    + apply lookup_lt_is_Some_2.
      rewrite (proj1 (Forall_forall _ _) Hru r Hr). by eapply col_pos_lt.
  - intros o Ho.
    destruct (enriched_rows_spec pl pr pt qc qs dc u _ o Hdc Hq1 Hq2 Ho)
      as [Hn Ht].
    split; [done|]. intros Heq. by rewrite Heq in Hn.
Qed.

(** ** The worked example *)

(** C4: on the four example events and the two example users, given
    that the parser reads "2024-01-01T10:00:00Z" as that instant and
    rejects "not-a-date", cleaning drops the row without user, the row
    with the bad timestamp and one duplicate and leaves one event of user
    1; enrichment keeps it; the daily summary is the single row
    event_date = 2024-01-01, user_id = 1, event_count = 1. *)
Theorem example_pipeline :
  to_datetime
    [VStr "2024-01-01T10:00:00Z"; VStr "2024-01-01T10:00:00Z"; VStr "not-a-date"]
  = [VTime 1704103200000000000; VTime 1704103200000000000; VNull] →
  ∃ w1 w2 w3 signup,
    clean_events 0 example_world = (Ok 2, w1) ∧
    heap w1 !! 2 =
      Some (mkDF ["user_id"; "timestamp"]
              [mkRow 0 [VInt 1; VTime 1704103200000000000]]) ∧
    stdout w1 =
      ["Initial row count: 4";
       "Rows dropped due to bad users: 1";
       "Rows dropped due to invalid timestamps: 1";
       "Rows dropped due to duplicates: 1";
       "Remaining rows after cleaning: 1"] ∧
    join_and_filter 2 1 w1 = (Ok 3, w2) ∧
    heap w2 !! 3 =
      Some (mkDF ["user_id"; "timestamp"; "country"; "signup_date"]
              [mkRow 0 [VInt 1; VTime 1704103200000000000; VStr "US"; signup]]) ∧
    create_daily_summary 3 w2 = (Ok 4, w3) ∧
    heap w3 !! 4 =
      Some (mkDF ["event_date"; "user_id"; "event_count"]
              [mkRow 0 [VDate (days_from_civil 2024 1 1); VInt 1; VInt 1]]).
Proof.
  intros Hts.
  pose proof (to_datetime_length [VStr "2023-01-01"]) as Hlen.
  destruct (to_datetime [VStr "2023-01-01"]) as [|signup [|? ?]] eqn:Hsd; try done.
  clear Hlen. vm_compute in Hts, Hsd.
  eexists _, _, _, signup. split_and!.
  - vm_compute. rewrite Hts. vm_compute. reflexivity.
  - reflexivity.
  - reflexivity.
  - vm_compute. rewrite Hsd. vm_compute. reflexivity.
  - reflexivity.
  - vm_compute. reflexivity.
  - reflexivity.
Qed.

(** ** More about the Cleaner *)

Lemma sublist_Forall2_r {A B} (R : A → B → Prop) (l' l : list A) (k : list B) :
  l' `sublist_of` l → Forall2 R l k →
  ∃ k', k' `sublist_of` k ∧ Forall2 R l' k'.
Proof.
  intros Hsub. revert k. induction Hsub as [|x l1 l2 _ IH|x l1 l2 _ IH]; intros k HF.
  - exists []. split; [apply sublist_nil_l|constructor].
  - apply Forall2_cons_inv_l in HF as (y & k0 & Hxy & HF & ->).
    destruct (IH _ HF) as (k' & Hk' & HF').
    exists (y :: k'). split; [by apply sublist_skip|by constructor].
  - apply Forall2_cons_inv_l in HF as (y & k0 & Hxy & HF & ->).
    destruct (IH _ HF) as (k' & Hk' & HF').
    exists k'. split; [by apply sublist_cons|done].
Qed.

Lemma first_occurrences_cover {A} (key : A → list value) seen (l : list A) x :
  x ∈ l →
  key x ∈ seen ∨
  ∃ y, y ∈ compress (negb <$> duplicated_from seen (key <$> l)) l ∧ key y = key x.
Proof.
  revert seen. induction l as [|x0 l IH]; intros seen; [by intros ?%elem_of_nil|].
  intros [->|Hx]%elem_of_cons; simpl.
  - case_bool_decide as Hseen; simpl; [by left|].
    right. exists x0. split; [left|done].
  - destruct (IH (key x0 :: seen) Hx) as [[Heq|Hs]%elem_of_cons|(y & Hy & Hk)].
    + case_bool_decide as Hseen; simpl.
      * left. by rewrite Heq.
      * right. exists x0. split; [left|done].
    + by left.
    + right. exists y. split; [|done].
      case_bool_decide; simpl; [done|by right].
Qed.

(** X1: the Cleaner keeps the columns, keeps the rows in their order with
    their labels, and changes no cell of a row it keeps other than the
    timestamp. *)
Theorem clean_events_changes_only_timestamp w df d pu pt :
  heap w !! df = Some d →
  col_pos "user_id" (columns d) = Some pu →
  col_pos "timestamp" (columns d) = Some pt →
  ∃ out w' d',
    clean_events df w = (Ok out, w') ∧ heap w' !! out = Some d' ∧
    columns d' = columns d ∧
    ∃ kept,
      kept `sublist_of` rows d ∧
      Forall2
        (λ r' r, label r' = label r ∧
                 length (cells r') = length (cells r) ∧
                 ∀ p, p ≠ pt → cells r' !! p = cells r !! p)
        (rows d') kept.
Proof.
  intros Hd Hu Ht.
  destruct (identity_cols_locs (columns d)) as [ps Hps].
  eexists _, _, _. split; [apply (clean_events_run _ _ _ _ _ _ Hd Hu Ht Hps)|].
  cbn [heap]. split; [apply heap_new_lookup|]. split; [done|]. cbn [rows].
  set (with_user := filter (λ r, notna (cell pu r)) (rows d)).
  set (series := to_datetime (cell pt <$> with_user)).
  assert (Forall2 (λ r' r, ∃ v, True ∧ r' = set_cell pt r v)
            (zip_with (set_cell pt) with_user series) with_user) as Hzip.
  { apply Forall2_zip_with_l; [|by apply Forall_forall].
    unfold series. by rewrite to_datetime_length, length_fmap. }
  destruct (sublist_Forall2_r _
              (compress (negb <$> duplicated (key_at ps <$> valid_rows pu pt d))
                 (valid_rows pu pt d))
              _ _ (transitivity (compress_sublist _ _) (sublist_filter _ _)) Hzip)
    as (kept & Hkept & HF).
  exists kept. split.
  - etransitivity; [exact Hkept|apply sublist_filter].
  - eapply Forall2_impl; [exact HF|]. intros r' r (v & _ & ->).
    unfold set_cell. cbn [label cells]. split_and!; [done|apply length_insert|].
    intros p Hp. by apply list_lookup_insert_ne.
Qed.

(** X2: nothing valid is lost but duplicates: every row with a user and a
    parsed timestamp has a row in the output that agrees with it on all
    identity columns. *)
Theorem clean_events_keeps_a_representative w df d pu pt :
  heap w !! df = Some d →
  col_pos "user_id" (columns d) = Some pu →
  col_pos "timestamp" (columns d) = Some pt →
  ∃ out w' d',
    clean_events df w = (Ok out, w') ∧ heap w' !! out = Some d' ∧
    ∀ r, r ∈ valid_rows pu pt d →
         ∃ r', r' ∈ rows d' ∧ same_identity d r' r.
Proof.
  intros Hd Hu Ht.
  destruct (identity_cols_locs (columns d)) as [ps Hps].
  eexists _, _, _. split; [apply (clean_events_run _ _ _ _ _ _ Hd Hu Ht Hps)|].
  cbn [heap]. split; [apply heap_new_lookup|]. cbn [rows]. intros r Hr.
  destruct (first_occurrences_cover (key_at ps) [] _ r Hr)
    as [?%elem_of_nil|(r' & Hr' & Hk)]; [done|].
  exists r'. split; [done|]. by apply (key_at_same_identity d ps).
Qed.

(** X3: a table that is already clean is returned as it is, and the three
    counts of dropped rows are zero. *)
Theorem clean_events_fixed_point w df d pu pt :
  heap w !! df = Some d →
  col_pos "user_id" (columns d) = Some pu →
  col_pos "timestamp" (columns d) = Some pt →
  (∀ r, r ∈ rows d → cell pu r ≠ VNull ∧ ∃ ns, cell pt r = VTime ns) →
  (∀ i j r1 r2, rows d !! i = Some r1 → rows d !! j = Some r2 →
     same_identity d r1 r2 → i = j) →
  clean_events df w =
    (Ok (length (heap w)),
     World (heap w ++ [d]) (files w)
       (stdout w ++ clean_log (len d) 0 0 0 (len d))).
Proof.
  intros Hd Hu Ht Hrows Hdistinct.
  destruct (identity_cols_locs (columns d)) as [ps Hps].
  rewrite (clean_events_run _ _ _ _ _ _ Hd Hu Ht Hps).
  assert (∀ r, r ∈ rows d → notna (cell pu r) ∧ ∃ ns, cell pt r = VTime ns) as Hok.
  { intros r Hr. destruct (Hrows r Hr) as [Hn Hts]. split; [|done].
    by destruct (cell pu r). }
  assert (filter (λ r, notna (cell pu r)) (rows d) = rows d) as Hwu.
  { apply filter_all. intros r Hr. by apply Hok. }
  assert (valid_rows pu pt d = rows d) as Hvalid.
  { destruct d as [cols rs]. by apply valid_rows_fixed. }
  assert (zip_with (set_cell pt) (rows d) (to_datetime (cell pt <$> rows d))
          = rows d) as Hparsed.
  { rewrite to_datetime_parsed.
    - rewrite zip_with_fmap_same. rewrite <- (list_fmap_id (rows d)) at 2.
      apply list_fmap_ext. intros i r Hr. simpl. apply set_cell_id.
      apply list_elem_of_lookup_2 in Hr.
      destruct (Hok r Hr) as [_ [ns Hns]]. by rewrite Hns.
    - apply Forall_fmap, Forall_forall. intros r Hr. by apply Hok. }
  rewrite Hwu, Hparsed, Hvalid.
  assert (compress (negb <$> duplicated (key_at ps <$> rows d)) (rows d) = rows d)
    as Hkept.
  { apply first_occurrences_id; [|intros x _; apply not_elem_of_nil].
    apply NoDup_alt. intros i j k Hi Hj.
    rewrite list_lookup_fmap in Hi, Hj.
    destruct (rows d !! i) as [r1|] eqn:H1; [|done].
    destruct (rows d !! j) as [r2|] eqn:H2; [|done].
    simpl in Hi, Hj. apply (Hdistinct i j r1 r2 H1 H2).
    apply (key_at_same_identity d ps); congruence. }
  rewrite Hkept.
  rewrite (filter_none (λ r, isna (cell pu r)))
    by (intros r Hr; destruct (Hok r Hr) as [Hn _]; unfold notna in Hn;
        destruct (isna (cell pu r)); simpl in *; tauto).
  rewrite (filter_none (λ r, isna (cell pt r)))
    by (intros r Hr; destruct (Hok r Hr) as [_ [ns Hns]]; rewrite Hns;
        simpl; tauto).
  rewrite Nat.sub_diag. by destruct d.
Qed.

(** ** More about the Enricher *)

Lemma merge_missing_left e u on : on ∉ columns e → merge e u on = Raise (KeyError on).
Proof. intros H%col_pos_None. unfold merge, loc. by rewrite H. Qed.

Lemma merge_missing_right e u on :
  on ∈ columns e → on ∉ columns u → merge e u on = Raise (KeyError on).
Proof.
  intros [pl Hl]%col_pos_elem_of Hr%col_pos_None. unfold merge, loc.
  by rewrite Hl, Hr.
Qed.


(** X4: a users table without a signup_date column stops the Enricher
    late.  The join and the segment filter have run and both counts are
    printed when the [KeyError] is raised; no frame is returned, and the
    two tables and the files stay as they are.  The tables are such that
    the merge itself goes through: they share no column name but the
    key, and the keys are integers on both sides. *)
Theorem join_and_filter_missing_signup_date w events users e u pl pr pc :
  heap w !! events = Some e → heap w !! users = Some u →
  col_pos "user_id" (columns e) = Some pl →
  col_pos "user_id" (columns u) = Some pr →
  col_pos "country" (columns u) = Some pc →
  "signup_date" ∉ columns e → "signup_date" ∉ columns u →
  (∀ c, c ∈ columns e → c ∉ delete pr (columns u)) →
  (∀ r, r ∈ rows e → ∃ n, cell pl r = VInt n) →
  (∀ r, r ∈ rows u → ∃ n, cell pr r = VInt n) →
  let joined := joined_rows pl pr e u in
  let selected :=
    filter (λ r, cell (length (columns e) + shifted pr pc) r = VStr "US") joined in
  join_and_filter events users w =
    (Raise (KeyError "signup_date"),
     World (heap w) (files w)
       (stdout w ++ join_log (length joined - length selected) (length selected))).
Proof.
  intros He Hu Hpl Hpr Hpc Hnse Hnsu Hfresh _ _ joined selected.
  assert ("country" ∉ columns e) as Hnc.
  { intros Hin. apply (Hfresh _ Hin). apply col_pos_elem_of.
    exists (shifted pr pc). by eapply col_pos_delete. }
  assert (col_pos "country" (joined_columns pr e u)
          = Some (length (columns e) + shifted pr pc)) as Hqc
    by (by apply joined_pos_right).
  assert ("signup_date" ∉ joined_columns pr e u) as Hn.
  { unfold joined_columns. rewrite elem_of_app. intros [Hin|Hin].
    - by apply (not_elem_of_suffixed "_x" _ "signup_date" (columns e)) in Hin.
    - apply (not_elem_of_suffixed "_y" _ "signup_date" (delete pr (columns u)))
        in Hin; [done..|].
      intros Hd. apply Hnsu. eapply elem_of_sublist; [exact Hd|apply sublist_delete]. }
  unfold join_and_filter, bind, deref, lift. rewrite He, Hu.
  rewrite (merge_at _ _ _ _ _ Hpl Hpr).
  rewrite (getitem_at _ "country" (length (columns e) + shifted pr pc)) by done.
  cbn [columns rows].
  unfold getitem_mask. cbn [columns rows].
  rewrite <- list_fmap_compose, compress_fmap.
  rewrite (list_filter_iff _
             (λ r, cell (length (columns e) + shifted pr pc) r = VStr "US"))
    by (intros r; simpl; apply bool_decide_spec).
  unfold print, len, join_log. cbn [columns rows heap files stdout].
  rewrite getitem_missing by done.
  by rewrite <- !(assoc_L (++)).
Qed.




Lemma suffixed_id sfx others (cols : list string) :
  (∀ c, c ∈ cols → c ∉ others) → suffixed sfx others <$> cols = cols.
Proof.
  intros H. rewrite <- (list_fmap_id cols) at 2. apply list_fmap_ext.
  intros i c Hc. unfold suffixed. rewrite bool_decide_eq_false_2; [done|].
  apply H. by eapply list_elem_of_lookup_2.
Qed.

(** X6: without a name shared between the two tables other than the key,
    the enriched table has the event columns followed by the user
    columns without the key, under their own names. *)
Theorem join_and_filter_columns w events users e u pr :
  heap w !! events = Some e → heap w !! users = Some u →
  "user_id" ∈ columns e →
  col_pos "user_id" (columns u) = Some pr →
  "country" ∈ columns u → "signup_date" ∈ columns u →
  (∀ c, c ∈ columns e → c ∉ delete pr (columns u)) →
  ∃ out w' d',
    join_and_filter events users w = (Ok out, w') ∧ heap w' !! out = Some d' ∧
    columns d' = columns e ++ delete pr (columns u).
Proof.
  intros He Hu [pl Hpl]%col_pos_elem_of Hpr [pc Hpc]%col_pos_elem_of
    [ps Hps]%col_pos_elem_of Hfresh.
  assert (joined_columns pr e u = columns e ++ delete pr (columns u)) as Hcols.
  { unfold joined_columns. rewrite !suffixed_id; [done| |done].
    intros c Hc Hin. by apply (Hfresh c Hin). }
  assert (∀ c p, c ≠ "user_id" → col_pos c (columns u) = Some p →
                 c ∈ joined_columns pr e u) as Hin.
  { intros c p Hne Hp. rewrite Hcols. apply elem_of_app. right.
    apply col_pos_elem_of. exists (shifted pr p). by eapply col_pos_delete. }
  destruct (proj1 (col_pos_elem_of _ _) (Hin "country" pc ltac:(done) Hpc))
    as [qc Hqc].
  destruct (proj1 (col_pos_elem_of _ _) (Hin "signup_date" ps ltac:(done) Hps))
    as [qs Hqs].
  eexists _, _, _.
  split; [apply (join_and_filter_run _ _ _ _ _ _ _ _ _ He Hu Hpl Hpr Hqc Hqs)|].
  cbn [heap]. split; [apply heap_new_lookup|done].
Qed.

Lemma filter_key_at_most_one {A} (f : A → value) (k : value) (l : list A) :
  NoDup (f <$> l) → (length (filter (λ x, f x = k) l) ≤ 1)%nat.
Proof.
  induction l as [|x l IH]; [simpl; lia|].
  rewrite fmap_cons, NoDup_cons, filter_cons. intros [Hx Hnd].
  destruct (decide (f x = k)) as [Hk|Hk]; [|by apply IH].
  rewrite (filter_none _ l); [simpl; lia|].
  intros y Hy Hyk. apply Hx, list_elem_of_fmap. exists y. split; congruence.
Qed.

Lemma length_bind_le {A B} (f : A → list B) (l : list A) n :
  (∀ x, x ∈ l → (length (f x) ≤ n)%nat) → (length (l ≫= f) ≤ n * length l)%nat.
Proof.
  induction l as [|x l IH]; intros H; [simpl; lia|].
  rewrite bind_cons, length_app. simpl.
  pose proof (H x ltac:(left)). 
  assert (length (l ≫= f) ≤ n * length l)%nat
    by (apply IH; intros y Hy; apply H; by right).
  lia.
Qed.

(** X7: with one user record per user_id the join adds no rows: the enriched
    table has at most as many rows as the events. *)
Theorem join_and_filter_no_fan_out w events users e u pr :
  heap w !! events = Some e → heap w !! users = Some u →
  rectangular e →
  "user_id" ∈ columns e → "country" ∉ columns e → "signup_date" ∉ columns e →
  col_pos "user_id" (columns u) = Some pr →
  "country" ∈ columns u → "signup_date" ∈ columns u →
  NoDup (cell pr <$> rows u) →
  ∃ out w' d',
    join_and_filter events users w = (Ok out, w') ∧ heap w' !! out = Some d' ∧
    (len d' ≤ len e)%nat.
Proof.
  intros He Hu Hrect [pl Hpl]%col_pos_elem_of Hnc Hns Hpr [pc Hpc]%col_pos_elem_of
    [ps Hps]%col_pos_elem_of Hnd.
  destruct (join_and_filter_denotation w events users e u pl pr pc ps)
    as (d' & Hrun & _ & _ & Hcells); try done.
  eexists (length (heap w)), _, d'. split; [exact Hrun|]. cbn [heap].
  split; [apply heap_new_lookup|].
  unfold len. rewrite <- (length_fmap cells), Hcells.
  rewrite length_zip_with_l_eq by (by rewrite to_datetime_length, length_fmap).
  etransitivity; [apply length_filter|].
  rewrite (inner_join_at e u "user_id" pl pr) by done.
  etransitivity; [apply (length_bind_le _ _ 1)|lia].
  intros l _. rewrite length_fmap. by apply filter_key_at_most_one.
Qed.

(** ** More about the Aggregator *)

(** What the Aggregator computes on a rectangular frame with a date-time
    column: the caller's frame gets its event_date column, and the
    summary holds the sizes of the groups of the rows that have both a
    day and a user. *)
Lemma create_daily_summary_denotation w df d pt pu :
  heap w !! df = Some d → rectangular d →
  col_pos "timestamp" (columns d) = Some pt →
  col_pos "user_id" (columns d) = Some pu →
  Forall (λ r, is_datetimelike (cell pt r)) (rows d) →
  create_daily_summary df w =
    (Ok (length (heap w)),
     World
       (<[df := setitem d "event_date" (date_of <$> (cell pt <$> rows d))]> (heap w)
        ++ [summary_of
              (group_sizes
                 (filter (λ k, forallb notna k) (group_of pt pu <$> rows d)))])
       (files w) (stdout w)).
Proof.
  intros Hd Hrect Ht Hu Hall.
  set (dates := date_of <$> (cell pt <$> rows d)).
  destruct (setitem_spec d "event_date" dates Hrect)
    as (p & f & Hp & Hrows1 & Hfp & Hother).
  destruct (Hother "user_id" pu) as [Hu1 Hfu]; [done..|].
  assert (locs (columns (setitem d "event_date" dates)) ["event_date"; "user_id"]
          = Ok [p; pu]) as Hps.
  { simpl. unfold loc. by rewrite Hp, Hu1. }
  assert (key_at [p; pu] <$> rows (setitem d "event_date" dates)
          = group_of pt pu <$> rows d) as Hkeys.
  { rewrite Hrows1. unfold dates.
    rewrite <- list_fmap_compose, zip_with_fmap_same, <- list_fmap_compose.
    apply list_fmap_ext. intros i r Hr. apply list_elem_of_lookup_2 in Hr.
    unfold key_at, group_of. simpl. by rewrite Hfp, Hfu. }
  rewrite (create_daily_summary_run w df d pt [p; pu] Hd Ht Hall Hps).
  fold dates. by rewrite Hkeys.
Qed.

(** X8: without a user_id column the Aggregator raises, but only after
    it has written the event_date column into the caller's frame: the
    failure leaves the frame changed. *)
Theorem create_daily_summary_missing_user_id w df d pt :
  heap w !! df = Some d →
  col_pos "timestamp" (columns d) = Some pt →
  Forall (λ r, is_datetimelike (cell pt r)) (rows d) →
  "user_id" ∉ columns d →
  create_daily_summary df w =
    (Raise (KeyError "user_id"),
     World
       (<[df := setitem d "event_date" (date_of <$> (cell pt <$> rows d))]>
          (heap w))
       (files w) (stdout w)).
Proof.
  intros Hd Ht Hall Hn.
  unfold create_daily_summary, bind, deref, lift, assign. rewrite Hd.
  rewrite (getitem_at _ _ _ Ht). unfold dt_date.
  assert (forallb is_datetimelike (cell pt <$> rows d) = true) as ->.
  { apply Is_true_true, forallb_True, Forall_fmap. exact Hall. }
  cbn [heap files stdout].
  rewrite list_lookup_insert_eq by (by eapply lookup_lt_Some).
  unfold groupby_size.
  set (d1 := setitem d "event_date" _).
  assert (∃ p, col_pos "event_date" (columns d1) = Some p) as [p Hp].
  { apply col_pos_elem_of, setitem_columns_elem_of. }
  assert (col_pos "user_id" (columns d1) = None) as Hu1.
  { apply col_pos_None. unfold d1. rewrite setitem_columns.
    case_decide; [done|]. rewrite elem_of_app, list_elem_of_singleton.
    by intros [?|?]. }
  simpl. unfold loc. by rewrite Hp, Hu1.
Qed.

(** X18: a timestamp column that holds anything else than date-times, one
    string that was never parsed is enough, makes the Aggregator raise
    the [AttributeError] of [.dt] before it touches the frame. *)
Theorem create_daily_summary_unparsed_timestamp w df d pt r :
  heap w !! df = Some d →
  col_pos "timestamp" (columns d) = Some pt →
  r ∈ rows d → ¬ is_datetimelike (cell pt r) →
  create_daily_summary df w =
    (Raise (AttributeError "Can only use .dt accessor with datetimelike values"),
     w).
Proof.
  intros Hd Ht Hr Hbad.
  unfold create_daily_summary, bind, deref, lift. rewrite Hd.
  rewrite (getitem_at _ _ _ Ht). unfold dt_date.
  destruct (forallb is_datetimelike (cell pt <$> rows d)) eqn:Hall; [|done].
  exfalso. apply Hbad. apply Is_true_true_2, forallb_True in Hall.
  apply (proj1 (Forall_forall _ _) Hall). apply list_elem_of_fmap. by exists r.
Qed.

Lemma filter_iff_elem_of {A} (P Q : A → Prop)
    `{!∀ x, Decision (P x), !∀ x, Decision (Q x)} (l : list A) :
  (∀ x, x ∈ l → P x ↔ Q x) → filter P l = filter Q l.
Proof.
  induction l as [|x l IH]; intros Hiff; [done|].
  rewrite !filter_cons.
  assert (filter P l = filter Q l) as ->
    by (apply IH; intros y Hy; apply Hiff; by right).
  pose proof (Hiff x ltac:(left)).
  destruct (decide (P x)), (decide (Q x)); tauto.
Qed.

(** X9: rows without a day or without a user are in no group: the counts of
    the summary add up to the number of rows that have both, and no
    summary row has a missing day or user. *)
Theorem create_daily_summary_skips_missing_keys w df d pt pu :
  heap w !! df = Some d → rectangular d →
  col_pos "timestamp" (columns d) = Some pt →
  col_pos "user_id" (columns d) = Some pu →
  Forall (λ r, is_datetimelike (cell pt r)) (rows d) →
  ∃ out w' s,
    create_daily_summary df w = (Ok out, w') ∧ heap w' !! out = Some s ∧
    sum_list_with (event_count s) (rows s)
    = length (filter (λ r, notna (cell pt r) ∧ notna (cell pu r)) (rows d)) ∧
    ∀ g, g ∈ rows s →
         field s "event_date" g ≠ VNull ∧ field s "user_id" g ≠ VNull.
Proof.
  intros Hd Hrect Ht Hu Hall.
  pose proof (create_daily_summary_denotation w df d pt pu Hd Hrect Ht Hu Hall)
    as Hrun.
  set (keys := filter (λ k, forallb notna k) (group_of pt pu <$> rows d)) in *.
  destruct (group_sizes_spec keys) as (Hnd & Hin & Hcount & Hsum).
  destruct (summary_of_spec (group_sizes keys)) as (Hpairs & Htotal & Hmem).
  { intros [k n] Hg. simpl. assert (k ∈ keys) as Hk.
    { apply Hin, list_elem_of_fmap. by exists (k, n). }
    apply list_elem_of_filter in Hk as [_ (r & -> & _)%list_elem_of_fmap]. done. }
  eexists _, _, _. split; [exact Hrun|]. cbn [heap].
  split; [apply heap_insert_new|]. split.
  - rewrite Htotal, Hsum. unfold keys. rewrite length_filter_fmap.
    f_equal. apply filter_iff_elem_of. intros r Hr. unfold group_of. simpl.
    pose proof (proj1 (Forall_forall _ _) Hall r Hr) as Hdt. simpl in Hdt.
    rewrite andb_true_r, andb_True.
    destruct (cell pt r); simpl in *; tauto.
  - intros g Hg. specialize (Hmem g Hg).
    assert ([field (summary_of (group_sizes keys)) "event_date" g;
             field (summary_of (group_sizes keys)) "user_id" g] ∈ keys) as Hk.
    { apply Hin, list_elem_of_fmap. eexists. split; [|exact Hmem]. done. }
    apply list_elem_of_filter in Hk as [Hnn _]. simpl in Hnn.
    rewrite andb_true_r in Hnn. apply andb_True in Hnn as [H1 H2].
    split; intros Heq; rewrite Heq in *; done.
Qed.

Lemma zip_with_fmap_fst {A B C} (g : A → B → A) (h : A → C) (l : list A) vs :
  (∀ x v, h (g x v) = h x) → length vs = length l →
  h <$> zip_with g l vs = h <$> l.
Proof.
  intros Hg. revert vs. induction l as [|x l IH]; intros [|v vs]; simpl; try done.
  intros [= Hlen]. by rewrite Hg, IH.
Qed.

Lemma setitem_labels d c vs :
  length vs = len d → label <$> rows (setitem d c vs) = label <$> rows d.
Proof.
  intros Hlen. unfold setitem.
  destruct (col_pos c (columns d)); cbn [rows]; by apply zip_with_fmap_fst.
Qed.

(** X10: what the Aggregator leaves in the caller's frame: the same rows, with
    the calendar day of the timestamp in the event_date column and every
    other column as it was. *)
Theorem create_daily_summary_event_date w df d pt :
  heap w !! df = Some d → rectangular d →
  col_pos "timestamp" (columns d) = Some pt →
  "user_id" ∈ columns d →
  Forall (λ r, is_datetimelike (cell pt r)) (rows d) →
  ∃ out w' d1,
    create_daily_summary df w = (Ok out, w') ∧ heap w' !! df = Some d1 ∧
    Forall2
      (λ r1 r,
         label r1 = label r ∧
         field d1 "event_date" r1 = date_of (field d "timestamp" r) ∧
         ∀ c, c ∈ columns d → c ≠ "event_date" → field d1 c r1 = field d c r)
      (rows d1) (rows d).
Proof.
  intros Hd Hrect Ht [pu Hu]%col_pos_elem_of Hall.
  pose proof (create_daily_summary_denotation w df d pt pu Hd Hrect Ht Hu Hall)
    as Hrun.
  set (dates := date_of <$> (cell pt <$> rows d)) in *.
  assert (length dates = len d) as Hlen
    by (unfold dates, len; by rewrite !length_fmap).
  destruct (setitem_spec d "event_date" dates Hrect)
    as (p & f & Hp & Hrows1 & Hfp & Hother).
  pose proof (setitem_labels d "event_date" dates Hlen) as Hlabels.
  set (d1 := setitem d "event_date" dates) in *.
  eexists _, _, d1. split; [exact Hrun|]. cbn [heap].
  split; [apply heap_insert_old; by eapply lookup_lt_Some|].
  apply Forall2_same_length_lookup. split.
  { by rewrite <- (length_fmap label), Hlabels, length_fmap. }
  intros i r1 r Hr1 Hr.
  assert (r ∈ rows d) as Hin by (by eapply list_elem_of_lookup_2).
  assert (r1 = f r (date_of (cell pt r))) as ->.
  { rewrite Hrows1 in Hr1. apply lookup_zip_with_Some in Hr1 as (r' & v & -> & Hr' & Hv).
    unfold dates in Hv. rewrite !list_lookup_fmap, Hr in Hv. simpl in Hv.
    congruence. }
  split_and!.
  - assert ((label <$> rows d1) !! i = Some (label (f r (date_of (cell pt r)))))
      as Hl by (by rewrite list_lookup_fmap, Hr1).
    rewrite Hlabels, list_lookup_fmap, Hr in Hl. simpl in Hl. congruence.
  - unfold field. rewrite Hp, Ht. by apply Hfp.
  - intros c [q Hq]%col_pos_elem_of Hne.
    destruct (Hother c q Hne Hq) as [Hq1 Hcell].
    unfold field. rewrite Hq1, Hq. by apply Hcell.
Qed.

(** ** The order of the summary *)

Lemma value_leb_total a b : value_leb a b ∨ value_leb b a.
Proof.
  destruct a as [| x | x | x | x], b as [| y | y | y | y]; simpl;
    try (by left); try (by right).
  - destruct (Z.leb_spec x y); [by left|right].
    apply Is_true_true, Z.leb_le. lia.
  - destruct (String.leb_total x y) as [H|H]; rewrite H; [by left|by right].
  - destruct (Z.leb_spec x y); [by left|right].
    apply Is_true_true, Z.leb_le. lia.
  - destruct (Z.leb_spec x y); [by left|right].
    apply Is_true_true, Z.leb_le. lia.
Qed.

Lemma key_leb_total k1 k2 : key_leb k1 k2 ∨ key_leb k2 k1.
Proof.
  revert k2. induction k1 as [|a k1 IH]; intros [|b k2]; simpl;
    try (by left); try (by right).
  destruct (decide (a = b)) as [->|Hne].
  - rewrite !bool_decide_eq_true_2 by done. apply IH.
  - rewrite !bool_decide_eq_false_2 by done. apply value_leb_total.
Qed.

#[local] Instance group_le_total : Total group_le.
Proof. intros g1 g2. apply key_leb_total. Qed.

Lemma Sorted_lookup_adjacent {A} (R : relation A) (l : list A) i x y :
  Sorted R l → l !! i = Some x → l !! S i = Some y → R x y.
Proof.
  intros Hs. revert i. induction Hs as [|a l Hs IH Hhd]; intros i; [done|].
  destruct i as [|i]; simpl.
  - intros [= ->] Hy. destruct Hhd as [|b l' Hab]; [done|].
    simpl in Hy. by injection Hy as ->.
  - apply IH.
Qed.

(** X11: the summary comes sorted.  With integer user ids, of two rows that
    follow each other the second has a later day, or the same day and a
    user id that is not smaller. *)
Theorem create_daily_summary_sorted w df d pt pu :
  heap w !! df = Some d → rectangular d →
  col_pos "timestamp" (columns d) = Some pt →
  col_pos "user_id" (columns d) = Some pu →
  (∀ r, r ∈ rows d → (∃ ns, cell pt r = VTime ns) ∧ ∃ n, cell pu r = VInt n) →
  ∃ out w' s,
    create_daily_summary df w = (Ok out, w') ∧ heap w' !! out = Some s ∧
    ∀ i g g', rows s !! i = Some g → rows s !! S i = Some g' →
      ∃ day uid day' uid',
        field s "event_date" g = VDate day ∧ field s "user_id" g = VInt uid ∧
        field s "event_date" g' = VDate day' ∧ field s "user_id" g' = VInt uid' ∧
        ((day < day')%Z ∨ (day = day' ∧ (uid ≤ uid')%Z)).
Proof.
  intros Hd Hrect Ht Hu Hrows.
  assert (Forall (λ r, is_datetimelike (cell pt r)) (rows d)) as Hall.
  { apply Forall_forall. intros r Hr. by destruct (Hrows r Hr) as [[ns ->] _]. }
  pose proof (create_daily_summary_denotation w df d pt pu Hd Hrect Ht Hu Hall)
    as Hrun.
  set (keys := filter (λ k, forallb notna k) (group_of pt pu <$> rows d)) in *.
  eexists _, _, _. split; [exact Hrun|]. cbn [heap].
  split; [apply heap_insert_new|].
  assert (∀ g, g ∈ merge_sort group_le (group_sizes keys) →
               ∃ day uid, g.1 = [VDate day; VInt uid]) as Hshape.
  { intros [k n] Hg. rewrite merge_sort_Permutation in Hg.
    destruct (group_sizes_spec keys) as (_ & Hin & _).
    assert (k ∈ keys) as Hk by (apply Hin, list_elem_of_fmap; by exists (k, n)).
    apply list_elem_of_filter in Hk as [_ (r & -> & Hr)%list_elem_of_fmap].
    destruct (Hrows r Hr) as [[ns Hns] [uid Huid]].
    unfold group_of. rewrite Hns, Huid. simpl. by eexists _, _. }
  intros i g g'. unfold summary_of. cbn [rows].
  rewrite !list_lookup_imap.
  destruct (merge_sort group_le (group_sizes keys) !! i) as [[k n]|] eqn:Hi;
    [|done].
  destruct (merge_sort group_le (group_sizes keys) !! S i) as [[k' n']|] eqn:Hi';
    [|done].
  simpl. intros [= <-] [= <-].
  pose proof (Sorted_lookup_adjacent _ _ _ _ _
                (Sorted_merge_sort group_le (group_sizes keys)) Hi Hi') as Hle.
  destruct (Hshape _ (list_elem_of_lookup_2 _ _ _ Hi)) as (day & uid & Hk).
  destruct (Hshape _ (list_elem_of_lookup_2 _ _ _ Hi')) as (day' & uid' & Hk').
  simpl in Hk, Hk'. subst k k'. exists day, uid, day', uid'.
  split_and!; [done..|].
  unfold group_le in Hle. simpl in Hle.
  destruct (decide (day = day')) as [->|Hday].
  - right. split; [done|]. rewrite bool_decide_eq_true_2 in Hle by done.
    case_bool_decide as Hu'; [injection Hu' as ->; lia|].
    by apply Is_true_true, Z.leb_le in Hle.
  - left. rewrite bool_decide_eq_false_2 in Hle by congruence.
    apply Is_true_true, Z.leb_le in Hle. lia.
Qed.

(** ** More about the driver *)

Lemma keeps_files_bind {A B} (m : Py A) (k : A → Py B) :
  keeps_files m → (∀ a, keeps_files (k a)) → keeps_files (bind m k).
Proof.
  intros Hm Hk w. unfold bind. specialize (Hm w).
  destruct (m w) as [[a|e] w1]; simpl in *; [|done].
  by rewrite Hk.
Qed.

Lemma keeps_files_lift {A} (r : result A) : keeps_files (lift r).
Proof. by intros w. Qed.

Lemma keeps_files_print line : keeps_files (print line).
Proof. by intros w. Qed.

Lemma keeps_files_new d : keeps_files (new d).
Proof. by intros w. Qed.

Lemma keeps_files_assign r d : keeps_files (assign r d).
Proof. by intros w. Qed.

Lemma keeps_files_deref r : keeps_files (deref r).
Proof. intros w. unfold deref. by destruct (heap w !! r). Qed.

Lemma keeps_files_read_table path : keeps_files (read_table path).
Proof. intros w. unfold read_table. by destruct (files w !! path). Qed.

Ltac keeps_files :=
  repeat first
    [ apply keeps_files_bind; [|intros ?]
    | apply keeps_files_lift | apply keeps_files_print | apply keeps_files_new
    | apply keeps_files_assign | apply keeps_files_deref
    | apply keeps_files_read_table ].

Lemma clean_events_keeps_files df : keeps_files (clean_events df).
Proof. unfold clean_events. keeps_files. Qed.

Lemma join_and_filter_keeps_files events users :
  keeps_files (join_and_filter events users).
Proof. unfold join_and_filter. keeps_files. Qed.





(** The driver in terms of its three transforms. *)
Lemma main_steps w e u clean w1 enriched w2 daily w3 d s :
  files w !! RAW_EVENTS_PATH = Some e → files w !! USERS_PATH = Some u →
  clean_events (length (heap w))
    (World ((heap w ++ [e]) ++ [u]) (files w)
       (stdout w ++ ["ETL pipeline starting..."])) = (Ok clean, w1) →
  join_and_filter clean (length (heap w ++ [e])) w1 = (Ok enriched, w2) →
  create_daily_summary enriched w2 = (Ok daily, w3) →
  heap w3 !! enriched = Some d → heap w3 !! daily = Some s →
  main w =
    (Ok (),
     World (heap w3)
       (<[DAILY_SUMMARY_PATH := s]> (<[CLEAN_EVENTS_PATH := d]> (files w3)))
       (stdout w3 ++
          ["Wrote " +:+ pretty (len d) +:+ " rows to " +:+ CLEAN_EVENTS_PATH;
           "Wrote " +:+ pretty (len s) +:+ " rows to " +:+ DAILY_SUMMARY_PATH;
           "ETL pipeline completed successfully"])).
Proof.
  intros Hfe Hfu Hclean Hjoin Hagg Hd Hs.
  unfold main, bind, print at 1.
  erewrite load_json_df_run by (cbn [files]; exact Hfe).
  erewrite load_csv_df_run by (cbn [files]; exact Hfu).
  cbn [heap files stdout]. rewrite Hclean, Hjoin, Hagg.
  rewrite (write_parquet_run _ _ _ d Hd).
  erewrite write_parquet_run by (cbn [heap]; exact Hs).
  unfold print. cbn [heap files stdout].
  by rewrite <- !(assoc_L (++)).
Qed.

(** X12: a missing input file stops the run at once: without the events file
    nothing is loaded; without the users file the events are loaded and
    the run stops there.  Either way only the first line is printed and
    no file is written. *)
Theorem main_missing_input_file w :
  files w !! RAW_EVENTS_PATH = None ∨ files w !! USERS_PATH = None →
  ∃ path loaded,
    main w =
      (Raise (FileNotFoundError path),
       World (heap w ++ loaded) (files w)
         (stdout w ++ ["ETL pipeline starting..."])) ∧
    files w !! path = None ∧
    (files w !! RAW_EVENTS_PATH = None → path = RAW_EVENTS_PATH ∧ loaded = []) ∧
    (∀ e, files w !! RAW_EVENTS_PATH = Some e →
          path = USERS_PATH ∧ loaded = [e]).
Proof.
  intros Hmissing.
  destruct (files w !! RAW_EVENTS_PATH) as [e|] eqn:He.
  - destruct Hmissing as [?|Hu]; [done|].
    exists USERS_PATH, [e]. split_and!; [|done..|by intros ? [= ->]].
    unfold main, bind, print at 1.
    erewrite load_json_df_run by (cbn [files]; exact He).
    unfold load_csv_df, bind, read_table. cbn [heap files stdout].
    by rewrite Hu.
  - exists RAW_EVENTS_PATH, []. split_and!; [|done..].
    unfold main, bind, print at 1, load_json_df, bind, read_table.
    cbn [heap files stdout]. by rewrite He, app_nil_r.
Qed.

Lemma summary_total keys :
  (∀ k, k ∈ keys → length k = 2) →
  sum_list_with (event_count (summary_of (group_sizes keys)))
    (rows (summary_of (group_sizes keys))) = length keys.
Proof.
  intros Hlen.
  destruct (group_sizes_spec keys) as (_ & Hin & _ & Hsum).
  destruct (summary_of_spec (group_sizes keys)) as (_ & Htotal & _).
  { intros [k n] Hg. simpl. apply Hlen, Hin, list_elem_of_fmap. by exists (k, n). }
  by rewrite Htotal.
Qed.

(** What a run on rectangular input tables with the expected columns
    writes and prints. *)
Lemma main_run_accounts w e u :
  files w !! RAW_EVENTS_PATH = Some e → files w !! USERS_PATH = Some u →
  rectangular e → rectangular u →
  "user_id" ∈ columns e → "timestamp" ∈ columns e →
  "country" ∉ columns e → "signup_date" ∉ columns e →
  NoDup (columns u) → "user_id" ∈ columns u →
  "country" ∈ columns u → "signup_date" ∈ columns u → "timestamp" ∉ columns u →
  ∃ w' enriched summary lines,
    main w = (Ok (), w') ∧
    files w' =
      <[DAILY_SUMMARY_PATH := summary]>
        (<[CLEAN_EVENTS_PATH := enriched]> (files w)) ∧
    sum_list_with (event_count summary) (rows summary) = len enriched ∧
    stdout w' =
      lines ++
      ["Wrote " +:+ pretty (len enriched) +:+ " rows to " +:+ CLEAN_EVENTS_PATH;
       "Wrote " +:+ pretty (len summary) +:+ " rows to " +:+ DAILY_SUMMARY_PATH;
       "ETL pipeline completed successfully"].
Proof.
  intros Hfe Hfu Hre Hru Hue Hte Hnc Hns Hnd Huu Hcu Hsu Hnt.
  set (w0 := World ((heap w ++ [e]) ++ [u]) (files w)
               (stdout w ++ ["ETL pipeline starting..."])).
  assert (heap w0 !! length (heap w) = Some e) as He0.
  { unfold w0. cbn [heap]. rewrite lookup_app_l by (rewrite !length_app; simpl; lia).
    apply heap_new_lookup. }
  assert (heap w0 !! length (heap w ++ [e]) = Some u) as Hu0
    by apply heap_new_lookup.
  destruct (enriched_frame_premises w0 _ _ e u He0 Hu0 Hre Hru Hue Hte Hnc Hns
              Hnd Huu Hcu Hsu Hnt)
    as (clean & w1 & enr & w2 & d & pt & pu & Hclean & Hjoin & Hd & Hrd & Ht & Hu
        & Hrows).
  pose proof (clean_events_keeps_files (length (heap w)) w0) as Hf1.
  rewrite Hclean in Hf1. simpl in Hf1.
  pose proof (join_and_filter_keeps_files clean (length (heap w ++ [e])) w1) as Hf2.
  rewrite Hjoin in Hf2. simpl in Hf2.
  assert (Forall (λ r, is_datetimelike (cell pt r)) (rows d)) as Hall.
  { apply Forall_forall. intros r Hr. by destruct (Hrows r Hr) as [[ns ->] _]. }
  pose proof (create_daily_summary_denotation w2 enr d pt pu Hd Hrd Ht Hu Hall)
    as Hagg.
  set (d1 := setitem d "event_date" _) in Hagg.
  set (keys := filter _ (group_of pt pu <$> rows d)) in Hagg.
  set (w3 := World _ _ _) in Hagg.
  assert (heap w3 !! enr = Some d1) as Hd1
    by (apply heap_insert_old; by eapply lookup_lt_Some).
  assert (heap w3 !! length (heap w2) = Some (summary_of (group_sizes keys))) as Hs
    by apply heap_insert_new.
  pose proof (main_steps w e u clean w1 enr w2 _ w3 d1 _ Hfe Hfu Hclean Hjoin Hagg
                Hd1 Hs) as Hmain.
  eexists _, d1, (summary_of (group_sizes keys)), _.
  split; [exact Hmain|]. unfold w3. cbn [files stdout]. split_and!.
  - by rewrite Hf2, Hf1.
  - rewrite summary_total.
    + unfold keys. rewrite filter_all.
      * unfold len, d1. rewrite length_fmap.
        rewrite <- (length_fmap label (rows (setitem _ _ _))), setitem_labels;
          [by rewrite length_fmap|].
        unfold len. by rewrite !length_fmap.
      * intros k (r & -> & Hr)%list_elem_of_fmap.
        destruct (Hrows r Hr) as [[ns Hns'] Hnn]. unfold group_of. rewrite Hns'.
        simpl. by destruct (cell pu r).
    + intros k [_ (r & -> & _)%list_elem_of_fmap]%list_elem_of_filter. done.
  - reflexivity.
Qed.

(** X14: end to end.  Whenever a run on rectangular input tables with the
    expected columns completes, it has written exactly two files, the
    enriched table and its summary; the counts of the summary add up to
    the number of rows of the enriched table, and the three closing
    lines report the sizes of what was written. *)
Theorem main_summary_accounts_for_enriched w w' e u :
  main w = (Ok (), w') →
  files w !! RAW_EVENTS_PATH = Some e → files w !! USERS_PATH = Some u →
  rectangular e → rectangular u →
  "user_id" ∈ columns e → "timestamp" ∈ columns e →
  "country" ∉ columns e → "signup_date" ∉ columns e →
  NoDup (columns u) → "user_id" ∈ columns u →
  "country" ∈ columns u → "signup_date" ∈ columns u → "timestamp" ∉ columns u →
  ∃ enriched summary lines,
    files w' =
      <[DAILY_SUMMARY_PATH := summary]>
        (<[CLEAN_EVENTS_PATH := enriched]> (files w)) ∧
    sum_list_with (event_count summary) (rows summary) = len enriched ∧
    stdout w' =
      lines ++
      ["Wrote " +:+ pretty (len enriched) +:+ " rows to " +:+ CLEAN_EVENTS_PATH;
       "Wrote " +:+ pretty (len summary) +:+ " rows to " +:+ DAILY_SUMMARY_PATH;
       "ETL pipeline completed successfully"].
Proof.
  intros Hrun Hfe Hfu Hre Hru Hue Hte Hnc Hns Hnd Huu Hcu Hsu Hnt.
  destruct (main_run_accounts w e u Hfe Hfu Hre Hru Hue Hte Hnc Hns Hnd Huu Hcu
              Hsu Hnt)
    as (w0 & enriched & summary & lines & Hmain & Hfiles & Hsum & Hout).
  rewrite Hmain in Hrun. injection Hrun as <-.
  by exists enriched, summary, lines.
Qed.

(** The files a successful run leaves, as frames computed from the two
    input tables alone. *)
Lemma main_run w e u pl pt pr pc ps ids gps :
  files w !! RAW_EVENTS_PATH = Some e → files w !! USERS_PATH = Some u →
  col_pos "user_id" (columns e) = Some pl →
  col_pos "timestamp" (columns e) = Some pt →
  "country" ∉ columns e → "signup_date" ∉ columns e →
  NoDup (columns u) →
  col_pos "user_id" (columns u) = Some pr →
  col_pos "country" (columns u) = Some pc →
  col_pos "signup_date" (columns u) = Some ps →
  "timestamp" ∉ columns u →
  locs (columns e) (identity_cols (columns e)) = Ok ids →
  let qc := length (columns e) + shifted pr pc in
  let qs := length (columns e) + shifted pr ps in
  let de := enriched_frame pl pr qc qs (cleaned_frame pl pt ids e) u in
  locs (columns (dated_frame pt de)) ["event_date"; "user_id"] = Ok gps →
  ∃ h out,
    main w =
      (Ok (),
       World h
         (<[DAILY_SUMMARY_PATH := summary_frame gps (dated_frame pt de)]>
            (<[CLEAN_EVENTS_PATH := dated_frame pt de]> (files w)))
         out).
Proof.
  intros Hfe Hfu Hpl Hpt Hnc Hns Hnd Hpr Hpc Hps Hnt Hids qc qs de Hgps.
  pose proof (user_id_not_timestamp _ _ _ Hpl Hpt) as Hne.
  set (w0 := World ((heap w ++ [e]) ++ [u]) (files w)
               (stdout w ++ ["ETL pipeline starting..."])).
  assert (heap w0 !! length (heap w) = Some e) as He0.
  { unfold w0. cbn [heap]. rewrite lookup_app_l by (rewrite !length_app; simpl; lia).
    apply heap_new_lookup. }
  pose proof (clean_events_run w0 _ e pl pt ids He0 Hpl Hpt Hids) as Hclean.
  cbn zeta in Hclean. fold (cleaned_frame pl pt ids e) in Hclean.
  set (dc := cleaned_frame pl pt ids e) in *.
  set (w1 := World (heap w0 ++ [dc]) _ _) in Hclean.
  assert (∀ l, l ∈ rows dc → notna (cell pl l) ∧ ∃ ns, cell pt l = VTime ns) as Hdc.
  { intros l Hl. apply (valid_rows_spec pl pt e); [done|].
    eapply elem_of_sublist; [exact Hl|apply compress_sublist]. }
  assert ("user_id" ∉ delete pr (columns u)) as Hud
    by (by apply NoDup_delete_col_pos).
  assert ("timestamp" ∉ delete pr (columns u)) as Htd.
  { intros Hin. apply Hnt. eapply elem_of_sublist; [exact Hin|apply sublist_delete]. }
  assert (col_pos "country" (joined_columns pr dc u) = Some qc) as Hqc
    by (by apply (joined_pos_right pr dc u)).
  assert (col_pos "signup_date" (joined_columns pr dc u) = Some qs) as Hqs
    by (by apply (joined_pos_right pr dc u)).
  assert (col_pos "user_id" (joined_columns pr dc u) = Some pl) as Hju
    by (by apply (joined_pos_left pr dc u)).
  assert (col_pos "timestamp" (joined_columns pr dc u) = Some pt) as Hjt
    by (by apply (joined_pos_left pr dc u)).
  assert (qs ≠ pt) as Hq1.
  { intros Heq. rewrite <- Heq in Hjt. by pose proof (col_pos_inj _ _ _ _ Hqs Hjt). }
  assert (qs ≠ pl) as Hq2.
  { intros Heq. rewrite <- Heq in Hju. by pose proof (col_pos_inj _ _ _ _ Hqs Hju). }
  assert (heap w1 !! length (heap w0) = Some dc) as Hdc1 by apply heap_new_lookup.
  assert (heap w1 !! length (heap w ++ [e]) = Some u) as Hu1.
  { unfold w1, w0. cbn [heap].
    rewrite lookup_app_l by (rewrite !length_app; simpl; lia).
    apply heap_new_lookup. }
  pose proof (join_and_filter_run w1 _ _ dc u pl pr qc qs Hdc1 Hu1 Hpl Hpr Hqc Hqs)
    as Hjoin.
  cbn zeta in Hjoin. fold (enriched_frame pl pr qc qs dc u) in Hjoin. fold de in Hjoin.
  set (w2 := World (heap w1 ++ [de]) _ _) in Hjoin.
  assert (heap w2 !! length (heap w1) = Some de) as Hde by apply heap_new_lookup.
  assert (Forall (λ r, is_datetimelike (cell pt r)) (rows de)) as Hall.
  { apply Forall_forall. intros o Ho.
    by destruct (enriched_rows_spec pl pr pt qc qs dc u _ o Hdc Hq1 Hq2 Ho)
      as [_ [ns ->]]. }
  pose proof (create_daily_summary_run w2 _ de pt gps Hde Hjt Hall Hgps) as Hagg.
  cbn zeta in Hagg. fold (dated_frame pt de) in Hagg.
  fold (summary_frame gps (dated_frame pt de)) in Hagg.
  set (w3 := World _ _ _) in Hagg.
  assert (heap w3 !! length (heap w1) = Some (dated_frame pt de)) as Hd1.
  { apply heap_insert_old. unfold w2. cbn [heap]. rewrite length_app. simpl. lia. }
  assert (heap w3 !! length (heap w2)
          = Some (summary_frame gps (dated_frame pt de))) as Hs
    by apply heap_insert_new.
  eexists _, _.
  by rewrite (main_steps w e u _ w1 _ w2 _ w3 _ _ Hfe Hfu Hclean Hjoin Hagg Hd1 Hs).
Qed.


(** X16: when no event carries a user the run still succeeds: the Cleaner
    drops every row, and the two files are written as tables without
    rows, the summary with its three columns. *)
Theorem main_no_valid_events w e u pu :
  files w !! RAW_EVENTS_PATH = Some e → files w !! USERS_PATH = Some u →
  col_pos "user_id" (columns e) = Some pu → "timestamp" ∈ columns e →
  "country" ∉ columns e → "signup_date" ∉ columns e →
  NoDup (columns u) → "user_id" ∈ columns u →
  "country" ∈ columns u → "signup_date" ∈ columns u → "timestamp" ∉ columns u →
  (∀ r, r ∈ rows e → cell pu r = VNull) →
  ∃ w' cols,
    main w = (Ok (), w') ∧
    files w' =
      <[DAILY_SUMMARY_PATH := mkDF ["event_date"; "user_id"; "event_count"] []]>
        (<[CLEAN_EVENTS_PATH := mkDF cols []]> (files w)).
Proof.
  intros Hfe Hfu Hpl [pt Hpt]%col_pos_elem_of Hnc Hns
    Hnd [pr Hpr]%col_pos_elem_of [pc Hpc]%col_pos_elem_of [ps Hps]%col_pos_elem_of
    Hnt Hnull.
  destruct (identity_cols_locs (columns e)) as [ids Hids].
  set (qc := length (columns e) + shifted pr pc).
  set (qs := length (columns e) + shifted pr ps).
  set (de := enriched_frame pu pr qc qs (cleaned_frame pu pt ids e) u).
  assert (rows de = []) as Hde.
  { unfold de, enriched_frame, cleaned_frame, joined_rows, valid_rows.
    cbn [rows columns].
    rewrite (filter_none (λ r, notna (cell pu r)) (rows e)); [done|].
    intros r Hr. rewrite (Hnull r Hr). by intros []. }
  assert (rows (dated_frame pt de) = []) as Hdated.
  { unfold dated_frame, setitem. rewrite Hde.
    by destruct (col_pos "event_date" (columns de)). }
  destruct (locs_sub (columns (dated_frame pt de)) ["event_date"; "user_id"])
    as [gps Hgps].
  { intros c [->|[->|?%elem_of_nil]%elem_of_cons]%elem_of_cons; [| |done].
    - apply setitem_columns_elem_of.
    - apply setitem_columns_subseteq. cbn [columns de enriched_frame].
      apply col_pos_elem_of. exists pu. apply joined_pos_left; [done| |done].
      by apply NoDup_delete_col_pos. }
  destruct (main_run w e u pu pt pr pc ps ids gps) as (h & out & Hrun); try done.
  fold qc qs de in Hrun.
  eexists _, (columns (dated_frame pt de)). split; [exact Hrun|].
  cbn [files]. f_equal.
  - unfold summary_frame. by rewrite Hdated.
  - f_equal. destruct (dated_frame pt de) as [cols rs]. simpl in *. by subst.
Qed.



End Pipeline.

(** ** The ISO parser is a date-time parser *)

Lemma iso_to_datetime_length series :
  length (iso_to_datetime series) = length series.
Proof. apply length_fmap. Qed.

Lemma iso_to_datetime_datetimelike series :
  Forall (λ v, is_datetimelike v) (iso_to_datetime series).
Proof.
  apply Forall_fmap, Forall_forall. intros v _. simpl.
  destruct v as [| |s| |]; simpl; try done. by destruct (iso8601 s).
Qed.

Lemma iso_to_datetime_parsed series :
  Forall (λ v, ∃ ns, v = VTime ns) series → iso_to_datetime series = series.
Proof.
  intros H. unfold iso_to_datetime. rewrite <- (list_fmap_id series) at 2.
  apply list_fmap_ext. intros i v Hv.
  destruct (proj1 (Forall_lookup _ _) H i v Hv) as [ns ->]. done.
Qed.

(** ** The theorems at work *)

Lemma clean_events_postconditions_example :
  heap example_world !! 0 = Some example_events ∧
  "user_id" ∈ columns example_events ∧ "timestamp" ∈ columns example_events ∧
  ∃ out w' d',
    clean_events iso_to_datetime 0 example_world = (Ok out, w') ∧
    heap w' !! out = Some d' ∧
    (∀ r, r ∈ rows d' → field d' "user_id" r ≠ VNull) ∧
    (∀ r, r ∈ rows d' → ∃ ns, field d' "timestamp" r = VTime ns) ∧
    (∀ i j r1 r2, rows d' !! i = Some r1 → rows d' !! j = Some r2 →
       same_identity d' r1 r2 → i = j).
Proof.
  split_and!; [reflexivity|compute_done..|].
  apply (clean_events_postconditions iso_to_datetime iso_to_datetime_datetimelike
           example_world 0 example_events); [reflexivity|compute_done..].
Defined.

Lemma clean_events_idempotent_example :
  heap example_world !! 0 = Some example_events ∧
  "user_id" ∈ columns example_events ∧ "timestamp" ∈ columns example_events ∧
  ∃ out w' d',
    clean_events iso_to_datetime 0 example_world = (Ok out, w') ∧
    heap w' !! out = Some d' ∧
    ∃ out2 w'',
      clean_events iso_to_datetime out w' = (Ok out2, w'') ∧
      heap w'' !! out2 = Some d'.
Proof.
  split_and!; [reflexivity|compute_done..|].
  apply (clean_events_idempotent iso_to_datetime iso_to_datetime_datetimelike
           iso_to_datetime_parsed example_world 0 example_events);
    [reflexivity|compute_done..].
Defined.

Lemma clean_events_keeps_first_occurrence_example :
  let w := World [metadata_events] ∅ [] in
  let valid := valid_rows iso_to_datetime 0 1 metadata_events in
  heap w !! 0 = Some metadata_events ∧
  col_pos "user_id" (columns metadata_events) = Some 0 ∧
  col_pos "timestamp" (columns metadata_events) = Some 1 ∧
  ∃ out w' mask,
    clean_events iso_to_datetime 0 w = (Ok out, w') ∧
    heap w' !! out = Some (mkDF (columns metadata_events) (compress mask valid)) ∧
    length mask = length valid ∧
    ∀ i r, valid !! i = Some r →
      ∃ kept, mask !! i = Some kept ∧
        (kept = true ↔
         ∀ j r', j < i → valid !! j = Some r' →
                 ¬ same_identity metadata_events r' r).
Proof.
  intros w valid. split_and!; [reflexivity..|].
  apply (clean_events_keeps_first_occurrence iso_to_datetime w 0 metadata_events 0 1);
    reflexivity.
Defined.

(** The second row differs from the first in its metadata only, and
    goes. *)
Example clean_events_metadata_duplicate :
  ∃ w',
    clean_events iso_to_datetime 0 (World [metadata_events] ∅ []) = (Ok 1, w') ∧
    heap w' !! 1 =
      Some (mkDF ["user_id"; "timestamp"; "metadata.source"]
              [mkRow 0 [VInt 1; VTime 1704103200000000000; VStr "web"];
               mkRow 2 [VInt 2; VTime 1704103200000000000; VStr "web"]]).
Proof. eexists. split; [vm_compute; reflexivity|reflexivity]. Qed.

(** A table without a timestamp column is refused. *)
Example clean_events_missing_timestamp :
  let w := World [mkDF ["user_id"] [mkRow 0 [VInt 1]]] ∅ [] in
  clean_events iso_to_datetime 0 w = (Raise (KeyError "timestamp"), w).
Proof. reflexivity. Qed.

Lemma join_and_filter_inner_join_us_example :
  let e := cleaned_events in
  let u := segment_users in
  heap join_world !! 0 = Some e ∧ heap join_world !! 1 = Some u ∧
  rectangular e ∧
  "user_id" ∈ columns e ∧
  ("country" ∉ columns e) ∧ ("signup_date" ∉ columns e) ∧
  col_pos "user_id" (columns u) = Some 0 ∧
  "country" ∈ columns u ∧
  col_pos "signup_date" (columns u) = Some 2 ∧
  ∃ out w' d',
    join_and_filter iso_to_datetime 0 1 join_world = (Ok out, w') ∧
    heap w' !! out = Some d' ∧
    Forall2 (λ o m, ∃ v, is_datetimelike v ∧ cells o = enriched_cells 0 2 m v)
      (rows d') (filter (in_segment u) (inner_join e u "user_id")) ∧
    ∀ o, o ∈ rows d' → field d' "country" o = VStr "US".
Proof.
  intros e u.
  assert (rectangular e) as Hrect by (repeat constructor).
  split_and!; [reflexivity|reflexivity|exact Hrect|compute_done..|reflexivity
              |compute_done|reflexivity|].
  apply (join_and_filter_inner_join_us iso_to_datetime iso_to_datetime_length
           iso_to_datetime_datetimelike join_world 0 1 e u 0 2);
    [reflexivity|reflexivity|exact Hrect|compute_done..|reflexivity
    |compute_done|reflexivity].
Defined.

(** User 1 is the one row; users 2 and 3 are counted together as
    dropped by the filter; the event of user 4 matched nobody. *)
Example join_and_filter_segment_users :
  ∃ w',
    join_and_filter iso_to_datetime 0 1 join_world = (Ok 2, w') ∧
    heap w' !! 2 =
      Some (mkDF ["user_id"; "timestamp"; "country"; "signup_date"]
              [mkRow 0 [VInt 1; VTime 1704103200000000000; VStr "US"; VNull]]) ∧
    stdout w' =
      ["Rows dropped due to non-US filter: 2"; "Row count after join + filter: 1"].
Proof. eexists. split_and!; [vm_compute; reflexivity|reflexivity..]. Qed.

Lemma join_and_filter_null_country_example :
  let e := cleaned_events in
  let u := segment_users in
  let pairs := inner_join e u "user_id" in
  let null_country := filter (λ m, field u "country" m.2 = VNull) pairs in
  let other_country :=
    filter (λ m, field u "country" m.2 ≠ VNull ∧ ¬ in_segment u m) pairs in
  heap join_world !! 0 = Some e ∧ heap join_world !! 1 = Some u ∧
  rectangular e ∧
  "user_id" ∈ columns e ∧
  ("country" ∉ columns e) ∧ ("signup_date" ∉ columns e) ∧
  "user_id" ∈ columns u ∧ "country" ∈ columns u ∧ "signup_date" ∈ columns u ∧
  ∃ out w' d',
    join_and_filter iso_to_datetime 0 1 join_world = (Ok out, w') ∧
    heap w' !! out = Some d' ∧
    stdout w' =
      stdout join_world
      ++ join_log (length null_country + length other_country) (len d') ∧
    len d' + length null_country + length other_country = length pairs ∧
    ∀ o, o ∈ rows d' → field d' "country" o ≠ VNull.
Proof.
  intros e u pairs null_country other_country.
  assert (rectangular e) as Hrect by (repeat constructor).
  split_and!; [reflexivity|reflexivity|exact Hrect|compute_done..|].
  apply (join_and_filter_null_country iso_to_datetime iso_to_datetime_length
           join_world 0 1 e u);
    [reflexivity|reflexivity|exact Hrect|compute_done..].
Defined.

Lemma join_and_filter_signup_date_drops_nothing_example :
  let e := cleaned_events in
  let u := segment_users in
  let selected := filter (in_segment u) (inner_join e u "user_id") in
  let parsed := iso_to_datetime ((λ m, cell 2 m.2) <$> selected) in
  heap join_world !! 0 = Some e ∧ heap join_world !! 1 = Some u ∧
  rectangular e ∧
  "user_id" ∈ columns e ∧
  ("country" ∉ columns e) ∧ ("signup_date" ∉ columns e) ∧
  col_pos "user_id" (columns u) = Some 0 ∧
  "country" ∈ columns u ∧
  col_pos "signup_date" (columns u) = Some 2 ∧
  ∃ out w' d',
    join_and_filter iso_to_datetime 0 1 join_world = (Ok out, w') ∧
    heap w' !! out = Some d' ∧
    len d' = length selected ∧
    cells <$> rows d' = zip_with (enriched_cells 0 2) selected parsed ∧
    Forall (λ v, is_datetimelike v) parsed ∧
    ∀ w2 users2 vals,
      heap w2 !! 0 = Some e →
      heap w2 !! users2 = Some (setitem u "signup_date" vals) →
      length vals = len u →
      ∃ out2 w2' d2,
        join_and_filter iso_to_datetime 0 users2 w2 = (Ok out2, w2') ∧
        heap w2' !! out2 = Some d2 ∧
        Forall2
          (λ o2 o, ∃ m v2 v,
             cells o2 = enriched_cells 0 2 m v2 ∧
             cells o = enriched_cells 0 2 m v)
          (rows d2) (rows d').
Proof.
  intros e u selected parsed.
  assert (rectangular e) as Hrect by (repeat constructor).
  split_and!; [reflexivity|reflexivity|exact Hrect|compute_done..|reflexivity
              |compute_done|reflexivity|].
  apply (join_and_filter_signup_date_drops_nothing iso_to_datetime
           iso_to_datetime_length iso_to_datetime_datetimelike
           join_world 0 1 e u 0 2);
    [reflexivity|reflexivity|exact Hrect|compute_done..|reflexivity
    |compute_done|reflexivity].
Defined.

Lemma create_daily_summary_counts_example :
  let w := World [enriched_events] ∅ [] in
  let d := enriched_events in
  heap w !! 0 = Some d ∧ rectangular d ∧
  col_pos "timestamp" (columns d) = Some 1 ∧
  col_pos "user_id" (columns d) = Some 0 ∧
  (∀ r, r ∈ rows d → (∃ ns, cell 1 r = VTime ns) ∧ cell 0 r ≠ VNull) ∧
  ∃ out w' s,
    create_daily_summary 0 w = (Ok out, w') ∧ heap w' !! out = Some s ∧
    columns s = ["event_date"; "user_id"; "event_count"] ∧
    let pair_of g := [field s "event_date" g; field s "user_id" g] in
    NoDup (pair_of <$> rows s) ∧
    (∀ k, k ∈ pair_of <$> rows s ↔ k ∈ group_of 1 0 <$> rows d) ∧
    (∀ g, g ∈ rows s →
       event_count s g
       = length (filter (λ r, group_of 1 0 r = pair_of g) (rows d))) ∧
    sum_list_with (event_count s) (rows s) = len d.
Proof.
  intros w d.
  assert (rectangular d) as Hrect by (repeat constructor).
  assert (∀ r, r ∈ rows d → (∃ ns, cell 1 r = VTime ns) ∧ cell 0 r ≠ VNull)
    as Hrows.
  { apply Forall_forall.
    repeat (constructor; [split; [by eexists|done]|]). constructor. }
  split_and!; [reflexivity|exact Hrect|reflexivity|reflexivity|exact Hrows|].
  apply (create_daily_summary_counts w 0 d 1 0);
    [reflexivity|exact Hrect|reflexivity|reflexivity|exact Hrows].
Defined.

(** Three groups, sorted by day and user, four events in all. *)
Example create_daily_summary_enriched_events :
  ∃ w',
    create_daily_summary 0 (World [enriched_events] ∅ []) = (Ok 1, w') ∧
    heap w' !! 1 =
      Some (mkDF ["event_date"; "user_id"; "event_count"]
              [mkRow 0 [VDate 19723; VInt 1; VInt 2];
               mkRow 1 [VDate 19723; VInt 2; VInt 1];
               mkRow 2 [VDate 19724; VInt 1; VInt 1]]).
Proof. eexists. split; [vm_compute; reflexivity|reflexivity]. Qed.

Lemma main_persists_event_date_example :
  let w := example_disk in
  let e := example_events in
  let u := example_users in
  files w !! RAW_EVENTS_PATH = Some e ∧ files w !! USERS_PATH = Some u ∧
  "user_id" ∈ columns e ∧ "timestamp" ∈ columns e ∧
  ("country" ∉ columns e) ∧ ("signup_date" ∉ columns e) ∧
  NoDup (columns u) ∧ col_pos "user_id" (columns u) = Some 0 ∧
  "country" ∈ columns u ∧ "signup_date" ∈ columns u ∧
  ("timestamp" ∉ columns u) ∧
  (∀ w0 df d pt,
     heap w0 !! df = Some d →
     col_pos "timestamp" (columns d) = Some pt →
     Forall (λ r, is_datetimelike (cell pt r)) (rows d) →
     "user_id" ∈ columns d →
     ∃ out w1 d1,
       create_daily_summary df w0 = (Ok out, w1) ∧ out ≠ df ∧
       heap w1 !! df = Some d1 ∧
       d1 = setitem d "event_date" (date_of <$> (cell pt <$> rows d)) ∧
       "event_date" ∈ columns d1) ∧
  ∃ w' persisted,
    main iso_to_datetime w = (Ok (), w') ∧
    files w' !! CLEAN_EVENTS_PATH = Some persisted ∧
    "event_date" ∈ columns persisted ∧
    joined_columns 0 e u ⊆ columns persisted ∧
    ("event_date" ∉ joined_columns 0 e u →
     columns persisted = joined_columns 0 e u ++ ["event_date"]).
Proof.
  intros w e u.
  do 11 (split; [by_evaluation|]).
  apply (main_persists_event_date iso_to_datetime iso_to_datetime_datetimelike
           w e u 0); by_evaluation.
Defined.

(** What the driver leaves on disk for the example tables. *)
Example main_example_disk :
  ∃ w',
    main iso_to_datetime example_disk = (Ok (), w') ∧
    files w' !! CLEAN_EVENTS_PATH =
      Some (mkDF ["user_id"; "timestamp"; "country"; "signup_date"; "event_date"]
              [mkRow 0 [VInt 1; VTime 1704103200000000000; VStr "US";
                        VTime 1672531200000000000; VDate 19723]]) ∧
    files w' !! DAILY_SUMMARY_PATH =
      Some (mkDF ["event_date"; "user_id"; "event_count"]
              [mkRow 0 [VDate 19723; VInt 1; VInt 1]]).
Proof. eexists. split_and!; [vm_compute; reflexivity|vm_compute; reflexivity..]. Qed.

Lemma example_pipeline_iso :
  iso_to_datetime
    [VStr "2024-01-01T10:00:00Z"; VStr "2024-01-01T10:00:00Z"; VStr "not-a-date"]
  = [VTime 1704103200000000000; VTime 1704103200000000000; VNull] ∧
  ∃ w1 w2 w3 signup,
    clean_events iso_to_datetime 0 example_world = (Ok 2, w1) ∧
    heap w1 !! 2 =
      Some (mkDF ["user_id"; "timestamp"]
              [mkRow 0 [VInt 1; VTime 1704103200000000000]]) ∧
    stdout w1 =
      ["Initial row count: 4";
       "Rows dropped due to bad users: 1";
       "Rows dropped due to invalid timestamps: 1";
       "Rows dropped due to duplicates: 1";
       "Remaining rows after cleaning: 1"] ∧
    join_and_filter iso_to_datetime 2 1 w1 = (Ok 3, w2) ∧
    heap w2 !! 3 =
      Some (mkDF ["user_id"; "timestamp"; "country"; "signup_date"]
              [mkRow 0 [VInt 1; VTime 1704103200000000000; VStr "US"; signup]]) ∧
    create_daily_summary 3 w2 = (Ok 4, w3) ∧
    heap w3 !! 4 =
      Some (mkDF ["event_date"; "user_id"; "event_count"]
              [mkRow 0 [VDate (days_from_civil 2024 1 1); VInt 1; VInt 1]]).
Proof.
  split; [vm_compute; reflexivity|].
  apply (example_pipeline iso_to_datetime iso_to_datetime_length).
  vm_compute. reflexivity.
Defined.

(** ** The Cleaner on frames with array cells *)

Lemma nested_getitem_at df c p :
  col_pos c (Nested.columns df) = Some p →
  Nested.getitem df c = Ok (Nested.cell p <$> Nested.rows df).
Proof. intros H. unfold Nested.getitem, loc. by rewrite H. Qed.

Lemma nested_getitem_missing df c :
  c ∉ Nested.columns df → Nested.getitem df c = Raise (KeyError c).
Proof. intros H%col_pos_None. unfold Nested.getitem, loc. by rewrite H. Qed.

Lemma nested_setitem_at df c p series :
  col_pos c (Nested.columns df) = Some p →
  Nested.setitem df c series
  = Nested.mkDF (Nested.columns df)
      (zip_with (Nested.set_cell p) (Nested.rows df) series).
Proof. intros H. unfold Nested.setitem. by rewrite H. Qed.

Lemma nested_dropna_at df c p :
  col_pos c (Nested.columns df) = Some p →
  Nested.dropna df [c]
  = Ok (Nested.mkDF (Nested.columns df)
          (filter (λ r, Nested.notna (Nested.cell p r)) (Nested.rows df))).
Proof.
  intros H. unfold Nested.dropna, Nested.getitem_mask. simpl. unfold loc.
  rewrite H, compress_fmap. do 2 f_equal. apply list_filter_iff. intros r. simpl.
  by rewrite andb_true_r.
Qed.

Lemma locs_elem_of cols subset ps p :
  locs cols subset = Ok ps →
  p ∈ ps ↔ ∃ c, c ∈ subset ∧ col_pos c cols = Some p.
Proof.
  revert ps. induction subset as [|c cs IH]; intros ps; simpl.
  - intros [= <-]. split; [by intros ?%elem_of_nil|].
    by intros (? & ?%elem_of_nil & _).
  - unfold loc. destruct (col_pos c cols) as [q|] eqn:Hq; [|done].
    destruct (locs cols cs) as [ps'|]; [|done]. intros [= <-].
    rewrite elem_of_cons, (IH ps' eq_refl). split.
    + intros [->|(c' & Hc' & Hp)].
      * exists c. split; [by left|done].
      * exists c'. split; [by right|done].
    + intros (c' & [->|Hc']%elem_of_cons & Hp); [left; congruence|].
      right. by exists c'.
Qed.

(** The deduplication hashes the identity cells of the rows it is
    given. *)
Lemma hashable_keys d ps (l : list Nested.Row) :
  locs (Nested.columns d) (identity_cols (Nested.columns d)) = Ok ps →
  forallb (forallb Nested.hashable) (Nested.key_at ps <$> l) ↔
  ∀ r c, r ∈ l → c ∈ Nested.columns d → identity_col c →
         Nested.hashable (Nested.field d c r).
Proof.
  intros Hps. rewrite forallb_True, Forall_fmap, Forall_forall. split.
  - intros Hall r c Hr Hc Hid. specialize (Hall r Hr). simpl in Hall.
    apply forallb_True in Hall. unfold Nested.key_at in Hall.
    rewrite Forall_fmap, Forall_forall in Hall.
    apply col_pos_elem_of in Hc as Hp. destruct Hp as [p Hp].
    unfold Nested.field. rewrite Hp. apply (Hall p).
    apply (locs_elem_of _ _ _ _ Hps). exists c. split; [|done].
    by apply identity_cols_spec.
  - intros Hall r Hr. simpl. apply forallb_True. unfold Nested.key_at.
    rewrite Forall_fmap. apply Forall_forall. intros p Hp. simpl.
    apply (locs_elem_of _ _ _ _ Hps) in Hp as (c & [Hc Hid]%identity_cols_spec & Hq).
    specialize (Hall r c Hr Hc Hid). unfold Nested.field in Hall.
    by rewrite Hq in Hall.
Qed.

Lemma unhashable_key d ps (l : list Nested.Row) :
  locs (Nested.columns d) (identity_cols (Nested.columns d)) = Ok ps →
  forallb (forallb Nested.hashable) (Nested.key_at ps <$> l) = false →
  ∃ r c, r ∈ l ∧ c ∈ Nested.columns d ∧ identity_col c ∧
         ¬ Nested.hashable (Nested.field d c r).
Proof.
  intros Hps Hkeys.
  assert (¬ forallb (forallb Nested.hashable) (Nested.key_at ps <$> l)) as Hnot
    by (rewrite Hkeys; by intros []).
  rewrite forallb_True, Forall_fmap in Hnot.
  apply not_Forall_Exists in Hnot; [|apply _].
  apply Exists_exists in Hnot as (r & Hr & Hbad). simpl in Hbad.
  rewrite forallb_True in Hbad. unfold Nested.key_at in Hbad.
  rewrite Forall_fmap in Hbad.
  apply not_Forall_Exists in Hbad; [|apply _].
  apply Exists_exists in Hbad as (p & Hp & Hno). simpl in Hno.
  apply (locs_elem_of _ _ _ _ Hps) in Hp as (c & [Hc Hid]%identity_cols_spec & Hq).
  exists r, c. unfold Nested.field. rewrite Hq. done.
Qed.

Section NestedCleaner.

Variable to_datetime : list Nested.pyvalue → list value.

Hypothesis to_datetime_length :
  ∀ series, length (to_datetime series) = length series.

Lemma nested_clean_events_run w d pu pt ps :
  col_pos "user_id" (Nested.columns d) = Some pu →
  col_pos "timestamp" (Nested.columns d) = Some pt →
  locs (Nested.columns d) (identity_cols (Nested.columns d)) = Ok ps →
  let with_user := filter (λ r, Nested.notna (Nested.cell pu r)) (Nested.rows d) in
  let parsed :=
    zip_with (Nested.set_cell pt) with_user
      (Nested.Scalar <$> to_datetime (Nested.cell pt <$> with_user)) in
  let valid := Nested.valid_rows to_datetime pu pt d in
  let keys := Nested.key_at ps <$> valid in
  let kept := compress (negb <$> Nested.duplicated keys) valid in
  Nested.clean_events to_datetime d w =
    if forallb (forallb Nested.hashable) keys then
      (Ok (Nested.mkDF (Nested.columns d) kept),
       World (heap w) (files w)
         (stdout w ++
            clean_log (Nested.len d)
              (length (filter (λ r, Nested.isna (Nested.cell pu r)) (Nested.rows d)))
              (length (filter (λ r, Nested.isna (Nested.cell pt r)) parsed))
              (length valid - length kept)
              (length kept)))
    else (Raise (TypeError "unhashable type: 'list'"), w).
Proof.
  intros Hu Ht Hps. simpl.
  unfold Nested.clean_events, bind, lift.
  rewrite (nested_getitem_at _ _ _ Hu), (nested_dropna_at _ _ _ Hu).
  cbn [Nested.columns Nested.rows].
  rewrite (nested_getitem_at _ "timestamp" pt) by done.
  cbn [Nested.columns Nested.rows].
  rewrite (nested_setitem_at _ "timestamp" pt) by done.
  cbn [Nested.columns Nested.rows].
  rewrite (nested_getitem_at _ "timestamp" pt) by done.
  rewrite (nested_dropna_at _ "timestamp" pt) by done.
  cbn [Nested.columns Nested.rows].
  unfold Nested.drop_duplicates. cbn [Nested.columns Nested.rows].
  fold (identity_cols (Nested.columns d)). rewrite Hps. cbn zeta.
  unfold Nested.valid_rows.
  destruct (forallb (forallb Nested.hashable) _); [|done].
  unfold Nested.getitem_mask, print, ret, Nested.len, clean_log.
  cbn [Nested.columns Nested.rows heap files stdout].
  rewrite <- !list_fmap_compose, !sum_fmap.
  rewrite <- !(assoc_L (++)). reflexivity.
Qed.

(** C8, as amended: the Cleaner raises a [KeyError] exactly when the
    table lacks the user_id or the timestamp column.  With both columns
    it raises in one more case: a row that has a user and a parsed
    timestamp holds a list in a column outside the metadata name space;
    the deduplication then raises a [TypeError].  Whenever it raises,
    nothing has been printed and nothing written.  In every other case
    it returns; rows with a missing user_id and rows whose timestamp is
    missing after parsing are dropped, and the printed counts account for
    every row. *)
Theorem clean_events_raises_on_schema_or_list w d :
  let unhashable pu pt r c :=
    r ∈ Nested.valid_rows to_datetime pu pt d ∧
    c ∈ Nested.columns d ∧ identity_col c ∧
    ¬ Nested.hashable (Nested.field d c r) in
  ((∃ e, (Nested.clean_events to_datetime d w).1 = Raise e) ↔
   "user_id" ∉ Nested.columns d ∨ "timestamp" ∉ Nested.columns d ∨
   ∃ pu pt r c,
     col_pos "user_id" (Nested.columns d) = Some pu ∧
     col_pos "timestamp" (Nested.columns d) = Some pt ∧
     unhashable pu pt r c) ∧
  ("user_id" ∉ Nested.columns d →
   Nested.clean_events to_datetime d w = (Raise (KeyError "user_id"), w)) ∧
  ("user_id" ∈ Nested.columns d → "timestamp" ∉ Nested.columns d →
   Nested.clean_events to_datetime d w = (Raise (KeyError "timestamp"), w)) ∧
  (∀ pu pt,
     col_pos "user_id" (Nested.columns d) = Some pu →
     col_pos "timestamp" (Nested.columns d) = Some pt →
     ((∃ r c, unhashable pu pt r c) →
      Nested.clean_events to_datetime d w
      = (Raise (TypeError "unhashable type: 'list'"), w)) ∧
     ((∀ r c, ¬ unhashable pu pt r c) →
      let with_user :=
        filter (λ r, Nested.notna (Nested.cell pu r)) (Nested.rows d) in
      let parsed :=
        zip_with (Nested.set_cell pt) with_user
          (Nested.Scalar <$> to_datetime (Nested.cell pt <$> with_user)) in
      let missing :=
        length (filter (λ r, Nested.isna (Nested.cell pu r)) (Nested.rows d)) in
      let invalid :=
        length (filter (λ r, Nested.isna (Nested.cell pt r)) parsed) in
      ∃ d' deduped,
        Nested.clean_events to_datetime d w =
          (Ok d',
           World (heap w) (files w)
             (stdout w
              ++ clean_log (Nested.len d) missing invalid deduped (Nested.len d'))) ∧
        Nested.rows d'
          `sublist_of` filter (λ r, Nested.notna (Nested.cell pt r)) parsed ∧
        Nested.len d = missing + invalid + deduped + Nested.len d')).
Proof.
  intros unhashable.
  assert ("user_id" ∉ Nested.columns d →
          Nested.clean_events to_datetime d w = (Raise (KeyError "user_id"), w))
    as Hnu.
  { intros Hn. unfold Nested.clean_events, bind, lift.
    by rewrite (nested_getitem_missing _ _ Hn). }
  assert ("user_id" ∈ Nested.columns d → "timestamp" ∉ Nested.columns d →
          Nested.clean_events to_datetime d w = (Raise (KeyError "timestamp"), w))
    as Hnt.
  { intros [pu Hu]%col_pos_elem_of Hn. unfold Nested.clean_events, bind, lift.
    rewrite (nested_getitem_at _ _ _ Hu), (nested_dropna_at _ _ _ Hu).
    rewrite nested_getitem_missing; done. }
  assert (∀ pu pt ps,
            col_pos "user_id" (Nested.columns d) = Some pu →
            col_pos "timestamp" (Nested.columns d) = Some pt →
            locs (Nested.columns d) (identity_cols (Nested.columns d)) = Ok ps →
            forallb (forallb Nested.hashable)
              (Nested.key_at ps <$> Nested.valid_rows to_datetime pu pt d)
            ↔ ∀ r c, ¬ unhashable pu pt r c) as Hhash.
  { intros pu pt ps Hu Ht Hps. rewrite (hashable_keys d ps _ Hps). split.
    - intros Hall r c (Hr & Hc & Hid & Hno). apply Hno. by apply Hall.
    - intros Hall r c Hr Hc Hid.
      destruct (Nested.hashable (Nested.field d c r)) eqn:Hh; [done|].
      destruct (Hall r c). unfold unhashable. split_and!; [done..|].
      rewrite Hh. by intros []. }
  assert (∀ pu pt,
            col_pos "user_id" (Nested.columns d) = Some pu →
            col_pos "timestamp" (Nested.columns d) = Some pt →
            (∃ r c, unhashable pu pt r c) →
            Nested.clean_events to_datetime d w
            = (Raise (TypeError "unhashable type: 'list'"), w)) as Hlist.
  { intros pu pt Hu Ht (r & c & Hbad).
    destruct (identity_cols_locs (Nested.columns d)) as [ps Hps].
    pose proof (nested_clean_events_run w d pu pt ps Hu Ht Hps) as Hrun.
    cbn zeta in Hrun.
    destruct (forallb (forallb Nested.hashable) _) eqn:Hkeys in Hrun; [|done].
    destruct (proj1 (Hhash pu pt ps Hu Ht Hps) (Is_true_true_2 _ Hkeys) r c Hbad). }
  assert (∀ pu pt,
            col_pos "user_id" (Nested.columns d) = Some pu →
            col_pos "timestamp" (Nested.columns d) = Some pt →
            (∀ r c, ¬ unhashable pu pt r c) →
            let with_user :=
              filter (λ r, Nested.notna (Nested.cell pu r)) (Nested.rows d) in
            let parsed :=
              zip_with (Nested.set_cell pt) with_user
                (Nested.Scalar <$> to_datetime (Nested.cell pt <$> with_user)) in
            let missing :=
              length (filter (λ r, Nested.isna (Nested.cell pu r)) (Nested.rows d)) in
            let invalid :=
              length (filter (λ r, Nested.isna (Nested.cell pt r)) parsed) in
            ∃ d' deduped,
              Nested.clean_events to_datetime d w =
                (Ok d',
                 World (heap w) (files w)
                   (stdout w
                    ++ clean_log (Nested.len d) missing invalid deduped
                         (Nested.len d'))) ∧
              Nested.rows d'
                `sublist_of` filter (λ r, Nested.notna (Nested.cell pt r)) parsed ∧
              Nested.len d = missing + invalid + deduped + Nested.len d') as Hok.
  { intros pu pt Hu Ht Hgood with_user parsed missing invalid.
    destruct (identity_cols_locs (Nested.columns d)) as [ps Hps].
    pose proof (nested_clean_events_run w d pu pt ps Hu Ht Hps) as Hrun.
    cbn zeta in Hrun.
    rewrite (Is_true_true_1 _ (proj2 (Hhash pu pt ps Hu Ht Hps) Hgood)) in Hrun.
    unfold Nested.valid_rows in Hrun.
    fold with_user in Hrun. fold parsed in Hrun. fold missing invalid in Hrun.
    set (valid := filter (λ r, Nested.notna (Nested.cell pt r)) parsed) in *.
    set (kept := compress _ valid) in *.
    exists (Nested.mkDF (Nested.columns d) kept), (length valid - length kept).
    split; [exact Hrun|]. unfold Nested.len. cbn [Nested.rows].
    assert (kept `sublist_of` valid) as Hsub by apply compress_sublist.
    split; [done|].
    pose proof (sublist_length _ _ Hsub).
    assert (length (filter (λ r, Nested.isna (Nested.cell pu r)) (Nested.rows d))
            + length with_user = length (Nested.rows d)) as H1
      by apply (filter_negb_length (λ r, Nested.isna (Nested.cell pu r))).
    assert (length (filter (λ r, Nested.isna (Nested.cell pt r)) parsed)
            + length valid = length parsed) as H2
      by apply (filter_negb_length (λ r, Nested.isna (Nested.cell pt r))).
    assert (length parsed = length with_user) as H3.
    { unfold parsed. rewrite length_zip_with_l_eq; [done|].
      by rewrite length_fmap, to_datetime_length, length_fmap. }
    subst missing invalid. lia. }
  split; [|split_and!; [done..|]].
  - split.
    + intros [e He].
      destruct (decide ("user_id" ∈ Nested.columns d)) as [Hu|]; [|by left].
      destruct (decide ("timestamp" ∈ Nested.columns d)) as [Ht|];
        [|by right; left].
      apply col_pos_elem_of in Hu as [pu Hu].
      apply col_pos_elem_of in Ht as [pt Ht].
      right; right. exists pu, pt.
      destruct (identity_cols_locs (Nested.columns d)) as [ps Hps].
      destruct (forallb (forallb Nested.hashable)
                  (Nested.key_at ps <$> Nested.valid_rows to_datetime pu pt d))
        eqn:Hkeys.
      * destruct (Hok pu pt Hu Ht) as (? & ? & Heq & _);
          [by apply (Hhash pu pt ps), Is_true_true_2|].
        by rewrite Heq in He.
      * destruct (unhashable_key d ps _ Hps Hkeys) as (r & c & Hbad).
        by exists r, c.
    + intros [Hn|[Hn|(pu & pt & r & c & Hu & Ht & Hbad)]].
      * exists (KeyError "user_id"). by rewrite Hnu.
      * destruct (decide ("user_id" ∈ Nested.columns d)) as [Hu|Hu].
        -- exists (KeyError "timestamp"). by rewrite Hnt.
        -- exists (KeyError "user_id"). by rewrite Hnu.
      * exists (TypeError "unhashable type: 'list'").
        rewrite (Hlist pu pt Hu Ht); [done|]. by exists r, c.
  - intros pu pt Hu Ht. split; [by apply Hlist|by apply Hok].
Qed.

End NestedCleaner.

Lemma nested_iso_to_datetime_length series :
  length (Nested.iso_to_datetime series) = length series.
Proof. apply length_fmap. Qed.

(** C8 as stated fails: both columns are there, and the Cleaner raises,
    because the tags of the first event are a list. *)
Lemma clean_events_raises_with_both_columns :
  let w := World [] ∅ [] in
  "user_id" ∈ Nested.columns tagged_events ∧
  "timestamp" ∈ Nested.columns tagged_events ∧
  Nested.clean_events Nested.iso_to_datetime tagged_events w
  = (Raise (TypeError "unhashable type: 'list'"), w) ∧
  ¬ ((∃ e, (Nested.clean_events Nested.iso_to_datetime tagged_events w).1
            = Raise e) →
     "user_id" ∉ Nested.columns tagged_events ∨
     "timestamp" ∉ Nested.columns tagged_events).
Proof.
  intros w.
  assert ("user_id" ∈ Nested.columns tagged_events) as Hu by compute_done.
  assert ("timestamp" ∈ Nested.columns tagged_events) as Ht by compute_done.
  assert (Nested.clean_events Nested.iso_to_datetime tagged_events w
          = (Raise (TypeError "unhashable type: 'list'"), w)) as Hrun
    by (vm_compute; reflexivity).
  split_and!; [done..|].
  intros Himp. destruct Himp as [Hn|Hn]; [|done..].
  exists (TypeError "unhashable type: 'list'"). by rewrite Hrun.
Qed.

(** A list in a metadata column is never hashed: the Cleaner returns,
    and the second event goes as a duplicate of the first. *)
Example clean_events_metadata_list :
  Nested.clean_events Nested.iso_to_datetime metadata_tagged_events
    (World [] ∅ [])
  = (Ok (Nested.mkDF ["user_id"; "timestamp"; "metadata.tags"]
           [Nested.mkRow 0 [Nested.Scalar (VInt 1);
                            Nested.Scalar (VTime 1704103200000000000);
                            Nested.PyList [VStr "new"; VStr "mobile"]]]),
     World [] ∅
       ["Initial row count: 2";
        "Rows dropped due to bad users: 0";
        "Rows dropped due to invalid timestamps: 0";
        "Rows dropped due to duplicates: 1";
        "Remaining rows after cleaning: 1"]).
Proof. vm_compute. reflexivity. Qed.

Lemma clean_events_raises_on_schema_or_list_example :
  let w := World [] ∅ [] in
  let d := tagged_events in
  let row :=
    Nested.mkRow 0 [Nested.Scalar (VInt 1);
                    Nested.Scalar (VTime 1704103200000000000);
                    Nested.PyList [VStr "new"; VStr "mobile"]] in
  col_pos "user_id" (Nested.columns d) = Some 0 ∧
  col_pos "timestamp" (Nested.columns d) = Some 1 ∧
  (row ∈ Nested.valid_rows Nested.iso_to_datetime 0 1 d ∧
   "tags" ∈ Nested.columns d ∧ identity_col "tags" ∧
   ¬ Nested.hashable (Nested.field d "tags" row)) ∧
  (∃ e, (Nested.clean_events Nested.iso_to_datetime d w).1 = Raise e) ∧
  Nested.clean_events Nested.iso_to_datetime d w
  = (Raise (TypeError "unhashable type: 'list'"), w).
Proof.
  intros w d row.
  assert (col_pos "user_id" (Nested.columns d) = Some 0) as Hu by reflexivity.
  assert (col_pos "timestamp" (Nested.columns d) = Some 1) as Ht by reflexivity.
  assert (row ∈ Nested.valid_rows Nested.iso_to_datetime 0 1 d ∧
          "tags" ∈ Nested.columns d ∧ identity_col "tags" ∧
          ¬ Nested.hashable (Nested.field d "tags" row)) as Hbad.
  { split_and!.
    - assert (Nested.valid_rows Nested.iso_to_datetime 0 1 d
              = [row;
                 Nested.mkRow 1 [Nested.Scalar (VInt 2);
                                 Nested.Scalar (VTime 1704106800000000000);
                                 Nested.Scalar VNull]]) as ->
        by (vm_compute; reflexivity).
      by left.
    - compute_done.
    - compute_done.
    - compute_done. }
  destruct (clean_events_raises_on_schema_or_list Nested.iso_to_datetime
              nested_iso_to_datetime_length w d)
    as (Hiff & _ & _ & Hcases).
  split; [exact Hu|]. split; [exact Ht|]. split; [exact Hbad|]. split.
  - apply Hiff. right; right. by exists 0, 1, row, "tags".
  - apply (Hcases 0 1 Hu Ht). by exists row, "tags".
Defined.

(** ** The Cleaner on frames of scalars

    On a frame without lists the two transcriptions of the Cleaner do
    the same: what is proved of [clean_events] above is proved of
    [Nested.clean_events] on such frames. *)

Lemma filter_fmap_comm {A B} (f : A → B) (P : B → Prop) (Q : A → Prop)
    `{!∀ y, Decision (P y), !∀ x, Decision (Q x)} (l : list A) :
  (∀ x, P (f x) ↔ Q x) → filter P (f <$> l) = f <$> filter Q l.
Proof.
  intros Hiff. induction l as [|x l IH]; [done|].
  rewrite fmap_cons, !filter_cons, IH.
  destruct (decide (P (f x))) as [HP|HP], (decide (Q x)) as [HQ|HQ]; try done.
  - exfalso. by apply HQ, Hiff.
  - exfalso. by apply HP, Hiff.
Qed.

Lemma compress_fmap_comm {A B} (f : A → B) (mask : list bool) (l : list A) :
  compress mask (f <$> l) = f <$> compress mask l.
Proof.
  revert mask. induction l as [|x l IH]; intros [|[] mask]; simpl; try done.
  by rewrite IH.
Qed.

Lemma nested_cell_scalar p r :
  Nested.cell p (nested_row r) = Nested.Scalar (cell p r).
Proof.
  unfold Nested.cell, cell, nested_row. cbn [Nested.cells].
  rewrite list_lookup_fmap. by destruct (cells r !! p).
Qed.

Lemma nested_set_cell_scalar p r v :
  Nested.set_cell p (nested_row r) (Nested.Scalar v) = nested_row (set_cell p r v).
Proof.
  unfold Nested.set_cell, set_cell, nested_row. cbn [Nested.cells Nested.label].
  simpl. by rewrite list_fmap_insert.
Qed.

Lemma nested_zip_with_scalar p (l : list Row) (vs : list value) :
  zip_with (Nested.set_cell p) (nested_row <$> l) (Nested.Scalar <$> vs)
  = nested_row <$> zip_with (set_cell p) l vs.
Proof.
  revert vs. induction l as [|r l IH]; intros [|v vs]; try done.
  rewrite !fmap_cons. cbn [zip_with]. rewrite fmap_cons.
  by rewrite nested_set_cell_scalar, IH.
Qed.

Lemma nested_key_at_scalar ps r :
  Nested.key_at ps (nested_row r) = Nested.Scalar <$> key_at ps r.
Proof.
  unfold Nested.key_at, key_at. rewrite <- list_fmap_compose.
  apply list_fmap_ext. intros i p _. simpl. apply nested_cell_scalar.
Qed.

#[local] Instance Scalar_inj : Inj (=) (=) Nested.Scalar.
Proof. by intros v1 v2 [= ->]. Qed.

Lemma nested_duplicated_from_scalar (seen keys : list (list value)) :
  Nested.duplicated_from (fmap (M:=list) Nested.Scalar <$> seen) (fmap (M:=list) Nested.Scalar <$> keys)
  = duplicated_from seen keys.
Proof.
  revert seen. induction keys as [|k ks IH]; intros seen; [done|].
  rewrite fmap_cons. cbn [Nested.duplicated_from duplicated_from].
  rewrite <- (IH (k :: seen)), fmap_cons. f_equal.
  apply bool_decide_ext, list_elem_of_fmap_inj. apply _.
Qed.

Section ScalarFrames.

Variable to_datetime : list value → list value.
Variable to_datetime_nested : list Nested.pyvalue → list value.

(** On a series without lists the two parsers are the same parser. *)
Hypothesis to_datetime_scalars :
  ∀ series, to_datetime_nested (Nested.Scalar <$> series) = to_datetime series.

Lemma nested_valid_rows_scalar pu pt d :
  Nested.valid_rows to_datetime_nested pu pt (nested d)
  = nested_row <$> valid_rows to_datetime pu pt d.
Proof.
  unfold Nested.valid_rows, valid_rows, nested. cbn [Nested.rows].
  rewrite (filter_fmap_comm nested_row _ (λ r, notna (cell pu r)))
    by (intros r; by rewrite nested_cell_scalar).
  rewrite <- list_fmap_compose.
  rewrite (list_fmap_ext (Nested.cell pt ∘ nested_row) (Nested.Scalar ∘ cell pt))
    by (intros i r _; apply nested_cell_scalar).
  rewrite list_fmap_compose, to_datetime_scalars, nested_zip_with_scalar.
  apply filter_fmap_comm. intros r. by rewrite nested_cell_scalar.
Qed.

Lemma nested_clean_events_scalars w df d :
  heap w !! df = Some d →
  match clean_events to_datetime df w with
  | (Ok out, w') =>
      ∃ d', heap w' !! out = Some d' ∧
            Nested.clean_events to_datetime_nested (nested d) w
            = (Ok (nested d'), World (heap w) (files w') (stdout w'))
  | (Raise e, w') =>
      Nested.clean_events to_datetime_nested (nested d) w = (Raise e, w')
  end.
Proof.
  intros Hd.
  destruct (decide ("user_id" ∈ columns d)) as [Hu|Hu].
  2:{ unfold clean_events, Nested.clean_events, bind, deref, lift. rewrite Hd.
      rewrite (getitem_missing _ _ Hu), nested_getitem_missing; done. }
  apply col_pos_elem_of in Hu as [pu Hu].
  destruct (decide ("timestamp" ∈ columns d)) as [Ht|Ht].
  2:{ unfold clean_events, Nested.clean_events, bind, deref, lift. rewrite Hd.
      rewrite (getitem_at _ _ _ Hu), (dropna_at _ _ _ Hu).
      rewrite (nested_getitem_at _ _ pu), (nested_dropna_at _ _ pu) by done.
      rewrite getitem_missing, nested_getitem_missing; done. }
  apply col_pos_elem_of in Ht as [pt Ht].
  destruct (identity_cols_locs (columns d)) as [ps Hps].
  rewrite (clean_events_run to_datetime w df d pu pt ps Hd Hu Ht Hps).
  cbn zeta.
  set (valid := valid_rows to_datetime pu pt d).
  set (kept := compress _ valid).
  exists (mkDF (columns d) kept). split; [apply heap_new_lookup|].
  rewrite (nested_clean_events_run to_datetime_nested w (nested d) pu pt ps)
    by done.
  cbn zeta. rewrite nested_valid_rows_scalar. fold valid.
  rewrite <- list_fmap_compose.
  rewrite (list_fmap_ext (Nested.key_at ps ∘ nested_row)
             (fmap (M:=list) Nested.Scalar ∘ key_at ps))
    by (intros i r _; apply nested_key_at_scalar).
  rewrite list_fmap_compose.
  assert (forallb (forallb Nested.hashable)
            (fmap (M:=list) Nested.Scalar <$> (key_at ps <$> valid)) = true) as ->.
  { apply Is_true_true, forallb_True, Forall_fmap, Forall_forall.
    intros k _. simpl. apply forallb_True, Forall_fmap, Forall_forall. done. }
  unfold Nested.duplicated. rewrite (nested_duplicated_from_scalar []).
  fold (duplicated (key_at ps <$> valid)).
  rewrite compress_fmap_comm. fold kept.
  cbn [heap files stdout]. unfold nested, Nested.len, len.
  cbn [Nested.rows Nested.columns columns rows].
  rewrite !length_fmap.
  rewrite (filter_fmap_comm nested_row _ (λ r, isna (cell pu r)))
    by (intros r; by rewrite nested_cell_scalar).
  rewrite (filter_fmap_comm nested_row _ (λ r, notna (cell pu r)))
    by (intros r; by rewrite nested_cell_scalar).
  rewrite <- (list_fmap_compose nested_row (Nested.cell pt)).
  rewrite (list_fmap_ext (Nested.cell pt ∘ nested_row) (Nested.Scalar ∘ cell pt))
    by (intros i r _; apply nested_cell_scalar).
  rewrite list_fmap_compose, to_datetime_scalars, nested_zip_with_scalar.
  rewrite (filter_fmap_comm nested_row _ (λ r, isna (cell pt r)))
    by (intros r; by rewrite nested_cell_scalar).
  by rewrite !length_fmap.
Qed.

End ScalarFrames.

(** ** The further properties at work *)

Lemma clean_events_changes_only_timestamp_example :
  let w := World [metadata_events] ∅ [] in
  let d := metadata_events in
  heap w !! 0 = Some d ∧
  col_pos "user_id" (columns d) = Some 0 ∧
  col_pos "timestamp" (columns d) = Some 1 ∧
  ∃ out w' d',
    clean_events iso_to_datetime 0 w = (Ok out, w') ∧
    heap w' !! out = Some d' ∧
    columns d' = columns d ∧
    ∃ kept,
      kept `sublist_of` rows d ∧
      Forall2
        (λ r' r,
           label r' = label r ∧
           length (cells r') = length (cells r) ∧
           ∀ p, p ≠ 1 → cells r' !! p = cells r !! p)
        (rows d') kept.
Proof.
  intros w d. split_and!; [reflexivity..|].
  apply (clean_events_changes_only_timestamp iso_to_datetime
           iso_to_datetime_length w 0 d 0 1); reflexivity.
Defined.

Lemma clean_events_keeps_a_representative_example :
  let w := World [metadata_events] ∅ [] in
  let d := metadata_events in
  heap w !! 0 = Some d ∧
  col_pos "user_id" (columns d) = Some 0 ∧
  col_pos "timestamp" (columns d) = Some 1 ∧
  ∃ out w' d',
    clean_events iso_to_datetime 0 w = (Ok out, w') ∧
    heap w' !! out = Some d' ∧
    ∀ r, r ∈ valid_rows iso_to_datetime 0 1 d →
         ∃ r', r' ∈ rows d' ∧ same_identity d r' r.
Proof.
  intros w d. split_and!; [reflexivity..|].
  apply (clean_events_keeps_a_representative iso_to_datetime w 0 d 0 1);
    reflexivity.
Defined.

Lemma clean_events_fixed_point_example :
  let w := join_world in
  let d := cleaned_events in
  heap w !! 0 = Some d ∧
  col_pos "user_id" (columns d) = Some 0 ∧
  col_pos "timestamp" (columns d) = Some 1 ∧
  (∀ r, r ∈ rows d → cell 0 r ≠ VNull ∧ ∃ ns, cell 1 r = VTime ns) ∧
  (∀ i j r1 r2, rows d !! i = Some r1 → rows d !! j = Some r2 →
     same_identity d r1 r2 → i = j) ∧
  clean_events iso_to_datetime 0 w =
    (Ok (length (heap w)),
     World (heap w ++ [d]) (files w)
       (stdout w ++ clean_log (len d) 0 0 0 (len d))).
Proof.
  intros w d.
  assert (∀ r, r ∈ rows d → cell 0 r ≠ VNull ∧ ∃ ns, cell 1 r = VTime ns)
    as Hrows.
  { apply Forall_forall.
    repeat (constructor; [split; [done|by eexists]|]). constructor. }
  assert (∀ i j r1 r2, rows d !! i = Some r1 → rows d !! j = Some r2 →
            same_identity d r1 r2 → i = j) as Hdistinct.
  { intros i j r1 r2 H1 H2 Hsame.
    assert (field d "user_id" r1 = field d "user_id" r2) as Hu
      by (apply Hsame; compute_done).
    destruct i as [|[|[|[|i]]]]; try discriminate H1;
      destruct j as [|[|[|[|j]]]]; try discriminate H2;
      injection H1 as <-; injection H2 as <-;
      first [reflexivity | discriminate Hu]. }
  split_and!; [reflexivity..|exact Hrows|exact Hdistinct|].
  apply (clean_events_fixed_point iso_to_datetime iso_to_datetime_parsed
           w 0 d 0 1); [reflexivity..|exact Hrows|exact Hdistinct].
Defined.

Lemma join_and_filter_missing_signup_date_example :
  let w := World [cleaned_events; users_without_signup] ∅ [] in
  let e := cleaned_events in
  let u := users_without_signup in
  heap w !! 0 = Some e ∧ heap w !! 1 = Some u ∧
  col_pos "user_id" (columns e) = Some 0 ∧
  col_pos "user_id" (columns u) = Some 0 ∧
  col_pos "country" (columns u) = Some 1 ∧
  ("signup_date" ∉ columns e) ∧ ("signup_date" ∉ columns u) ∧
  (∀ c, c ∈ columns e → c ∉ delete 0 (columns u)) ∧
  (∀ r, r ∈ rows e → ∃ n, cell 0 r = VInt n) ∧
  (∀ r, r ∈ rows u → ∃ n, cell 0 r = VInt n) ∧
  join_and_filter iso_to_datetime 0 1 w =
    (Raise (KeyError "signup_date"),
     World (heap w) (files w)
       (stdout w ++
          ["Rows dropped due to non-US filter: 1";
           "Row count after join + filter: 1"])).
Proof.
  intros w e u.
  assert (∀ r, r ∈ rows e → ∃ n, cell 0 r = VInt n) as Hke
    by (apply Forall_forall; repeat (constructor; [by eexists|]); constructor).
  assert (∀ r, r ∈ rows u → ∃ n, cell 0 r = VInt n) as Hku
    by (apply Forall_forall; repeat (constructor; [by eexists|]); constructor).
  assert (∀ c, c ∈ columns e → c ∉ delete 0 (columns u)) as Hfresh
    by (apply Forall_forall; compute_done).
  do 7 (split; [by_evaluation|]).
  split; [exact Hfresh|]. split; [exact Hke|]. split; [exact Hku|].
  apply (join_and_filter_missing_signup_date iso_to_datetime w 0 1 e u 0 0 1);
    [by_evaluation..|exact Hfresh|exact Hke|exact Hku].
Defined.


Lemma join_and_filter_columns_example :
  let w := join_world in
  let e := cleaned_events in
  let u := segment_users in
  heap w !! 0 = Some e ∧ heap w !! 1 = Some u ∧
  "user_id" ∈ columns e ∧
  col_pos "user_id" (columns u) = Some 0 ∧
  "country" ∈ columns u ∧ "signup_date" ∈ columns u ∧
  (∀ c, c ∈ columns e → c ∉ delete 0 (columns u)) ∧
  ∃ out w' d',
    join_and_filter iso_to_datetime 0 1 w = (Ok out, w') ∧
    heap w' !! out = Some d' ∧
    columns d' = columns e ++ delete 0 (columns u).
Proof.
  intros w e u.
  assert (∀ c, c ∈ columns e → c ∉ delete 0 (columns u)) as Hfresh
    by (apply Forall_forall; compute_done).
  do 6 (split; [by_evaluation|]). split; [exact Hfresh|].
  apply (join_and_filter_columns iso_to_datetime w 0 1 e u 0);
    [by_evaluation..|exact Hfresh].
Defined.

Lemma join_and_filter_no_fan_out_example :
  let w := join_world in
  let e := cleaned_events in
  let u := segment_users in
  heap w !! 0 = Some e ∧ heap w !! 1 = Some u ∧
  rectangular e ∧
  "user_id" ∈ columns e ∧
  ("country" ∉ columns e) ∧ ("signup_date" ∉ columns e) ∧
  col_pos "user_id" (columns u) = Some 0 ∧
  "country" ∈ columns u ∧ "signup_date" ∈ columns u ∧
  NoDup (cell 0 <$> rows u) ∧
  ∃ out w' d',
    join_and_filter iso_to_datetime 0 1 w = (Ok out, w') ∧
    heap w' !! out = Some d' ∧ (len d' ≤ len e)%nat.
Proof.
  intros w e u.
  assert (rectangular e) as Hrect by (repeat constructor).
  do 2 (split; [reflexivity|]). split; [exact Hrect|].
  do 7 (split; [by_evaluation|]).
  apply (join_and_filter_no_fan_out iso_to_datetime iso_to_datetime_length
           w 0 1 e u 0);
    [reflexivity|reflexivity|exact Hrect|by_evaluation..].
Defined.

Lemma create_daily_summary_missing_user_id_example :
  let w := World [events_without_user] ∅ [] in
  let d := events_without_user in
  heap w !! 0 = Some d ∧
  col_pos "timestamp" (columns d) = Some 0 ∧
  Forall (λ r, is_datetimelike (cell 0 r)) (rows d) ∧
  ("user_id" ∉ columns d) ∧
  create_daily_summary 0 w =
    (Raise (KeyError "user_id"),
     World
       [mkDF ["timestamp"; "country"; "event_date"]
          [mkRow 0 [VTime 1704103200000000000; VStr "US"; VDate 19723]]]
       (files w) (stdout w)).
Proof.
  intros w d.
  assert (Forall (λ r, is_datetimelike (cell 0 r)) (rows d)) as Htimes
    by (repeat constructor).
  split; [reflexivity|]. split; [reflexivity|]. split; [exact Htimes|].
  split; [compute_done|].
  apply (create_daily_summary_missing_user_id w 0 d 0);
    [reflexivity|reflexivity|exact Htimes|compute_done].
Defined.

Lemma create_daily_summary_unparsed_timestamp_example :
  let w := example_world in
  let d := example_events in
  let r := mkRow 0 [VInt 1; VStr "2024-01-01T10:00:00Z"] in
  heap w !! 0 = Some d ∧
  col_pos "timestamp" (columns d) = Some 1 ∧
  r ∈ rows d ∧ ¬ is_datetimelike (cell 1 r) ∧
  create_daily_summary 0 w =
    (Raise (AttributeError "Can only use .dt accessor with datetimelike values"),
     w).
Proof.
  intros w d r.
  assert (r ∈ rows d) as Hr by (by left).
  assert (¬ is_datetimelike (cell 1 r)) as Hbad by (by intros []).
  split; [reflexivity|]. split; [reflexivity|]. split; [exact Hr|].
  split; [exact Hbad|].
  apply (create_daily_summary_unparsed_timestamp w 0 d 1 r);
    [reflexivity|reflexivity|exact Hr|exact Hbad].
Defined.

Lemma create_daily_summary_skips_missing_keys_example :
  let w := World [enriched_with_gaps] ∅ [] in
  let d := enriched_with_gaps in
  heap w !! 0 = Some d ∧ rectangular d ∧
  col_pos "timestamp" (columns d) = Some 1 ∧
  col_pos "user_id" (columns d) = Some 0 ∧
  Forall (λ r, is_datetimelike (cell 1 r)) (rows d) ∧
  ∃ out w' s,
    create_daily_summary 0 w = (Ok out, w') ∧ heap w' !! out = Some s ∧
    sum_list_with (event_count s) (rows s)
    = length (filter (λ r, notna (cell 1 r) ∧ notna (cell 0 r)) (rows d)) ∧
    ∀ g, g ∈ rows s →
         field s "event_date" g ≠ VNull ∧ field s "user_id" g ≠ VNull.
Proof.
  intros w d.
  assert (rectangular d) as Hrect by (repeat constructor).
  assert (Forall (λ r, is_datetimelike (cell 1 r)) (rows d)) as Htimes
    by (repeat constructor).
  split_and!; [reflexivity|exact Hrect|reflexivity|reflexivity|exact Htimes|].
  apply (create_daily_summary_skips_missing_keys w 0 d 1 0);
    [reflexivity|exact Hrect|reflexivity|reflexivity|exact Htimes].
Defined.

(** The two rows with a missing key are in no group. *)
Example create_daily_summary_enriched_with_gaps :
  ∃ w',
    create_daily_summary 0 (World [enriched_with_gaps] ∅ []) = (Ok 1, w') ∧
    heap w' !! 1 =
      Some (mkDF ["event_date"; "user_id"; "event_count"]
              [mkRow 0 [VDate 19723; VInt 1; VInt 2]]).
Proof. eexists. split; [vm_compute; reflexivity|reflexivity]. Qed.

Lemma create_daily_summary_event_date_example :
  let w := World [enriched_events] ∅ [] in
  let d := enriched_events in
  heap w !! 0 = Some d ∧ rectangular d ∧
  col_pos "timestamp" (columns d) = Some 1 ∧
  "user_id" ∈ columns d ∧
  Forall (λ r, is_datetimelike (cell 1 r)) (rows d) ∧
  ∃ out w' d1,
    create_daily_summary 0 w = (Ok out, w') ∧
    heap w' !! 0 = Some d1 ∧
    Forall2
      (λ r1 r,
         label r1 = label r ∧
         field d1 "event_date" r1 = date_of (field d "timestamp" r) ∧
         ∀ c, c ∈ columns d → c ≠ "event_date" → field d1 c r1 = field d c r)
      (rows d1) (rows d).
Proof.
  intros w d.
  assert (rectangular d) as Hrect by (repeat constructor).
  assert (Forall (λ r, is_datetimelike (cell 1 r)) (rows d)) as Htimes
    by (repeat constructor).
  split_and!; [reflexivity|exact Hrect|reflexivity|compute_done|exact Htimes|].
  apply (create_daily_summary_event_date w 0 d 1);
    [reflexivity|exact Hrect|reflexivity|compute_done|exact Htimes].
Defined.

Lemma create_daily_summary_sorted_example :
  let w := World [enriched_events] ∅ [] in
  let d := enriched_events in
  heap w !! 0 = Some d ∧ rectangular d ∧
  col_pos "timestamp" (columns d) = Some 1 ∧
  col_pos "user_id" (columns d) = Some 0 ∧
  (∀ r, r ∈ rows d → (∃ ns, cell 1 r = VTime ns) ∧ ∃ n, cell 0 r = VInt n) ∧
  ∃ out w' s,
    create_daily_summary 0 w = (Ok out, w') ∧ heap w' !! out = Some s ∧
    ∀ i g g',
      rows s !! i = Some g → rows s !! S i = Some g' →
      ∃ day uid day' uid',
        field s "event_date" g = VDate day ∧
        field s "user_id" g = VInt uid ∧
        field s "event_date" g' = VDate day' ∧
        field s "user_id" g' = VInt uid' ∧
        ((day < day')%Z ∨ day = day' ∧ (uid ≤ uid')%Z).
Proof.
  intros w d.
  assert (rectangular d) as Hrect by (repeat constructor).
  assert (∀ r, r ∈ rows d →
            (∃ ns, cell 1 r = VTime ns) ∧ ∃ n, cell 0 r = VInt n) as Hrows.
  { apply Forall_forall.
    repeat (constructor; [split; by eexists|]). constructor. }
  split_and!; [reflexivity|exact Hrect|reflexivity|reflexivity|exact Hrows|].
  apply (create_daily_summary_sorted w 0 d 1 0);
    [reflexivity|exact Hrect|reflexivity|reflexivity|exact Hrows].
Defined.

Lemma main_missing_input_file_example :
  let w := World [] (<[RAW_EVENTS_PATH := example_events]> ∅) [] in
  (files w !! RAW_EVENTS_PATH = None ∨ files w !! USERS_PATH = None) ∧
  ∃ path loaded,
    main iso_to_datetime w =
      (Raise (FileNotFoundError path),
       World (heap w ++ loaded) (files w)
         (stdout w ++ ["ETL pipeline starting..."])) ∧
    files w !! path = None ∧
    (files w !! RAW_EVENTS_PATH = None → path = RAW_EVENTS_PATH ∧ loaded = []) ∧
    (∀ e, files w !! RAW_EVENTS_PATH = Some e →
          path = USERS_PATH ∧ loaded = [e]).
Proof.
  intros w.
  assert (files w !! RAW_EVENTS_PATH = None ∨ files w !! USERS_PATH = None)
    as Hmissing by (right; by_evaluation).
  split; [exact Hmissing|].
  apply (main_missing_input_file iso_to_datetime w Hmissing).
Defined.

Lemma main_summary_accounts_for_enriched_example :
  let w := example_disk in
  let w' := (main iso_to_datetime w).2 in
  let e := example_events in
  let u := example_users in
  main iso_to_datetime w = (Ok (), w') ∧
  files w !! RAW_EVENTS_PATH = Some e ∧ files w !! USERS_PATH = Some u ∧
  rectangular e ∧ rectangular u ∧
  "user_id" ∈ columns e ∧ "timestamp" ∈ columns e ∧
  ("country" ∉ columns e) ∧ ("signup_date" ∉ columns e) ∧
  NoDup (columns u) ∧ "user_id" ∈ columns u ∧
  "country" ∈ columns u ∧ "signup_date" ∈ columns u ∧
  ("timestamp" ∉ columns u) ∧
  ∃ enriched summary lines,
    files w' =
      <[DAILY_SUMMARY_PATH := summary]>
        (<[CLEAN_EVENTS_PATH := enriched]> (files w)) ∧
    sum_list_with (event_count summary) (rows summary) = len enriched ∧
    stdout w' =
      lines
      ++ ["Wrote " +:+ pretty (len enriched) +:+ " rows to " +:+ CLEAN_EVENTS_PATH;
          "Wrote " +:+ pretty (len summary) +:+ " rows to " +:+ DAILY_SUMMARY_PATH;
          "ETL pipeline completed successfully"].
Proof.
  intros w w' e u.
  assert (main iso_to_datetime w = (Ok (), w')) as Hrun
    by (vm_compute; reflexivity).
  assert (rectangular e) as Hrect_e by (repeat constructor).
  assert (rectangular u) as Hrect_u by (repeat constructor).
  split; [exact Hrun|].
  do 2 (split; [by_evaluation|]).
  split; [exact Hrect_e|]. split; [exact Hrect_u|].
  do 9 (split; [by_evaluation|]).
  apply (main_summary_accounts_for_enriched iso_to_datetime
           iso_to_datetime_datetimelike w w' e u);
    [exact Hrun|by_evaluation|by_evaluation|exact Hrect_e|exact Hrect_u
    |by_evaluation..].
Defined.

Lemma main_no_valid_events_example :
  let w := no_users_disk in
  let e := anonymous_events in
  let u := example_users in
  files w !! RAW_EVENTS_PATH = Some e ∧ files w !! USERS_PATH = Some u ∧
  col_pos "user_id" (columns e) = Some 0 ∧ "timestamp" ∈ columns e ∧
  ("country" ∉ columns e) ∧ ("signup_date" ∉ columns e) ∧
  NoDup (columns u) ∧ "user_id" ∈ columns u ∧
  "country" ∈ columns u ∧ "signup_date" ∈ columns u ∧
  ("timestamp" ∉ columns u) ∧
  (∀ r, r ∈ rows e → cell 0 r = VNull) ∧
  ∃ w' cols,
    main iso_to_datetime w = (Ok (), w') ∧
    files w' =
      <[DAILY_SUMMARY_PATH := mkDF ["event_date"; "user_id"; "event_count"] []]>
        (<[CLEAN_EVENTS_PATH := mkDF cols []]> (files w)).
Proof.
  intros w e u.
  assert (∀ r, r ∈ rows e → cell 0 r = VNull) as Hnull
    by (apply Forall_forall; repeat constructor).
  do 11 (split; [by_evaluation|]). split; [exact Hnull|].
  apply (main_no_valid_events iso_to_datetime iso_to_datetime_datetimelike
           w e u 0); [by_evaluation..|exact Hnull].
Defined.


